(** * Remote session orchestrator of github-vsc

    A shallow embedding of the [RemoteSession] class (the extension's
    remote-session module) and of the collaborators it talks to.

    The source tree holds three revisions of the class:
    - the one with [RunnerError] and [disconnectRunner] (module [Current]);
    - the one before it, with the [SessionTimeout] and [SessionTerminated]
      statuses (module [Earlier]);
    - the first one, which [ControlPanelView] is written against (module
      [Oldest], with a world of its own).
    The git-ref helpers that come with them are in module [GitRef].

    The class is mutable and effectful: every method is a state transformer
    over a [World] made of the object's fields, of what lives outside the
    object (persisted sessions, armed timers, which sockets are connected,
    which listeners were registered on them, whether the terminal panel is
    visible) and of the ordered trace of calls made to the collaborators.

    Conventions of the embedding:
    - a listener is a function of its own ([on_connect], [on_disconnect],
      [on_sessionStarted], ...). The listeners [connectTo] registers on the
      socket it makes are there once for each socket, and run when their
      event arrives. The listeners registered later (by the connect
      listener, or by [registerSocketEventListeners]) are counted in the
      world, and their events ([deliver_sessionStarted], [deliver], ...)
      run one listener for each registration;
    - [socket.disconnect()] on a connected socket runs the [disconnect]
      listener before it returns, and [offAny()] removes only the catch-all
      listeners, as socket.io-client does;
    - what the source obtains from outside ([nanoid()], [dayjs()], the
      answer to a prompt, the socket [io] makes, the handle [setTimeout]
      returns) is an argument of the method;
    - times are milliseconds, and [diff(_, 'second')] truncates towards
      zero, as dayjs does. *)

From stdpp Require Import base strings gmap list.
From Stdlib Require Import ZArith Lia.

Open Scope Z_scope.
Open Scope string_scope.
Open Scope list_scope.

(** ** Values exchanged with the runner *)

Module RunnerStatus.
(** [RunnerStatus] of [./types]; the members are those the two revisions
    use. *)
Inductive t :=
| Initial
| Disconnected
| Connecting
| Connected
| SessionStarted
| SessionTimeout
| SessionTerminated.
#[global] Instance eq_dec : EqDecision t.
Proof. solve_decision. Defined.
(** [a === b] *)
Definition eqb (a b : t) : bool :=
  match a, b with
  | Initial, Initial | Disconnected, Disconnected | Connecting, Connecting
  | Connected, Connected | SessionStarted, SessionStarted
  | SessionTimeout, SessionTimeout | SessionTerminated, SessionTerminated => true
  | _, _ => false
  end.
(** [l.includes(a)] *)
Definition includes (l : list t) (a : t) : bool := existsb (eqb a) l.
End RunnerStatus.

Module RunnerError.
Inductive t :=
| Timeout
| SessionTerminated
| SessionIdDoesNotMatch.
#[global] Instance eq_dec : EqDecision t.
Proof. solve_decision. Defined.
(** [a === b], where [a] may be [undefined] *)
Definition matches (a : option t) (b : t) : bool :=
  match a, b with
  | Some Timeout, Timeout | Some SessionTerminated, SessionTerminated
  | Some SessionIdDoesNotMatch, SessionIdDoesNotMatch => true
  | _, _ => false
  end.
End RunnerError.

Module RunnerClientStatus.
Inductive t :=
| Offline
| Online.
#[global] Instance eq_dec : EqDecision t.
Proof. solve_decision. Defined.
Definition eqb (a b : t) : bool :=
  match a, b with
  | Offline, Offline | Online, Online => true
  | _, _ => false
  end.
End RunnerClientStatus.

Module RunnerServerType.
Inductive t :=
| GitHubActions
| OtherRunner.
#[global] Instance eq_dec : EqDecision t.
Proof. solve_decision. Defined.
End RunnerServerType.

(** A git ref, known through its [getRefKey]. *)
Abbreviation GitHubRef := string (only parsing).
(** A socket.io client socket, known through its identity. *)
Abbreviation Socket := nat (only parsing).
(** Milliseconds since the epoch: what a [Dayjs] value wraps. *)
Abbreviation Dayjs := Z (only parsing).

(** JavaScript truthiness of an optional string: [undefined] and the empty
    string are falsy. *)
Definition truthy (s : option string) : bool :=
  match s with
  | Some s => negb (String.eqb s "")
  | None => false
  end.

Module SessionData.
Record t := {
  githubRef : option GitHubRef;
  sessionId : option string;
  serverAddress : string;
  os : option string;
  defaultShell : option string;
}.
#[global] Instance eq_dec : EqDecision t.
Proof. solve_decision. Defined.
(** [{ ...d, sessionId }] *)
Definition with_sessionId (d : t) (s : option string) : t :=
  {| githubRef := githubRef d; sessionId := s; serverAddress := serverAddress d;
     os := os d; defaultShell := defaultShell d |}.
(** [{ ...d, defaultShell }] *)
Definition with_defaultShell (d : t) (s : option string) : t :=
  {| githubRef := githubRef d; sessionId := sessionId d;
     serverAddress := serverAddress d; os := os d; defaultShell := s |}.
End SessionData.

(** The shell a terminal runs: a path, or what [getDefaultShell] answers for
    the runner client's operating system. *)
Inductive Shell :=
| ShellPath (file : string)
| DefaultShell (runnerClientOS : option string).
#[global] Instance Shell_eq_dec : EqDecision Shell.
Proof. solve_decision. Defined.

Module TerminalOptions.
(** [TerminalOptions] of the runner core package. *)
Record t := {
  id : string;
  file : Shell;
  cols : Z;
  rows : Z;
}.
#[global] Instance eq_dec : EqDecision t.
Proof. solve_decision. Defined.
End TerminalOptions.

Module TerminalInstance.
(** [TerminalOptions & { activateTime; restoredFromRemote }] *)
Record t := {
  options : TerminalOptions.t;
  activateTime : Dayjs;
  restoredFromRemote : bool;
}.
#[global] Instance eq_dec : EqDecision t.
Proof. solve_decision. Defined.
Definition id (i : t) : string := TerminalOptions.id (options i).
End TerminalInstance.

Module RunnerStatusData.
Record t := {
  sessionId : option string;
  runnerStatus : RunnerStatus.t;
  runnerError : option RunnerError.t;
  runnerClientStatus : RunnerClientStatus.t;
  runnerClientOS : option string;
}.
#[global] Instance eq_dec : EqDecision t.
Proof. solve_decision. Defined.

(** [Partial<RunnerStatusData>]: [None] is a key the literal does not have;
    [Some None] is a key written with the value [undefined]. *)
Record partial := {
  p_sessionId : option (option string);
  p_runnerStatus : option RunnerStatus.t;
  p_runnerError : option (option RunnerError.t);
  p_runnerClientStatus : option RunnerClientStatus.t;
  p_runnerClientOS : option (option string);
}.

Definition no_change : partial :=
  {| p_sessionId := None; p_runnerStatus := None; p_runnerError := None;
     p_runnerClientStatus := None; p_runnerClientOS := None |}.

(** [{ ...d, ...p }] *)
Definition spread (d : t) (p : partial) : t :=
  {| sessionId := default (sessionId d) (p_sessionId p);
     runnerStatus := default (runnerStatus d) (p_runnerStatus p);
     runnerError := default (runnerError d) (p_runnerError p);
     runnerClientStatus := default (runnerClientStatus d) (p_runnerClientStatus p);
     runnerClientOS := default (runnerClientOS d) (p_runnerClientOS p) |}.
End RunnerStatusData.

(** ** Calls to the collaborators *)

(** Messages of [VscClientEvent], with their arguments. *)
Inductive VscClientEvent :=
| SetType (sessionId : option string)
| ActivateTerminal (options : TerminalInstance.t)
| FetchCurrentTerminals
| FetchCurrentPortForwarding
| CheckRunnerStatus
| TerminateSession
| SetPortForwarding (port : option Z).
#[global] Instance VscClientEvent_eq_dec : EqDecision VscClientEvent.
Proof. solve_decision. Defined.

Inductive PayloadType :=
| message
| error.
#[global] Instance PayloadType_eq_dec : EqDecision PayloadType.
Proof. solve_decision. Defined.

(** The text of a notification: a literal of the class, or an entry of the
    [runnerErrorMesage] table. *)
Inductive MessageText :=
| Text (s : string)
| runnerErrorMesage (e : RunnerError.t).
#[global] Instance MessageText_eq_dec : EqDecision MessageText.
Proof. solve_decision. Defined.

(** [RemoteSessionDataPayload]: the status data, a severity and a text. *)
Record Payload := {
  data : RunnerStatusData.t;
  type : PayloadType;
  text : option MessageText;
}.
#[global] Instance Payload_eq_dec : EqDecision Payload.
Proof. solve_decision. Defined.

(** A pending [setTimeout]: the connection timeout of the [connectTo] call
    that created a socket, or a workflow-dispatch timeout known by its
    handle. *)
Inductive Timer :=
| ConnectTimeout (socket : Socket)
| WorkflowDispatchTimeout (handle : nat).
#[global] Instance Timer_eq_dec : EqDecision Timer.
Proof. solve_decision. Defined.

(** What the class does to the outside, in the order it does it. *)
Inductive Effect :=
| OnUpdate (p : Payload)
| OnPortForwardingUpdate (port : option Z)
| OnDisconnected
| Io (socket : Socket) (address : string)
| Emit (socket : Socket) (e : VscClientEvent)
| SocketDisconnect (socket : Socket)
| SocketOffAny (socket : Socket)
| SetTimeout (t : Timer)
| ClearTimeout (t : Timer)
| Resolve (socket : Socket) (answer : bool)
| ShowInformationMessage (existing : string)
| ShowWarningMessage (s : string)
| RegisterFSEventHandlers (socket : Socket)
| RemoveFSSocket
| ExecuteCommand (command : string)
| CreateWebviewPanel
| RevealPanel
| DisposePanel
| PostSetTerminals (terminals : list TerminalInstance.t)
| SetupRunnerClientRepo
| DispatchRunnerClientWorkflow (address os sessionId : string) (ref : GitHubRef)
    (owner repo : string)
| LaunchRunnerClient (address os sessionId : string).
#[global] Instance Effect_eq_dec : EqDecision Effect.
Proof. solve_decision. Defined.

Record RunnerServer := {
  address : string;
  server_type : RunnerServerType.t;
}.

(** ** The world a method runs in *)

Record World := {
  (* fields of the object *)
  _data : option SessionData.t;
  _terminals : list TerminalInstance.t;
  _runnerStatusData : RunnerStatusData.t;
  socket : option Socket;
  _workflowDispatchTimeout : option nat;
  _panel : bool;
  (* outside the object *)
  (* [this._panel.visible], of the panel held *)
  panel_visible : bool;
  globalState : gmap (option GitHubRef) SessionData.t;
  allRunners : list RunnerServer;
  connected : list Socket;
  (* the listeners registered on a socket after [connectTo] has made it, one
     entry for each registration and in their order: the once-listeners of
     the session-started event in the revision with [disconnectRunner], the
     listeners of [registerSocketEventListeners] in the one before *)
  listeners : list Socket;
  timers : list Timer;
  trace : list Effect;
}.

Definition set_data (v : option SessionData.t) (w : World) : World :=
  {| _data := v; _terminals := _terminals w; _runnerStatusData := _runnerStatusData w;
     socket := socket w; _workflowDispatchTimeout := _workflowDispatchTimeout w;
     _panel := _panel w; panel_visible := panel_visible w; globalState := globalState w;
     allRunners := allRunners w; connected := connected w; listeners := listeners w;
     timers := timers w; trace := trace w |}.
Definition set_terminals (v : list TerminalInstance.t) (w : World) : World :=
  {| _data := _data w; _terminals := v; _runnerStatusData := _runnerStatusData w;
     socket := socket w; _workflowDispatchTimeout := _workflowDispatchTimeout w;
     _panel := _panel w; panel_visible := panel_visible w; globalState := globalState w;
     allRunners := allRunners w; connected := connected w; listeners := listeners w;
     timers := timers w; trace := trace w |}.
Definition set_runnerStatusData (v : RunnerStatusData.t) (w : World) : World :=
  {| _data := _data w; _terminals := _terminals w; _runnerStatusData := v; socket := socket w;
     _workflowDispatchTimeout := _workflowDispatchTimeout w; _panel := _panel w;
     panel_visible := panel_visible w; globalState := globalState w;
     allRunners := allRunners w; connected := connected w; listeners := listeners w;
     timers := timers w; trace := trace w |}.
Definition set_socket (v : option Socket) (w : World) : World :=
  {| _data := _data w; _terminals := _terminals w; _runnerStatusData := _runnerStatusData w;
     socket := v; _workflowDispatchTimeout := _workflowDispatchTimeout w; _panel := _panel w;
     panel_visible := panel_visible w; globalState := globalState w;
     allRunners := allRunners w; connected := connected w; listeners := listeners w;
     timers := timers w; trace := trace w |}.
Definition set_workflowDispatchTimeout (v : option nat) (w : World) : World :=
  {| _data := _data w; _terminals := _terminals w; _runnerStatusData := _runnerStatusData w;
     socket := socket w; _workflowDispatchTimeout := v; _panel := _panel w;
     panel_visible := panel_visible w; globalState := globalState w;
     allRunners := allRunners w; connected := connected w; listeners := listeners w;
     timers := timers w; trace := trace w |}.
Definition set_panel (v : bool) (w : World) : World :=
  {| _data := _data w; _terminals := _terminals w; _runnerStatusData := _runnerStatusData w;
     socket := socket w; _workflowDispatchTimeout := _workflowDispatchTimeout w; _panel := v;
     panel_visible := panel_visible w; globalState := globalState w;
     allRunners := allRunners w; connected := connected w; listeners := listeners w;
     timers := timers w; trace := trace w |}.
Definition set_panel_visible (v : bool) (w : World) : World :=
  {| _data := _data w; _terminals := _terminals w; _runnerStatusData := _runnerStatusData w;
     socket := socket w; _workflowDispatchTimeout := _workflowDispatchTimeout w;
     _panel := _panel w; panel_visible := v; globalState := globalState w;
     allRunners := allRunners w; connected := connected w; listeners := listeners w;
     timers := timers w; trace := trace w |}.
Definition set_globalState (v : gmap (option GitHubRef) SessionData.t) (w : World) : World :=
  {| _data := _data w; _terminals := _terminals w; _runnerStatusData := _runnerStatusData w;
     socket := socket w; _workflowDispatchTimeout := _workflowDispatchTimeout w;
     _panel := _panel w; panel_visible := panel_visible w; globalState := v;
     allRunners := allRunners w; connected := connected w; listeners := listeners w;
     timers := timers w; trace := trace w |}.
Definition set_connected (v : list Socket) (w : World) : World :=
  {| _data := _data w; _terminals := _terminals w; _runnerStatusData := _runnerStatusData w;
     socket := socket w; _workflowDispatchTimeout := _workflowDispatchTimeout w;
     _panel := _panel w; panel_visible := panel_visible w; globalState := globalState w;
     allRunners := allRunners w; connected := v; listeners := listeners w; timers := timers w;
     trace := trace w |}.
Definition set_listeners (v : list Socket) (w : World) : World :=
  {| _data := _data w; _terminals := _terminals w; _runnerStatusData := _runnerStatusData w;
     socket := socket w; _workflowDispatchTimeout := _workflowDispatchTimeout w;
     _panel := _panel w; panel_visible := panel_visible w; globalState := globalState w;
     allRunners := allRunners w; connected := connected w; listeners := v; timers := timers w;
     trace := trace w |}.
Definition set_timers (v : list Timer) (w : World) : World :=
  {| _data := _data w; _terminals := _terminals w; _runnerStatusData := _runnerStatusData w;
     socket := socket w; _workflowDispatchTimeout := _workflowDispatchTimeout w;
     _panel := _panel w; panel_visible := panel_visible w; globalState := globalState w;
     allRunners := allRunners w; connected := connected w; listeners := listeners w;
     timers := v; trace := trace w |}.
Definition set_trace (v : list Effect) (w : World) : World :=
  {| _data := _data w; _terminals := _terminals w; _runnerStatusData := _runnerStatusData w;
     socket := socket w; _workflowDispatchTimeout := _workflowDispatchTimeout w;
     _panel := _panel w; panel_visible := panel_visible w; globalState := globalState w;
     allRunners := allRunners w; connected := connected w; listeners := listeners w;
     timers := timers w; trace := v |}.

(** ** Methods as state transformers *)

Definition M (A : Type) : Type := World → A * World.

Definition ret {A} (a : A) : M A := λ w, (a, w).
Definition bind {A B} (m : M A) (f : A → M B) : M B :=
  λ w, let '(a, w') := m w in f a w'.

Declare Scope M_scope.
Delimit Scope M_scope with M.
Bind Scope M_scope with M.
Notation "x ← y ; z" := (bind y (λ x, z))
  (at level 20, y at level 100, z at level 200, only parsing) : M_scope.
Notation "x ;; z" := (bind x (λ _, z))
  (at level 100, z at level 200, only parsing, right associativity) : M_scope.
Open Scope M_scope.

Definition gets {A} (f : World → A) : M A := λ w, (f w, w).
Definition modify (f : World → World) : M unit := λ w, (tt, f w).
Definition skip : M unit := ret tt.
Definition when (b : bool) (m : M unit) : M unit := if b then m else skip.
(** The listeners an event finds registered run one after the other. *)
Fixpoint in_turn (ms : list (M unit)) : M unit :=
  match ms with
  | [] => skip
  | m :: ms => m ;; in_turn ms
  end.
(** The world a method leaves, and what it returns. *)
Definition exec {A} (m : M A) (w : World) : World := snd (m w).
Definition eval {A} (m : M A) (w : World) : A := fst (m w).

(** More calls to the collaborators. *)
Definition calls (es : list Effect) : M unit := modify (λ w, set_trace (trace w ++ es) w).
Definition call (e : Effect) : M unit := calls [e].

(** ** Collaborators *)

(** Modelled from the spec: the persisted-session store of
    [utils/global-state], [get(refKey) -> Session?] and
    [set(refKey, Session?)], where storing no session clears the record. *)
Definition getSessionData (ref : option GitHubRef) : M (option SessionData.t) :=
  gets (λ w, globalState w !! ref).
Definition setSessionData (ref : option GitHubRef) (d : option SessionData.t) : M unit :=
  modify (λ w, set_globalState
    (match d with
     | Some d => <[ref := d]> (globalState w)
     | None => delete ref (globalState w)
     end) w).

(** [a.diff(b, 'second')] of dayjs: the difference in milliseconds divided by
    1000 and truncated towards zero. *)
Definition diff_second (a b : Dayjs) : Z := Z.quot (a - b) 1000.

(** [setTimeout] and [clearTimeout]: a cleared timer is no longer armed, and
    clearing one that is not armed does nothing. *)
Definition setTimeout (t : Timer) : M unit :=
  modify (λ w, set_timers (timers w ++ [t]) w) ;; call (SetTimeout t).
Definition clearTimeout (t : Timer) : M unit :=
  modify (λ w, set_timers (filter (λ t', t' ≠ t) (timers w)) w) ;; call (ClearTimeout t).

(** [socket.emit(e)] *)
Definition emit (sk : Socket) (e : VscClientEvent) : M unit := call (Emit sk e).
(** [this.socket?.emit(e)] *)
Definition emit_if_socket (e : VscClientEvent) : M unit :=
  s ← gets socket;
  match s with
  | Some sk => emit sk e
  | None => skip
  end.

Definition is_connected (sk : Socket) : M bool :=
  gets (λ w, bool_decide (sk ∈ connected w)).
Definition mark_connected (sk : Socket) : M unit :=
  modify (λ w, set_connected (sk :: filter (λ s, s ≠ sk) (connected w)) w).
Definition mark_disconnected (sk : Socket) : M unit :=
  modify (λ w, set_connected (filter (λ s, s ≠ sk) (connected w)) w).

(** [socket.disconnect()] of socket.io-client: a connected socket is closed
    and its ['disconnect'] listener runs before the call returns; on a socket
    that is not connected no listener runs. *)
Definition socket_disconnect (listener : Socket → M unit) (sk : Socket) : M unit :=
  call (SocketDisconnect sk) ;;
  c ← is_connected sk;
  when c (mark_disconnected sk ;; listener sk).

(** [socket.on(...)] and [socket.once(...)] after [connectTo]: one more
    registration on [sk]. Neither [disconnect()] nor [offAny()] takes a
    registration off. *)
Definition register (sk : Socket) : M unit :=
  modify (λ w, set_listeners (listeners w ++ [sk]) w).
(** How many registrations [sk] has. *)
Definition registrations (sk : Socket) : M nat :=
  gets (λ w, length (filter (λ s, s = sk) (listeners w))).

(** ** Parts the two revisions share *)

(** [get sessionId()]: [this._data?.sessionId] *)
Definition sessionId : M (option string) :=
  gets (λ w, _data w ≫= SessionData.sessionId).

(** [set sessionId(sessionId)] *)
Definition set_sessionId (s : option string) : M unit :=
  if negb (truthy s) then modify (set_data None)
  else modify (λ w,
    match _data w with
    | Some d => set_data (Some (SessionData.with_sessionId d s)) w
    | None => w
    end).

Definition runnerStatus : M RunnerStatus.t :=
  gets (λ w, RunnerStatusData.runnerStatus (_runnerStatusData w)).
Definition runnerClientStatus : M RunnerClientStatus.t :=
  gets (λ w, RunnerStatusData.runnerClientStatus (_runnerStatusData w)).

(** [postTerminalsToWebview]: [this._panel?.webview.postMessage(...)] *)
Definition postTerminalsToWebview : M unit :=
  p ← gets _panel;
  ts ← gets _terminals;
  when p (call (PostSetTerminals ts)).

(** [revealPanel]: the panel held is revealed when it is not visible, and
    left alone when it is; without a panel one is created below the editor.
    A panel is visible once VS Code has created or revealed it. *)
Definition revealPanel : M unit :=
  p ← gets _panel;
  if p then
    visible ← gets panel_visible;
    when (negb visible) (call RevealPanel ;; modify (set_panel_visible true))
  else
    call (ExecuteCommand "workbench.action.editorLayoutTwoRows") ;;
    call CreateWebviewPanel ;;
    modify (set_panel true) ;;
    modify (set_panel_visible true) ;;
    call (ExecuteCommand "workbench.action.moveEditorToBelowGroup").

(** [setupPanelIfNeeded]: without terminals the panel is disposed, and the
    field is cleared (by the dispose listener, or by the method itself). *)
Definition setupPanelIfNeeded : M unit :=
  ts ← gets _terminals;
  if Nat.eqb (length ts) 0 then
    p ← gets _panel;
    when p (call DisposePanel ;; modify (set_panel false))
  else revealPanel.

(** [set terminals(terminals)] *)
Definition set_terminals_prop (ts : list TerminalInstance.t) : M unit :=
  modify (set_terminals ts) ;;
  setupPanelIfNeeded ;;
  postTerminalsToWebview.

(** [{ ...data, type, message }] *)
Definition payload (d : RunnerStatusData.t) (ty : PayloadType) (msg : option MessageText) :
    Payload :=
  {| data := d; type := ty; text := msg |}.

(** [_onUpdate({ ...data, type, message })] *)
Definition onUpdate (d : RunnerStatusData.t) (ty : PayloadType) (msg : option MessageText) :
    M unit :=
  call (OnUpdate (payload d ty msg)).

(** [if (c) onUpdate(p)], as the notifications it adds. *)
Definition notify_if (c : bool) (ps : list Payload) : list Payload := if c then ps else [].

Definition connected_text (sid : option string) : string :=
  "Runner conncted. " +:+
  (if truthy sid then "Resuming session " +:+ default "" sid else "Reuqesting new session") +:+
  "...".

Definition session_started_text (c : RunnerClientStatus.t) : string :=
  match c with
  | RunnerClientStatus.Offline => "Session started. Waiting for runner client response..."
  | RunnerClientStatus.Online => "Runner client connected. Happy hacking!"
  end.

(** The test of the terminal-closed listener: the activation time of the
    first terminal with that id, compared with now in whole seconds; a
    terminal that is not found counts as 0. *)
Definition terminalLiveThreshold : Z := 3.

Definition find_terminal (terminalId : string) (ts : list TerminalInstance.t) :
    option TerminalInstance.t :=
  List.find (λ t, bool_decide (TerminalInstance.id t = terminalId)) ts.

Definition closed_early (terminalId : string) (now : Dayjs) (ts : list TerminalInstance.t) : bool :=
  Z.geb
    (default 0 ((λ t, diff_second (TerminalInstance.activateTime t) now) <$> find_terminal terminalId ts))
    (- terminalLiveThreshold).

Definition without_terminal (terminalId : string) (ts : list TerminalInstance.t) :
    list TerminalInstance.t :=
  filter (λ t, TerminalInstance.id t ≠ terminalId) ts.

(** The [RunnerClientEvent.TerminalClosed] listener, the same in both
    revisions but for one word of the warning. *)
Definition on_terminalClosed_with (warning : string) (terminalId : string) (now : Dayjs) : M unit :=
  ts ← gets _terminals;
  when (closed_early terminalId now ts) (call (ShowWarningMessage warning)) ;;
  ts ← gets _terminals;
  set_terminals_prop (without_terminal terminalId ts).

(** [terminals.map(t => ({ ...t, activateTime: dayjs(), restoredFromRemote: true }))] *)
Definition restored (now : Dayjs) (ts : list TerminalOptions.t) : list TerminalInstance.t :=
  (λ o, {| TerminalInstance.options := o; TerminalInstance.activateTime := now;
           TerminalInstance.restoredFromRemote := true |}) <$> ts.

(** [allRunners.find(({ address }) => this._data?.serverAddress === address)?.type
    === RunnerServerType.GitHubActions] *)
Definition isGitHubActions (runners : list RunnerServer) (serverAddress : option string) : bool :=
  match serverAddress with
  | Some a =>
      match List.find (λ r, bool_decide (a = address r)) runners with
      | Some r => bool_decide (server_type r = RunnerServerType.GitHubActions)
      | None => false
      end
  | None => false
  end.

Definition no_data_text : MessageText :=
  Text "No sufficient data to launch runner client, please check your inputs.".

(** [postNoDataMessage] *)
Definition postNoDataMessage : M unit :=
  d ← gets _runnerStatusData;
  onUpdate d error (Some no_data_text).

(** The session data is enough to launch a runner client: ref, os, address
    and session id are all truthy. *)
Definition launch_data (d : SessionData.t) : option (GitHubRef * string * string * string) :=
  match SessionData.githubRef d, SessionData.os d, SessionData.sessionId d with
  | Some ref, Some os, Some sid =>
      if negb (String.eqb os "") && negb (String.eqb (SessionData.serverAddress d) "")
         && negb (String.eqb sid "")
      then Some (ref, os, SessionData.serverAddress d, sid)
      else None
  | _, _, _ => None
  end.

(** ** The revision with [RunnerError] and [disconnectRunner] *)

Module Current.

(** The notifications [deliverStatusData] sends, in order: one [if] of the
    method after the other. A member of [RunnerError] is taken to be truthy,
    as the members of a string enum are. *)
Definition statusNotifications (d : RunnerStatusData.t) (sid : option string) : list Payload :=
  let st := RunnerStatusData.runnerStatus d in
  let err := RunnerStatusData.runnerError d in
  notify_if (RunnerStatus.eqb st RunnerStatus.Connected)
    [payload d message (Some (Text (connected_text sid)))] ++
  notify_if (RunnerStatus.eqb st RunnerStatus.Connecting)
    [payload d message None] ++
  notify_if (RunnerStatus.eqb st RunnerStatus.Initial)
    ([payload d message None] ++
     match err with
     | Some e => [payload d error (Some (runnerErrorMesage e))]
     | None => []
     end ++
     notify_if (RunnerError.matches err RunnerError.Timeout)
       [payload d error (Some (Text "Connection timeout. Please try another runner."))] ++
     notify_if (RunnerError.matches err RunnerError.SessionTerminated)
       [payload d error (Some (Text
          "The session is not available in the runner or it has been terminated, please ensure you chose the correct runner server or create a new session if needed."))] ++
     notify_if (RunnerError.matches err RunnerError.SessionIdDoesNotMatch)
       [payload d error (Some (Text
          "The registered session ID for this client doesn't match. Please check your input."))]) ++
  notify_if (RunnerStatus.eqb st RunnerStatus.Disconnected)
    [payload d error (Some (Text
       "Runner server disconnected, this may infer an upgrade/maintenance. Trying to re-connect..."))] ++
  notify_if (RunnerStatus.eqb st RunnerStatus.SessionStarted)
    [payload d message
       (Some (Text (session_started_text (RunnerStatusData.runnerClientStatus d))))].

Definition deliverStatusData : M unit :=
  d ← gets _runnerStatusData;
  sid ← sessionId;
  calls (OnUpdate <$> statusNotifications d sid).

Definition setPartialRunnerStatusData (p : RunnerStatusData.partial) : M unit :=
  modify (λ w, set_runnerStatusData (RunnerStatusData.spread (_runnerStatusData w) p) w) ;;
  deliverStatusData.

(** [set runnerStatus(runnerStatus)] *)
Definition set_runnerStatus (s : RunnerStatus.t) : M unit :=
  setPartialRunnerStatusData
    {| RunnerStatusData.p_sessionId := None;
       RunnerStatusData.p_runnerStatus := Some s;
       RunnerStatusData.p_runnerError := None;
       RunnerStatusData.p_runnerClientStatus := None;
       RunnerStatusData.p_runnerClientOS := None |}.

Definition resetRunnerStatus (s : RunnerStatus.t) (e : option RunnerError.t) : M unit :=
  setPartialRunnerStatusData
    {| RunnerStatusData.p_sessionId := Some None;
       RunnerStatusData.p_runnerStatus := Some s;
       RunnerStatusData.p_runnerError := Some e;
       RunnerStatusData.p_runnerClientStatus := Some RunnerClientStatus.Offline;
       RunnerStatusData.p_runnerClientOS := Some None |}.

(** [clearWorkflowDispatchTimeoutIfNeeded]: the field keeps the handle. *)
Definition clearWorkflowDispatchTimeoutIfNeeded : M unit :=
  h ← gets _workflowDispatchTimeout;
  match h with
  | Some h => clearTimeout (WorkflowDispatchTimeout h)
  | None => skip
  end.

(** [launchRunnerClient], up to the call of [setupRunnerClientRepo] it
    awaits. *)
Definition launchRunnerClient : M unit :=
  gha ← gets (λ w, isGitHubActions (allRunners w) (SessionData.serverAddress <$> _data w));
  if negb gha then skip
  else
    d ← gets _data;
    match d with
    | None => postNoDataMessage
    | Some d =>
        match launch_data d with
        | None => postNoDataMessage
        | Some _ => clearWorkflowDispatchTimeoutIfNeeded ;; call SetupRunnerClientRepo
        end
    end.

(** The callback handed to [dispatchRunnerClientWorkflow]. *)
Definition record_workflowDispatchTimeout (h : nat) : M unit :=
  modify (set_workflowDispatchTimeout (Some h)).

(** Modelled from the spec: [dispatchRunnerClientWorkflow] of
    [./launch-runner] requests the launch of the remote peer, arms the
    provisioning timeout and hands its handle [h] to the callback. *)
Definition dispatchRunnerClientWorkflow (address os sid : string) (ref : GitHubRef)
    (owner repo : string) (h : nat) (setTimeoutHandle : nat → M unit) : M unit :=
  call (DispatchRunnerClientWorkflow address os sid ref owner repo) ;;
  setTimeout (WorkflowDispatchTimeout h) ;;
  setTimeoutHandle h.

(** [launchRunnerClient], from the answer of [setupRunnerClientRepo] on; [d]
    is the session data read before the await. *)
Definition launchRunnerClient_resume (d : SessionData.t) (owner repo : option string)
    (h : nat) : M unit :=
  match launch_data d, owner, repo with
  | Some (ref, os, address, sid), Some owner, Some repo =>
      if negb (String.eqb owner "") && negb (String.eqb repo "")
      then dispatchRunnerClientWorkflow address os sid ref owner repo h
             record_workflowDispatchTimeout
      else skip
  | _, _, _ => skip
  end.

(** The ['disconnect'] listener of a socket. *)
Definition disconnect_listener (sk : Socket) : M unit :=
  resetRunnerStatus RunnerStatus.Disconnected None.

(** The transport dropped the connection of [sk]. *)
Definition on_disconnect (sk : Socket) : M unit :=
  mark_disconnected sk ;; disconnect_listener sk.

Definition retrieveRunnerInfo : M unit := emit_if_socket CheckRunnerStatus.

Definition setPortForwarding (port : option Z) : M unit :=
  emit_if_socket (SetPortForwarding port).

Definition disconnectRunner (e : option RunnerError.t) : M unit :=
  clearWorkflowDispatchTimeoutIfNeeded ;;
  s ← gets socket;
  match s with
  | Some sk => call (SocketOffAny sk) ;; socket_disconnect disconnect_listener sk
  | None => skip
  end ;;
  call RemoveFSSocket ;;
  modify (set_data None) ;;
  set_terminals_prop [] ;;
  modify (set_socket None) ;;
  resetRunnerStatus RunnerStatus.Initial e ;;
  call OnDisconnected.

(** The persisted session of the ref conflicts with the requested one. *)
Definition conflicting (existing : option SessionData.t) (d : SessionData.t) : option string :=
  match existing with
  | Some e =>
      if truthy (SessionData.sessionId e)
         && bool_decide (SessionData.sessionId e ≠ SessionData.sessionId d)
      then SessionData.sessionId e
      else None
  | None => None
  end.

(** The callback of the connection timeout of the attempt that made [sk]. *)
Definition connect_timeout_callback (sk : Socket) : M unit :=
  st ← runnerStatus;
  if RunnerStatus.includes
       [RunnerStatus.Initial; RunnerStatus.Connected; RunnerStatus.Connecting] st
  then
    socket_disconnect disconnect_listener sk ;;
    resetRunnerStatus RunnerStatus.Initial (Some RunnerError.Timeout) ;;
    call (Resolve sk false)
  else skip.

(** The connection timeout of [sk] expires: a timer that is not armed does
    not fire, and one that fires is armed no more. *)
Definition on_connect_timeout (sk : Socket) : M unit :=
  ts ← gets timers;
  if bool_decide (ConnectTimeout sk ∈ ts) then
    modify (λ w, set_timers (filter (λ t, t ≠ ConnectTimeout sk) (timers w)) w) ;;
    connect_timeout_callback sk
  else skip.

(** [connectTo(data)]: [answer] is what the user picks if asked, [sk] the
    socket [io] creates. The promise is left pending ([None]) unless the
    user declines ([Some false]); the listeners below resolve it. *)
Definition connectTo (d : SessionData.t) (answer : option string) (sk : Socket) :
    M (option bool) :=
  existing ← getSessionData (SessionData.githubRef d);
  proceed ←
    match conflicting existing d with
    | Some old =>
        call (ShowInformationMessage old) ;;
        ret (bool_decide (answer = Some "Continue"))
    | None => ret true
    end;
  if negb proceed then
    set_runnerStatus RunnerStatus.Initial ;; ret (Some false)
  else
    s ← gets socket;
    match s with
    | Some old => socket_disconnect disconnect_listener old
    | None => skip
    end ;;
    modify (set_data (Some d)) ;;
    call (Io sk (SessionData.serverAddress d)) ;;
    setTimeout (ConnectTimeout sk) ;;
    setPartialRunnerStatusData
      {| RunnerStatusData.p_sessionId := Some (SessionData.sessionId d);
         RunnerStatusData.p_runnerStatus := Some RunnerStatus.Connecting;
         RunnerStatusData.p_runnerError := Some None;
         RunnerStatusData.p_runnerClientStatus := Some RunnerClientStatus.Offline;
         RunnerStatusData.p_runnerClientOS := None |} ;;
    modify (set_socket (Some sk)) ;;
    set_terminals_prop [] ;;
    call (RegisterFSEventHandlers sk) ;;
    ret None.

(** The ['connect'] listener of [sk], which runs at every connect event of
    the socket: the first one and those after the transport has dropped and
    come back. Each run registers one more once-listener for the
    session-started event. *)
Definition on_connect (sk : Socket) : M unit :=
  mark_connected sk ;;
  clearTimeout (ConnectTimeout sk) ;;
  sid ← sessionId;
  emit sk (SetType sid) ;;
  set_runnerStatus RunnerStatus.Connected ;;
  register sk ;;
  call (Resolve sk true).

(** The once-listener of [RunnerServerEvent.SessionStarted]; [d] is the
    argument of the [connectTo] call that made the socket. *)
Definition on_sessionStarted (d : SessionData.t) (sid : string) : M unit :=
  held ← sessionId;
  if truthy held && bool_decide (held ≠ Some sid) then
    disconnectRunner (Some RunnerError.SessionIdDoesNotMatch)
  else
    setPartialRunnerStatusData
      {| RunnerStatusData.p_sessionId := Some (Some sid);
         RunnerStatusData.p_runnerStatus := Some RunnerStatus.SessionStarted;
         RunnerStatusData.p_runnerError := None;
         RunnerStatusData.p_runnerClientStatus := None;
         RunnerStatusData.p_runnerClientOS := None |} ;;
    call (OnPortForwardingUpdate None) ;;
    setSessionData (SessionData.githubRef d) (Some (SessionData.with_sessionId d (Some sid))) ;;
    held ← sessionId;
    let isNewSession := negb (truthy held) in
    set_sessionId (Some sid) ;;
    if isNewSession then launchRunnerClient else retrieveRunnerInfo.

(** A session-started event arrives on [sk]: the once-listeners registered
    on [sk] are taken off, and each of them runs, one after the other, also
    when an earlier one has disconnected the socket. Without a listener the
    event is dropped. *)
Definition deliver_sessionStarted (sk : Socket) (d : SessionData.t) (sid : string) : M unit :=
  n ← registrations sk;
  modify (λ w, set_listeners (filter (λ s, s ≠ sk) (listeners w)) w) ;;
  in_turn (replicate n (on_sessionStarted d sid)).

(** The [RunnerServerEvent.SessionTerminated] listener. *)
Definition on_sessionTerminated : M unit :=
  disconnectRunner (Some RunnerError.SessionTerminated).

(** [terminate()]: [answer] is what the user picks. *)
Definition terminate (answer : option string) : M bool :=
  call (ShowWarningMessage
    "Runner client will be terminated and all un-pushed changes will be discarded. Continue?") ;;
  if bool_decide (answer = Some "OK") then
    ref ← gets (λ w, _data w ≫= SessionData.githubRef);
    setSessionData ref None ;;
    emit_if_socket TerminateSession ;;
    disconnectRunner None ;;
    ret true
  else ret false.

(** [activateTerminal(file, ignoreIfExists)]: [newId] is what [nanoid()]
    answers and [now] what [dayjs()] answers. *)
Definition activateTerminal (file : option string) (ignoreIfExists : bool)
    (newId : string) (now : Dayjs) : M bool :=
  c ← runnerClientStatus;
  if RunnerClientStatus.eqb c RunnerClientStatus.Offline then ret false
  else
    ts ← gets _terminals;
    if ignoreIfExists && negb (Nat.eqb (length ts) 0) then ret true
    else
      d ← gets _data;
      os ← gets (λ w, RunnerStatusData.runnerClientOS (_runnerStatusData w));
      let shell :=
        match file with
        | Some f => ShellPath f
        | None =>
            match d ≫= SessionData.defaultShell with
            | Some f => ShellPath f
            | None => DefaultShell os
            end
        end in
      let options :=
        {| TerminalInstance.options :=
             {| TerminalOptions.id := newId; TerminalOptions.file := shell;
                TerminalOptions.cols := 80; TerminalOptions.rows := 30 |};
           TerminalInstance.activateTime := now;
           TerminalInstance.restoredFromRemote := false |} in
      set_terminals_prop (ts ++ [options]) ;;
      emit_if_socket (ActivateTerminal options) ;;
      d ← gets _data;
      match d with
      | Some d =>
          setSessionData (SessionData.githubRef d)
            (Some (SessionData.with_defaultShell d file))
      | None => skip
      end ;;
      ret true.

Definition activateTerminalIfNeeded (file : option string) (newId : string) (now : Dayjs) :
    M bool :=
  activateTerminal file true newId now.

(** The [RunnerClientEvent.CurrentTerminals] listener. *)
Definition on_currentTerminals (ts : list TerminalOptions.t) (newId : string) (now : Dayjs) :
    M unit :=
  set_terminals_prop (restored now ts) ;;
  _ ← activateTerminalIfNeeded None newId now;
  skip.

(** The [RunnerClientEvent.CurrentPortForwarding] listener. *)
Definition on_currentPortForwarding (port : option Z) : M unit :=
  call (OnPortForwardingUpdate port).

Definition terminalClosedWarning : string :=
  "Terminal closed in 3 seconds, this may indicate an error. Please make sure the shell file exists in the runner client OS.".

(** The [RunnerClientEvent.TerminalClosed] listener. *)
Definition on_terminalClosed : string → Dayjs → M unit :=
  on_terminalClosed_with terminalClosedWarning.

(** The [RunnerServerEvent.RunnerStatus] listener of [sk], up to the first
    call it awaits (reopening the folder and the control panel touch no
    field of the object). *)
Definition on_runnerStatus (sk : Socket) (c : RunnerClientStatus.t) (os : option string) :
    M unit :=
  setPartialRunnerStatusData
    {| RunnerStatusData.p_sessionId := None;
       RunnerStatusData.p_runnerStatus := None;
       RunnerStatusData.p_runnerError := None;
       RunnerStatusData.p_runnerClientStatus := Some c;
       RunnerStatusData.p_runnerClientOS := Some os |} ;;
  when (RunnerClientStatus.eqb c RunnerClientStatus.Online)
    (emit sk FetchCurrentTerminals ;; emit sk FetchCurrentPortForwarding).

End Current.

(** ** The revision before, with [SessionTimeout] and [SessionTerminated] *)

Module Earlier.

(** The notifications [deliverStatusData] sends, in order. *)
Definition statusNotifications (d : RunnerStatusData.t) (sid : option string) : list Payload :=
  let st := RunnerStatusData.runnerStatus d in
  notify_if (RunnerStatus.eqb st RunnerStatus.Connected)
    [payload d message (Some (Text (connected_text sid)))] ++
  notify_if (RunnerStatus.includes [RunnerStatus.Disconnected; RunnerStatus.Connecting] st)
    [payload d message None] ++
  notify_if (RunnerStatus.eqb st RunnerStatus.SessionTimeout)
    [payload d error (Some (Text "Connection timeout. Please try another runner."))] ++
  notify_if (RunnerStatus.eqb st RunnerStatus.SessionTerminated)
    [payload d error (Some (Text
       "Session has been terminated, please create a new one if needed."))] ++
  notify_if (RunnerStatus.eqb st RunnerStatus.SessionStarted)
    [payload d message
       (Some (Text (session_started_text (RunnerStatusData.runnerClientStatus d))))].

Definition deliverStatusData : M unit :=
  d ← gets _runnerStatusData;
  sid ← sessionId;
  calls (OnUpdate <$> statusNotifications d sid).

Definition setPartialRunnerStatusData (p : RunnerStatusData.partial) : M unit :=
  modify (λ w, set_runnerStatusData (RunnerStatusData.spread (_runnerStatusData w) p) w) ;;
  deliverStatusData.

(** [set runnerStatus(runnerStatus)] *)
Definition set_runnerStatus (s : RunnerStatus.t) : M unit :=
  setPartialRunnerStatusData
    {| RunnerStatusData.p_sessionId := None;
       RunnerStatusData.p_runnerStatus := Some s;
       RunnerStatusData.p_runnerError := None;
       RunnerStatusData.p_runnerClientStatus := None;
       RunnerStatusData.p_runnerClientOS := None |}.

Definition resetRunnerStatus (s : RunnerStatus.t) : M unit :=
  setPartialRunnerStatusData
    {| RunnerStatusData.p_sessionId := Some None;
       RunnerStatusData.p_runnerStatus := Some s;
       RunnerStatusData.p_runnerError := None;
       RunnerStatusData.p_runnerClientStatus := Some RunnerClientStatus.Offline;
       RunnerStatusData.p_runnerClientOS := Some None |}.

(** [launchRunnerClient], up to the call of the launcher it awaits. *)
Definition launchRunnerClient : M unit :=
  gha ← gets (λ w, isGitHubActions (allRunners w) (SessionData.serverAddress <$> _data w));
  if negb gha then skip
  else
    d ← gets _data;
    match d with
    | None => postNoDataMessage
    | Some d =>
        match launch_data d with
        | None => postNoDataMessage
        | Some (_, os, address, sid) => call (LaunchRunnerClient address os sid)
        end
    end.

Definition retrieveRunnerInfo : M unit :=
  emit_if_socket CheckRunnerStatus ;;
  emit_if_socket FetchCurrentTerminals.

(** [registerSocketEventListeners]: the listeners of the runner client are
    registered, once more, on the socket held. *)
Definition registerSocketEventListeners : M unit :=
  s ← gets socket;
  match s with
  | Some sk => register sk
  | None => skip
  end.

(** The ['disconnect'] listener of [sk]. *)
Definition disconnect_listener (sk : Socket) : M unit :=
  set_terminals_prop [] ;;
  st ← runnerStatus;
  when (RunnerStatus.includes [RunnerStatus.Connected; RunnerStatus.SessionStarted] st)
    (resetRunnerStatus RunnerStatus.Disconnected) ;;
  clearTimeout (ConnectTimeout sk).

(** The transport dropped the connection of [sk]. *)
Definition on_disconnect (sk : Socket) : M unit :=
  mark_disconnected sk ;; disconnect_listener sk.

(** The callback of the connection timeout of the attempt that made [sk]. *)
Definition connect_timeout_callback (sk : Socket) : M unit :=
  st ← runnerStatus;
  if RunnerStatus.includes
       [RunnerStatus.Disconnected; RunnerStatus.Connected; RunnerStatus.Connecting] st
  then
    socket_disconnect disconnect_listener sk ;;
    resetRunnerStatus RunnerStatus.SessionTimeout ;;
    call (Resolve sk false)
  else skip.

Definition on_connect_timeout (sk : Socket) : M unit :=
  ts ← gets timers;
  if bool_decide (ConnectTimeout sk ∈ ts) then
    modify (λ w, set_timers (filter (λ t, t ≠ ConnectTimeout sk) (timers w)) w) ;;
    connect_timeout_callback sk
  else skip.

Definition connectTo (d : SessionData.t) (answer : option string) (sk : Socket) :
    M (option bool) :=
  existing ← getSessionData (SessionData.githubRef d);
  proceed ←
    match Current.conflicting existing d with
    | Some old =>
        call (ShowInformationMessage old) ;;
        ret (bool_decide (answer = Some "Continue"))
    | None => ret true
    end;
  if negb proceed then
    set_runnerStatus RunnerStatus.Disconnected ;; ret (Some false)
  else
    s ← gets socket;
    match s with
    | Some old => socket_disconnect disconnect_listener old
    | None => skip
    end ;;
    modify (set_data (Some d)) ;;
    call (Io sk (SessionData.serverAddress d)) ;;
    setTimeout (ConnectTimeout sk) ;;
    setPartialRunnerStatusData
      {| RunnerStatusData.p_sessionId := Some (SessionData.sessionId d);
         RunnerStatusData.p_runnerStatus := Some RunnerStatus.Connecting;
         RunnerStatusData.p_runnerError := None;
         RunnerStatusData.p_runnerClientStatus := Some RunnerClientStatus.Offline;
         RunnerStatusData.p_runnerClientOS := None |} ;;
    modify (set_socket (Some sk)) ;;
    set_terminals_prop [] ;;
    ret None.

(** The ['connect'] listener. *)
Definition on_connect (sk : Socket) : M unit :=
  mark_connected sk ;;
  sid ← sessionId;
  emit sk (SetType sid) ;;
  set_runnerStatus RunnerStatus.Connected.

(** The [RunnerServerEvent.SessionTerminated] listener of [sk]. *)
Definition on_sessionTerminated (sk : Socket) (d : SessionData.t) : M unit :=
  clearTimeout (ConnectTimeout sk) ;;
  socket_disconnect disconnect_listener sk ;;
  resetRunnerStatus RunnerStatus.SessionTerminated ;;
  setSessionData (SessionData.githubRef d) None.

(** The [RunnerServerEvent.SessionStarted] listener of [sk]. *)
Definition on_sessionStarted (sk : Socket) (d : SessionData.t) (sid : string) : M unit :=
  held ← sessionId;
  if truthy held && bool_decide (held ≠ Some sid) then skip
  else
    st ← runnerStatus;
    if negb (RunnerStatus.eqb st RunnerStatus.Connected) then skip
    else
      clearTimeout (ConnectTimeout sk) ;;
      registerSocketEventListeners ;;
      set_runnerStatus RunnerStatus.SessionStarted ;;
      setPartialRunnerStatusData
        {| RunnerStatusData.p_sessionId := Some (Some sid);
           RunnerStatusData.p_runnerStatus := Some RunnerStatus.SessionStarted;
           RunnerStatusData.p_runnerError := None;
           RunnerStatusData.p_runnerClientStatus := None;
           RunnerStatusData.p_runnerClientOS := None |} ;;
      setSessionData (SessionData.githubRef d)
        (Some (SessionData.with_sessionId d (Some sid))) ;;
      held ← sessionId;
      let isNewSession := truthy held in
      set_sessionId (Some sid) ;;
      (if isNewSession then retrieveRunnerInfo else launchRunnerClient) ;;
      call (Resolve sk true).

(** [disconnect()] *)
Definition disconnect : M unit :=
  s ← gets socket;
  match s with
  | Some sk => socket_disconnect disconnect_listener sk
  | None => skip
  end ;;
  set_sessionId None.

Definition terminate (answer : option string) : M bool :=
  call (ShowWarningMessage
    "Runner client will be terminated and all un-pushed changes will be discarded. Continue?") ;;
  if bool_decide (answer = Some "OK") then
    ref ← gets (λ w, _data w ≫= SessionData.githubRef);
    setSessionData ref None ;;
    emit_if_socket TerminateSession ;;
    disconnect ;;
    ret true
  else ret false.

Definition activateTerminal (file : string) (ignoreIfExists : bool)
    (newId : string) (now : Dayjs) : M bool :=
  c ← runnerClientStatus;
  if RunnerClientStatus.eqb c RunnerClientStatus.Offline then ret false
  else
    ts ← gets _terminals;
    when (negb ignoreIfExists || Nat.eqb (length ts) 0)
      (let options :=
         {| TerminalInstance.options :=
              {| TerminalOptions.id := newId; TerminalOptions.file := ShellPath file;
                 TerminalOptions.cols := 80; TerminalOptions.rows := 30 |};
            TerminalInstance.activateTime := now;
            TerminalInstance.restoredFromRemote := false |} in
       set_terminals_prop (ts ++ [options]) ;;
       emit_if_socket (ActivateTerminal options)) ;;
    ret true.

Definition activateTerminalIfNeeded (file : string) (newId : string) (now : Dayjs) : M bool :=
  activateTerminal file true newId now.

(** The listeners of [registerSocketEventListeners], one run of each. *)
Definition on_currentTerminals (ts : list TerminalOptions.t) (now : Dayjs) : M unit :=
  set_terminals_prop (restored now ts).

Definition terminalClosedWarning : string :=
  "Terminal closed in 3 seconds, this may indicates an error. Please make sure the shell file exists in the runner client OS.".

Definition on_terminalClosed : string → Dayjs → M unit :=
  on_terminalClosed_with terminalClosedWarning.

Definition on_runnerStatus (c : RunnerClientStatus.t) (os : option string) : M unit :=
  setPartialRunnerStatusData
    {| RunnerStatusData.p_sessionId := None;
       RunnerStatusData.p_runnerStatus := None;
       RunnerStatusData.p_runnerError := None;
       RunnerStatusData.p_runnerClientStatus := Some c;
       RunnerStatusData.p_runnerClientOS := Some os |}.

(** An event of the runner client arrives on [sk]: the listener runs once
    for each registration on [sk], in their order, and not at all before
    the first one. [listener i] is the run of the registration number [i],
    with what it obtains from outside. *)
Definition deliver (sk : Socket) (listener : nat → M unit) : M unit :=
  n ← registrations sk;
  in_turn (listener <$> seq 0 n).

(** The events of the runner client; [now i] is what [dayjs()] answers in
    the run number [i]. *)
Definition deliver_currentTerminals (sk : Socket) (ts : list TerminalOptions.t)
    (now : nat → Dayjs) : M unit :=
  deliver sk (λ i, on_currentTerminals ts (now i)).
Definition deliver_terminalClosed (sk : Socket) (terminalId : string) (now : nat → Dayjs) :
    M unit :=
  deliver sk (λ i, on_terminalClosed terminalId (now i)).
Definition deliver_runnerStatus (sk : Socket) (c : RunnerClientStatus.t) (os : option string) :
    M unit :=
  deliver sk (λ _, on_runnerStatus c os).

End Earlier.

(** ** Worlds to run scenarios in *)

Definition initial_statusData (s : RunnerStatus.t) : RunnerStatusData.t :=
  {| RunnerStatusData.sessionId := None;
     RunnerStatusData.runnerStatus := s;
     RunnerStatusData.runnerError := None;
     RunnerStatusData.runnerClientStatus := RunnerClientStatus.Offline;
     RunnerStatusData.runnerClientOS := None |}.

(** A freshly constructed [RemoteSession] in an environment with the
    persisted sessions [g] and the known runners [rs]. *)
Definition new_world (s : RunnerStatus.t) (g : gmap (option GitHubRef) SessionData.t)
    (rs : list RunnerServer) : World :=
  {| _data := None; _terminals := []; _runnerStatusData := initial_statusData s;
     socket := None; _workflowDispatchTimeout := None; _panel := false;
     panel_visible := false; globalState := g; allRunners := rs; connected := [];
     listeners := []; timers := []; trace := [] |}.

Definition github_runner : RunnerServer :=
  {| address := "wss://runner.example"; server_type := RunnerServerType.GitHubActions |}.

(** A runner of the list that is not a GitHub Actions runner. *)
Definition other_runner : RunnerServer :=
  {| address := "wss://runner.example"; server_type := RunnerServerType.OtherRunner |}.

Definition session_request (sid : option string) : SessionData.t :=
  {| SessionData.githubRef := Some "owner/repo:refs/heads/main";
     SessionData.sessionId := sid;
     SessionData.serverAddress := "wss://runner.example";
     SessionData.os := Some "ubuntu-20.04";
     SessionData.defaultShell := None |}.

(** ** Running the methods symbolically

    Every method unfolds when it is applied, so that [cbn] runs a method on
    a world given by its fields. *)

Arguments bind {A B} m f w /.
Arguments ret {A} a w /.
Arguments gets {A} f w /.
Arguments modify f w /.
Arguments skip w /.
Arguments when b m /.
Arguments exec {A} m w /.
Arguments eval {A} m w /.
Arguments calls es /.
Arguments call e /.
Arguments notify_if c ps /.
Arguments payload d ty msg /.
Arguments setSessionData ref d /.
Arguments getSessionData ref /.
Arguments setTimeout t /.
Arguments clearTimeout t /.
Arguments emit sk e /.
Arguments emit_if_socket e /.
Arguments is_connected sk /.
Arguments mark_connected sk /.
Arguments mark_disconnected sk /.
Arguments socket_disconnect listener sk /.
Arguments register sk /.
Arguments registrations sk /.
Arguments in_turn !ms /.
Arguments sessionId /.
Arguments set_sessionId s /.
Arguments runnerStatus /.
Arguments runnerClientStatus /.
Arguments postTerminalsToWebview /.
Arguments revealPanel /.
Arguments setupPanelIfNeeded /.
Arguments set_terminals_prop ts /.
Arguments onUpdate d ty msg /.
Arguments postNoDataMessage /.
Arguments on_terminalClosed_with warning terminalId now /.
Arguments RunnerStatusData.spread d p /.
Arguments SessionData.with_sessionId d s /.
Arguments SessionData.with_defaultShell d s /.
Arguments RunnerStatus.includes l a /.
Arguments Current.deliverStatusData /.
Arguments Current.setPartialRunnerStatusData p /.
Arguments Current.set_runnerStatus s /.
Arguments Current.resetRunnerStatus s e /.
Arguments Current.clearWorkflowDispatchTimeoutIfNeeded /.
Arguments Current.launchRunnerClient /.
Arguments Current.record_workflowDispatchTimeout h /.
Arguments Current.dispatchRunnerClientWorkflow address os sid ref owner repo h setTimeoutHandle /.
Arguments Current.launchRunnerClient_resume d owner repo h /.
Arguments Current.disconnect_listener sk /.
Arguments Current.on_disconnect sk /.
Arguments Current.retrieveRunnerInfo /.
Arguments Current.setPortForwarding port /.
Arguments Current.disconnectRunner e /.
Arguments Current.connect_timeout_callback sk /.
Arguments Current.on_connect_timeout sk /.
Arguments Current.connectTo d answer sk /.
Arguments Current.on_connect sk /.
Arguments Current.on_sessionStarted d sid /.
Arguments Current.deliver_sessionStarted sk d sid /.
Arguments Current.on_sessionTerminated /.
Arguments Current.terminate answer /.
Arguments Current.activateTerminal file ignoreIfExists newId now /.
Arguments Current.activateTerminalIfNeeded file newId now /.
Arguments Current.on_currentTerminals ts newId now /.
Arguments Current.on_currentPortForwarding port /.
Arguments Current.on_terminalClosed /.
Arguments Current.on_runnerStatus sk c os /.
Arguments Earlier.deliverStatusData /.
Arguments Earlier.setPartialRunnerStatusData p /.
Arguments Earlier.set_runnerStatus s /.
Arguments Earlier.resetRunnerStatus s /.
Arguments Earlier.launchRunnerClient /.
Arguments Earlier.retrieveRunnerInfo /.
Arguments Earlier.registerSocketEventListeners /.
Arguments Earlier.disconnect_listener sk /.
Arguments Earlier.on_disconnect sk /.
Arguments Earlier.connect_timeout_callback sk /.
Arguments Earlier.on_connect_timeout sk /.
Arguments Earlier.connectTo d answer sk /.
Arguments Earlier.on_connect sk /.
Arguments Earlier.on_sessionTerminated sk d /.
Arguments Earlier.on_sessionStarted sk d sid /.
Arguments Earlier.disconnect /.
Arguments Earlier.terminate answer /.
Arguments Earlier.activateTerminal file ignoreIfExists newId now /.
Arguments Earlier.activateTerminalIfNeeded file newId now /.
Arguments Earlier.on_currentTerminals ts now /.
Arguments Earlier.on_terminalClosed /.
Arguments Earlier.on_runnerStatus c os /.
Arguments Earlier.deliver sk listener /.
Arguments Earlier.deliver_currentTerminals sk ts now /.
Arguments Earlier.deliver_terminalClosed sk terminalId now /.
Arguments Earlier.deliver_runnerStatus sk c os /.
Arguments set_data v w /.
Arguments set_terminals v w /.
Arguments set_runnerStatusData v w /.
Arguments set_socket v w /.
Arguments set_workflowDispatchTimeout v w /.
Arguments set_panel v w /.
Arguments set_panel_visible v w /.
Arguments set_globalState v w /.
Arguments set_connected v w /.
Arguments set_listeners v w /.
Arguments set_timers v w /.
Arguments set_trace v w /.

(** Tests on data stay folded until a proof looks into them. *)
Arguments without_terminal : simpl never.
Arguments closed_early : simpl never.
Arguments find_terminal : simpl never.
Arguments restored : simpl never.
Arguments isGitHubActions : simpl never.
Arguments launch_data : simpl never.
Arguments truthy : simpl never.
Arguments Current.conflicting : simpl never.
Arguments connected_text : simpl never.
Arguments Current.statusNotifications : simpl never.
Arguments Earlier.statusNotifications : simpl never.

(** The calls made between a world and a later one of the same run. *)
Definition since (w w' : World) : list Effect := drop (length (trace w)) (trace w').
Arguments since w w' : simpl never.

(** Kinds of calls. *)
Definition is_emit (e : Effect) : bool :=
  match e with
  | Emit _ _ => true
  | _ => false
  end.
Definition is_refresh (e : Effect) : bool :=
  match e with
  | Emit _ CheckRunnerStatus | Emit _ FetchCurrentTerminals
  | Emit _ FetchCurrentPortForwarding => true
  | _ => false
  end.
Definition is_provisioning (e : Effect) : bool :=
  match e with
  | SetupRunnerClientRepo | DispatchRunnerClientWorkflow _ _ _ _ _ _
  | LaunchRunnerClient _ _ _ => true
  | OnUpdate p => bool_decide (text p = Some no_data_text)
  | _ => false
  end.
Definition is_warning (e : Effect) : bool :=
  match e with
  | ShowWarningMessage _ => true
  | _ => false
  end.
Definition is_transport_call (e : Effect) : bool :=
  match e with
  | Io _ _ | Emit _ _ | SocketDisconnect _ | SocketOffAny _ => true
  | _ => false
  end.
Definition is_error_notification (e : Effect) : bool :=
  match e with
  | OnUpdate p => bool_decide (type p = error)
  | _ => false
  end.

(** The session id the orchestrator holds: [this.sessionId]. *)
Definition held_sessionId (w : World) : option string := eval sessionId w.
Definition status (w : World) : RunnerStatus.t :=
  RunnerStatusData.runnerStatus (_runnerStatusData w).
Definition peer (w : World) : RunnerClientStatus.t :=
  RunnerStatusData.runnerClientStatus (_runnerStatusData w).
Definition last_error (w : World) : option RunnerError.t :=
  RunnerStatusData.runnerError (_runnerStatusData w).
Definition terminal_ids (w : World) : list string := TerminalInstance.id <$> _terminals w.


(** The connection is in its Terminated state, which this revision keeps as
    the session-terminated error on the initial status. *)
Definition terminated (w : World) : Prop :=
  status w = RunnerStatus.Initial ∧ last_error w = Some RunnerError.SessionTerminated.

(** What [resetRunnerStatus] leaves in the status data. *)
Definition reset_statusData (s : RunnerStatus.t) (e : option RunnerError.t) :
    RunnerStatusData.t :=
  {| RunnerStatusData.sessionId := None;
     RunnerStatusData.runnerStatus := s;
     RunnerStatusData.runnerError := e;
     RunnerStatusData.runnerClientStatus := RunnerClientStatus.Offline;
     RunnerStatusData.runnerClientOS := None |}.

(** A terminal as [activateTerminal] makes it. *)
Definition activated (newId : string) (shell : Shell) (now : Dayjs) : TerminalInstance.t :=
  {| TerminalInstance.options :=
       {| TerminalOptions.id := newId; TerminalOptions.file := shell;
          TerminalOptions.cols := 80; TerminalOptions.rows := 30 |};
     TerminalInstance.activateTime := now;
     TerminalInstance.restoredFromRemote := false |}.

(** What an activation that goes through leaves: one more instance, with
    the id drawn from [nanoid], and one message on the transport. An id
    that is not in the registry keeps the ids of the registry distinct. *)
Definition activation (w : World) (sk : Socket) (newId : string) (now : Dayjs)
    (r : bool * World) : Prop :=
  ∃ shell,
    r.1 = true ∧
    _terminals r.2 = _terminals w ++ [activated newId shell now] ∧
    filter (λ e, is_transport_call e = true) (since w r.2)
      = [Emit sk (ActivateTerminal (activated newId shell now))] ∧
    (NoDup (terminal_ids w) → newId ∉ terminal_ids w → NoDup (terminal_ids r.2)).

(** The session data the session-started listener leaves allows a launch: a
    GitHub Actions runner, and a ref, an os, an address and the started id. *)
Definition launchable (w : World) (sid : string) : bool :=
  match _data w with
  | Some d =>
      isGitHubActions (allRunners w) (Some (SessionData.serverAddress d))
      && truthy (Some sid)
      && bool_decide (is_Some (launch_data (SessionData.with_sessionId d (Some sid))))
  | None => false
  end.

(** ** Sessions, step by step *)

(** The session data allows [launchRunnerClient] to go ahead. *)
Definition launch_ready (w : World) : bool :=
  isGitHubActions (allRunners w) (SessionData.serverAddress <$> _data w)
  && bool_decide (is_Some (_data w ≫= launch_data)).

(** The socket the object holds is the only one that may be connected, and
    an online peer has been heard of through it. *)
Definition transport_invariant (w : World) : Prop :=
  (∀ sk, sk ∈ connected w → socket w = Some sk) ∧
  (peer w = RunnerClientStatus.Online → is_Some (socket w)).

(** A step that keeps the socket, connects none, and leaves the peer as it
    is or offline. *)
Definition transport_shrinks (w w' : World) : Prop :=
  socket w' = socket w ∧
  (peer w' = peer w ∨ peer w' = RunnerClientStatus.Offline) ∧
  (∀ sk, sk ∈ connected w' → sk ∈ connected w).

(** A step that drops the socket after disconnecting it. *)
Definition transport_dropped (w w' : World) : Prop :=
  socket w' = None ∧
  peer w' = RunnerClientStatus.Offline ∧
  (∀ sk, sk ∈ connected w' → sk ∈ connected w ∧ socket w ≠ Some sk).

(** One step of a session of the revision with [disconnectRunner]: a call
    of a public method, a timer that expires, the answer of an awaited call,
    or an event of a socket. [io] makes a socket that was never made before;
    a socket connects while the object holds it; the events of the runner
    come over a connected socket; the user hides, shows or closes the
    terminal panel. *)
Inductive step_current : World → World → Prop :=
| step_connectTo w req answer sk :
    (∀ a, Io sk a ∉ trace w) →
    step_current w (exec (Current.connectTo req answer sk) w)
| step_connect w sk :
    socket w = Some sk →
    step_current w (exec (Current.on_connect sk) w)
| step_disconnect w sk :
    sk ∈ connected w →
    step_current w (exec (Current.on_disconnect sk) w)
| step_sessionStarted w sk req sid :
    sk ∈ connected w →
    step_current w (exec (Current.deliver_sessionStarted sk req sid) w)
| step_sessionTerminated w sk :
    sk ∈ connected w →
    step_current w (exec Current.on_sessionTerminated w)
| step_currentTerminals w sk ts newId now :
    sk ∈ connected w →
    step_current w (exec (Current.on_currentTerminals ts newId now) w)
| step_currentPortForwarding w sk port :
    sk ∈ connected w →
    step_current w (exec (Current.on_currentPortForwarding port) w)
| step_terminalClosed w sk terminalId now :
    sk ∈ connected w →
    step_current w (exec (Current.on_terminalClosed terminalId now) w)
| step_runnerStatus w sk c os :
    sk ∈ connected w →
    step_current w (exec (Current.on_runnerStatus sk c os) w)
| step_connect_timeout w sk :
    step_current w (exec (Current.on_connect_timeout sk) w)
| step_launch_resume w d owner repo h :
    step_current w (exec (Current.launchRunnerClient_resume d owner repo h) w)
| step_disconnectRunner w e :
    step_current w (exec (Current.disconnectRunner e) w)
| step_terminate w answer :
    step_current w (exec (Current.terminate answer) w)
| step_activateTerminal w file skp newId now :
    step_current w (exec (Current.activateTerminal file skp newId now) w)
| step_setPortForwarding w port :
    step_current w (exec (Current.setPortForwarding port) w)
| step_panel_visible w visible :
    step_current w (set_panel_visible visible w)
| step_panel_closed w :
    step_current w (set_panel false w).

(** The worlds a session of this revision can be in, from a fresh object. *)
Definition reachable_current (w : World) : Prop :=
  ∃ g rs, rtc step_current (new_world RunnerStatus.Initial g rs) w.

(** One step of a session of the earlier revision, which has no listener
    for a panel that the user closes. *)
Inductive step_earlier : World → World → Prop :=
| step_earlier_connectTo w req answer sk :
    (∀ a, Io sk a ∉ trace w) →
    step_earlier w (exec (Earlier.connectTo req answer sk) w)
| step_earlier_connect w sk :
    socket w = Some sk →
    step_earlier w (exec (Earlier.on_connect sk) w)
| step_earlier_disconnect w sk :
    sk ∈ connected w →
    step_earlier w (exec (Earlier.on_disconnect sk) w)
| step_earlier_sessionStarted w sk req sid :
    sk ∈ connected w →
    step_earlier w (exec (Earlier.on_sessionStarted sk req sid) w)
| step_earlier_sessionTerminated w sk req :
    sk ∈ connected w →
    step_earlier w (exec (Earlier.on_sessionTerminated sk req) w)
| step_earlier_currentTerminals w sk ts now :
    sk ∈ connected w →
    step_earlier w (exec (Earlier.deliver_currentTerminals sk ts now) w)
| step_earlier_terminalClosed w sk terminalId now :
    sk ∈ connected w →
    step_earlier w (exec (Earlier.deliver_terminalClosed sk terminalId now) w)
| step_earlier_runnerStatus w sk c os :
    sk ∈ connected w →
    step_earlier w (exec (Earlier.deliver_runnerStatus sk c os) w)
| step_earlier_connect_timeout w sk :
    step_earlier w (exec (Earlier.on_connect_timeout sk) w)
| step_earlier_disconnect_call w :
    step_earlier w (exec Earlier.disconnect w)
| step_earlier_terminate w answer :
    step_earlier w (exec (Earlier.terminate answer) w)
| step_earlier_activateTerminal w file skp newId now :
    step_earlier w (exec (Earlier.activateTerminal file skp newId now) w)
| step_earlier_panel_visible w visible :
    step_earlier w (set_panel_visible visible w).

(** The worlds a session of the earlier revision can be in; its objects
    start in [Disconnected]. *)
Definition reachable_earlier (w : World) : Prop :=
  ∃ g rs, rtc step_earlier (new_world RunnerStatus.Disconnected g rs) w.

(** The timers of the provision kind. *)
Definition is_workflow_timer (t : Timer) : bool :=
  match t with
  | WorkflowDispatchTimeout _ => true
  | ConnectTimeout _ => false
  end.

(** Every workflow-dispatch timeout that is armed is the recorded one. *)
Definition provision_recorded (w : World) : Prop :=
  ∀ h, WorkflowDispatchTimeout h ∈ timers w → _workflowDispatchTimeout w = Some h.

(** ** Scenarios *)

Notation "w ▷ m" := (exec m w) (at level 50, left associativity, only parsing).

Definition main_ref : option GitHubRef := Some "owner/repo:refs/heads/main".

Definition fresh_current : World := new_world RunnerStatus.Initial ∅ [github_runner].
Definition fresh_earlier : World := new_world RunnerStatus.Disconnected ∅ [github_runner].

(** A new session: connect without an id, the transport connects. *)
Definition connected_current : World :=
  fresh_current ▷ Current.connectTo (session_request None) None 1%nat
                ▷ Current.on_connect 1%nat.

(** ... the runner starts session [abc] and the runner client comes online. *)
Definition started_current : World :=
  connected_current ▷ Current.deliver_sessionStarted 1%nat (session_request None) "abc".
Definition online_current : World :=
  started_current ▷ Current.on_runnerStatus 1%nat RunnerClientStatus.Online (Some "linux").

(** A resumed session: connect with the id [abc], the transport connects. *)
Definition resuming_current : World :=
  fresh_current ▷ Current.connectTo (session_request (Some "abc")) None 1%nat
                ▷ Current.on_connect 1%nat.
(** ... and the runner starts the session [abc] again. *)
Definition resumed_current : World :=
  resuming_current ▷ Current.deliver_sessionStarted 1%nat (session_request (Some "abc")) "abc".
Definition resuming_earlier : World :=
  fresh_earlier ▷ Earlier.connectTo (session_request (Some "abc")) None 1%nat
                ▷ Earlier.on_connect 1%nat.

Definition online_earlier : World :=
  fresh_earlier ▷ Earlier.connectTo (session_request None) None 1%nat
                ▷ Earlier.on_connect 1%nat
                ▷ Earlier.on_sessionStarted 1%nat (session_request None) "abc"
                ▷ Earlier.deliver_runnerStatus 1%nat RunnerClientStatus.Online (Some "linux").

(** A second connect without an id finds the persisted session [abc]; the
    user declines. *)
Definition declined_earlier : World :=
  online_earlier ▷ Earlier.connectTo (session_request None) None 2%nat.

(** Two attempts in a row, the first one never connected; the second one
    connects and its session starts. *)
Definition twice_current : World :=
  fresh_current ▷ Current.connectTo (session_request None) None 1%nat
                ▷ Current.connectTo (session_request None) None 2%nat.
Definition second_started_current : World :=
  twice_current ▷ Current.on_connect 2%nat
                ▷ Current.deliver_sessionStarted 2%nat (session_request None) "abc".

(** A terminal activated at time 0. *)
Definition one_terminal_current : World :=
  online_current ▷ Current.activateTerminal (Some "bash") false "T1" 0.

(** A world with a persisted session [old] for the ref. *)
Definition persisted_current : World :=
  new_world RunnerStatus.Initial {[ main_ref := session_request (Some "old") ]}
    [github_runner].

(** ** Git refs

    [getShortenRef] and [buildFullRef] of the git-ref helpers, on strings as
    sequences of characters. *)

Module GitRef.

(** The character [/]. *)
Definition slash : Ascii.ascii := Ascii.ascii_of_nat 47.

(** [s.split(sep)] for a separator of one character: the segments between
    the separators, at least one. *)
Fixpoint split (sep : Ascii.ascii) (s : string) : list string :=
  match s with
  | EmptyString => [""]
  | String c s' =>
      if Ascii.eqb c sep then "" :: split sep s'
      else
        match split sep s' with
        | seg :: segs => String c seg :: segs
        | [] => [String c ""]
        end
  end.

(** [l.join(sep)] *)
Definition join (sep : string) (l : list string) : string := String.concat sep l.

(** [s.startsWith(p)] *)
Definition startsWith (s p : string) : bool := String.prefix p s.

(** [const [, , ...values] = ref.split('/'); return values.join('/')] *)
Definition getShortenRef (ref : string) : string :=
  if negb (startsWith ref "refs/") then ref
  else join "/" (drop 2 (split slash ref)).

Inductive RefType :=
| branch
| tag.

Definition buildFullRef (ref : string) (type : RefType) : string :=
  if startsWith ref "refs/" then ref
  else "refs/" +:+ (match type with branch => "heads" | tag => "tags" end) +:+ "/" +:+ ref.

(** No character of [s] is [c]. *)
Definition free_of (c : Ascii.ascii) (s : string) : bool :=
  forallb (λ c', negb (Ascii.eqb c' c)) (String.list_ascii_of_string s).

End GitRef.

(** ** More of the class, and ways to read its worlds *)

(** [deliverPortForwardingData] of the revision with [disconnectRunner]. *)
Definition deliverPortForwardingData : M unit :=
  st ← runnerStatus;
  c ← runnerClientStatus;
  if negb (RunnerStatus.eqb st RunnerStatus.SessionStarted
           && RunnerClientStatus.eqb c RunnerClientStatus.Online)
  then call (OnPortForwardingUpdate None)
  else emit_if_socket FetchCurrentPortForwarding.
Arguments deliverPortForwardingData /.

(** The notifications among the calls. *)
Definition notifications (es : list Effect) : list Payload :=
  omap (λ e, match e with OnUpdate p => Some p | _ => None end) es.
Definition is_error (p : Payload) : bool := bool_decide (type p = error).

(** More kinds of calls: the modal prompts, and the calls to the terminal
    panel and its webview. *)
Definition is_prompt (e : Effect) : bool :=
  match e with
  | ShowInformationMessage _ | ShowWarningMessage _ => true
  | _ => false
  end.
Definition is_panel_call (e : Effect) : bool :=
  match e with
  | CreateWebviewPanel | RevealPanel | DisposePanel | PostSetTerminals _ => true
  | _ => false
  end.

(** The socket the object holds is connected. *)
Definition live (w : World) : bool :=
  match socket w with
  | Some sk => bool_decide (sk ∈ connected w)
  | None => false
  end.

(** [file ?? this._data?.defaultShell ?? getDefaultShell(runnerClientOS)] *)
Definition chosen_shell (file : option string) (w : World) : Shell :=
  match file with
  | Some f => ShellPath f
  | None =>
      match _data w ≫= SessionData.defaultShell with
      | Some f => ShellPath f
      | None => DefaultShell (RunnerStatusData.runnerClientOS (_runnerStatusData w))
      end
  end.

(** [!githubRef || !os || !serverAddress || !sessionId] is false. *)
Definition complete (d : SessionData.t) : bool :=
  bool_decide (is_Some (SessionData.githubRef d)) && truthy (SessionData.os d)
  && negb (String.eqb (SessionData.serverAddress d) "") && truthy (SessionData.sessionId d).

(** The persisted session of the requested ref, if it has an id, has the
    requested id: [connectTo] has nothing to ask. *)
Definition no_conflict (w : World) (d : SessionData.t) : Prop :=
  ∀ e, globalState w !! SessionData.githubRef d = Some e →
       truthy (SessionData.sessionId e) = true →
       SessionData.sessionId e = SessionData.sessionId d.

(** The id received differs from a non-empty id that is held. *)
Definition mismatch (w : World) (sid : string) : bool :=
  truthy (held_sessionId w) && bool_decide (held_sessionId w ≠ Some sid).

(** The object has no session: no session data, no terminal, and the peer
    offline. Its status is the initial one, or SessionStarted, which a
    session-started listener leaves when it runs after the teardown. *)
Definition idle (w : World) : Prop :=
  (status w = RunnerStatus.Initial ∨ status w = RunnerStatus.SessionStarted) ∧
  peer w = RunnerClientStatus.Offline ∧ _terminals w = [] ∧ _data w = None.

(** An object without a socket has no session. *)
Definition idle_without_socket (w : World) : Prop := socket w = None → idle w.

(** The prompt of [terminate], up to the ref it names. *)
Definition terminate_text : string :=
  "Runner client will be terminated and all un-pushed changes will be discarded. Continue?".
(** The texts of the two errors of the earlier revision. *)
Definition timeout_text : MessageText := Text "Connection timeout. Please try another runner.".
Definition terminated_text : MessageText :=
  Text "Session has been terminated, please create a new one if needed.".

(** The launch of a runner client goes on once [setupRunnerClientRepo] has
    answered with an owner and a repository: the workflow is dispatched for
    the session data [d], read before the wait, and the provisioning timeout
    is armed and recorded. *)
Definition dispatched (d : SessionData.t) (w : World) : Prop :=
  ∀ owner repo h, owner ≠ "" → repo ≠ "" →
    let w' := exec (Current.launchRunnerClient_resume d (Some owner) (Some repo) h) w in
    since w w' =
      [DispatchRunnerClientWorkflow (SessionData.serverAddress d)
         (default "" (SessionData.os d)) (default "" (SessionData.sessionId d))
         (default "" (SessionData.githubRef d)) owner repo;
       SetTimeout (WorkflowDispatchTimeout h)] ∧
    WorkflowDispatchTimeout h ∈ timers w' ∧
    _workflowDispatchTimeout w' = Some h.

(** A later world of the same run: the trace has only grown. *)
Definition extends (w w' : World) : Prop := ∃ es, trace w' = trace w ++ es.

(** How many listeners are registered on [sk]. *)
Definition registered (w : World) (sk : Socket) : nat := eval (registrations sk) w.

(** A new session on a runner that is not a GitHub Actions runner, once
    the transport has connected. *)
Definition connected_other_current : World :=
  new_world RunnerStatus.Initial ∅ [other_runner]
    ▷ Current.connectTo (session_request None) None 1%nat
    ▷ Current.on_connect 1%nat.
Definition connected_other_earlier : World :=
  new_world RunnerStatus.Disconnected ∅ [other_runner]
    ▷ Earlier.connectTo (session_request None) None 1%nat
    ▷ Earlier.on_connect 1%nat.

(** The transport of a session drops and comes back before the runner has
    answered: the connect listener has run twice on the socket. *)
Definition reconnected_current (sid : option string) : World :=
  fresh_current ▷ Current.connectTo (session_request sid) None 1%nat
                ▷ Current.on_connect 1%nat
                ▷ Current.on_disconnect 1%nat
                ▷ Current.on_connect 1%nat.

(** A session resumed with the id [abc], whose transport dropped and came
    back before the runner answered with the id [xyz]. *)
Definition mismatched_current : World :=
  reconnected_current (Some "abc")
    ▷ Current.deliver_sessionStarted 1%nat (session_request (Some "abc")) "xyz".

(** The transport of a started session of the earlier revision drops and
    comes back, and the runner starts the session again. *)
Definition restarted_earlier : World :=
  fresh_earlier ▷ Earlier.connectTo (session_request None) None 1%nat
                ▷ Earlier.on_connect 1%nat
                ▷ Earlier.on_sessionStarted 1%nat (session_request None) "abc"
                ▷ Earlier.on_disconnect 1%nat
                ▷ Earlier.on_connect 1%nat
                ▷ Earlier.on_sessionStarted 1%nat (session_request None) "abc".

(** ** The first revision, and the control panel that drives it

    The oldest [RemoteSession] of the source keeps its two statuses in fields
    of their own, is told whom to notify by each [connectTo], and registers
    the listeners of the runner client on the socket it holds when a session
    starts. [ControlPanelView] is written against it. *)

Module WebviewAction.
(** The members of [WebviewActionEnum] that neither handler of a remote
    session looks at. *)
Inductive other :=
| UpdateData
| ValidatePAT
| ValidatePATResult
| CommitChanges
| CommitChangesMessage
| CommitChangesResult
| SetTerminals
| TerminalStdout.

(** A [WebviewAction]: a member of [WebviewActionEnum] with the payload the
    sender of such an action gives it. *)
Inductive t :=
| RequestData
| ConnectToRemoteSession (d : SessionData.t)
| ActivateTerminal (shell : option string)
| TerminalCmd (terminalId data : string)
| TerminalSetDimensions (id : string) (rows cols : Z)
| Other (a : other).
End WebviewAction.

Module Oldest.

(** [RemoteSessionMessagePayload] *)
Record Payload := {
  p_runnerStatus : RunnerStatus.t;
  p_type : PayloadType;
  p_message : string;
}.

(** The messages this revision sends to the runner. *)
Inductive Message :=
| SetType (sessionId : option string)
| CheckRunnerStatus
| FetchCurrentTerminals
| ActivateTerminal (options : TerminalOptions.t)
| Cmd (terminalId data : string)
| SetTerminalDimensions (id : string) (rows cols : Z).

(** What the class does to the outside; [OnUpdate sk] is the callback given
    to the [connectTo] that made [sk]. *)
Inductive Effect :=
| OnUpdate (socket : Socket) (p : Payload)
| Io (socket : Socket) (address : string)
| Emit (socket : Socket) (m : Message)
| SocketDisconnect (socket : Socket)
| SetTimeout (t : Timer)
| ClearTimeout (t : Timer)
| Resolve (socket : Socket) (answer : bool)
| ExecuteCommand (command : string)
| CreateWebviewPanel
| PostSetTerminals (ids : list string)
| PostTerminalStdout (terminalId data : string)
| ActionHandler (a : WebviewAction.t).

Record World := {
  (* fields of the object *)
  _data : option SessionData.t;
  _terminals : list TerminalOptions.t;
  runnerStatus : RunnerStatus.t;
  runnerClientStatus : RunnerClientStatus.t;
  socket : option Socket;
  _panel : bool;
  (* outside the object *)
  connected : list Socket;
  timers : list Timer;
  listeners : list Socket;
  trace : list Effect;
}.

Definition set_data (v : option SessionData.t) (w : World) : World :=
  {| _data := v; _terminals := _terminals w; runnerStatus := runnerStatus w;
     runnerClientStatus := runnerClientStatus w; socket := socket w; _panel := _panel w;
     connected := connected w; timers := timers w; listeners := listeners w;
     trace := trace w |}.
Definition set_terminals (v : list TerminalOptions.t) (w : World) : World :=
  {| _data := _data w; _terminals := v; runnerStatus := runnerStatus w;
     runnerClientStatus := runnerClientStatus w; socket := socket w; _panel := _panel w;
     connected := connected w; timers := timers w; listeners := listeners w;
     trace := trace w |}.
Definition set_runnerStatus (v : RunnerStatus.t) (w : World) : World :=
  {| _data := _data w; _terminals := _terminals w; runnerStatus := v;
     runnerClientStatus := runnerClientStatus w; socket := socket w; _panel := _panel w;
     connected := connected w; timers := timers w; listeners := listeners w;
     trace := trace w |}.
Definition set_runnerClientStatus (v : RunnerClientStatus.t) (w : World) : World :=
  {| _data := _data w; _terminals := _terminals w; runnerStatus := runnerStatus w;
     runnerClientStatus := v; socket := socket w; _panel := _panel w;
     connected := connected w; timers := timers w; listeners := listeners w;
     trace := trace w |}.
Definition set_socket (v : option Socket) (w : World) : World :=
  {| _data := _data w; _terminals := _terminals w; runnerStatus := runnerStatus w;
     runnerClientStatus := runnerClientStatus w; socket := v; _panel := _panel w;
     connected := connected w; timers := timers w; listeners := listeners w;
     trace := trace w |}.
Definition set_panel (v : bool) (w : World) : World :=
  {| _data := _data w; _terminals := _terminals w; runnerStatus := runnerStatus w;
     runnerClientStatus := runnerClientStatus w; socket := socket w; _panel := v;
     connected := connected w; timers := timers w; listeners := listeners w;
     trace := trace w |}.
Definition set_connected (v : list Socket) (w : World) : World :=
  {| _data := _data w; _terminals := _terminals w; runnerStatus := runnerStatus w;
     runnerClientStatus := runnerClientStatus w; socket := socket w; _panel := _panel w;
     connected := v; timers := timers w; listeners := listeners w;
     trace := trace w |}.
Definition set_timers (v : list Timer) (w : World) : World :=
  {| _data := _data w; _terminals := _terminals w; runnerStatus := runnerStatus w;
     runnerClientStatus := runnerClientStatus w; socket := socket w; _panel := _panel w;
     connected := connected w; timers := v; listeners := listeners w;
     trace := trace w |}.
Definition set_listeners (v : list Socket) (w : World) : World :=
  {| _data := _data w; _terminals := _terminals w; runnerStatus := runnerStatus w;
     runnerClientStatus := runnerClientStatus w; socket := socket w; _panel := _panel w;
     connected := connected w; timers := timers w; listeners := v;
     trace := trace w |}.
Definition set_trace (v : list Effect) (w : World) : World :=
  {| _data := _data w; _terminals := _terminals w; runnerStatus := runnerStatus w;
     runnerClientStatus := runnerClientStatus w; socket := socket w; _panel := _panel w;
     connected := connected w; timers := timers w; listeners := listeners w;
     trace := v |}.

(** Methods as state transformers of this world. *)
Definition M (A : Type) : Type := World → A * World.
Definition ret {A} (a : A) : M A := λ w, (a, w).
Definition bind {A B} (m : M A) (f : A → M B) : M B :=
  λ w, let '(a, w') := m w in f a w'.

Declare Scope O_scope.
Delimit Scope O_scope with O.
Bind Scope O_scope with M.
Notation "x ← y ; z" := (bind y (λ x, z))
  (at level 20, y at level 100, z at level 200, only parsing) : O_scope.
Notation "x ;; z" := (bind x (λ _, z))
  (at level 100, z at level 200, only parsing, right associativity) : O_scope.
Local Open Scope O_scope.

Definition gets {A} (f : World → A) : M A := λ w, (f w, w).
Definition modify (f : World → World) : M unit := λ w, (tt, f w).
Definition skip : M unit := ret tt.
Definition when (b : bool) (m : M unit) : M unit := if b then m else skip.
Definition exec {A} (m : M A) (w : World) : World := snd (m w).
Definition eval {A} (m : M A) (w : World) : A := fst (m w).
Definition call (e : Effect) : M unit := modify (λ w, set_trace (trace w ++ [e]) w).

(** [m] run [n] times: a listener registered [n] times on an event. *)
Fixpoint times (n : nat) (m : M unit) : M unit :=
  match n with
  | O => skip
  | S n => m ;; times n m
  end.

Definition setTimeout (t : Timer) : M unit :=
  modify (λ w, set_timers (timers w ++ [t]) w) ;; call (SetTimeout t).
Definition clearTimeout (t : Timer) : M unit :=
  modify (λ w, set_timers (filter (λ t', t' ≠ t) (timers w)) w) ;; call (ClearTimeout t).

Definition emit (sk : Socket) (m : Message) : M unit := call (Emit sk m).
(** [this.socket?.emit(m)] *)
Definition emit_if_socket (m : Message) : M unit :=
  s ← gets socket;
  match s with
  | Some sk => emit sk m
  | None => skip
  end.

(** [socket.disconnect()], as in the later revisions. *)
Definition socket_disconnect (listener : Socket → M unit) (sk : Socket) : M unit :=
  call (SocketDisconnect sk) ;;
  c ← gets (λ w, bool_decide (sk ∈ connected w));
  when c (modify (λ w, set_connected (filter (λ s, s ≠ sk) (connected w)) w) ;; listener sk).

(** [get sessionId()] *)
Definition sessionId : M (option string) :=
  gets (λ w, _data w ≫= SessionData.sessionId).

(** [set sessionId(sessionId)] *)
Definition set_sessionId (s : option string) : M unit :=
  if negb (truthy s) then modify (set_data None)
  else modify (λ w,
    match _data w with
    | Some d => set_data (Some (SessionData.with_sessionId d s)) w
    | None => w
    end).

(** [postTerminalsToWebview]: the ids of the terminals go to the panel, if
    there is one. *)
Definition postTerminalsToWebview : M unit :=
  p ← gets _panel;
  ts ← gets _terminals;
  when p (call (PostSetTerminals (TerminalOptions.id <$> ts))).

(** [set terminals(terminals)] *)
Definition set_terminals_prop (ts : list TerminalOptions.t) : M unit :=
  modify (set_terminals ts) ;; postTerminalsToWebview.

Definition createPanelIfNeeded : M unit :=
  p ← gets _panel;
  if p then skip
  else
    call (ExecuteCommand "workbench.action.editorLayoutTwoRows") ;;
    call CreateWebviewPanel ;;
    modify (set_panel true) ;;
    call (ExecuteCommand "workbench.action.moveEditorToBelowGroup").

Definition retrieveRunnerInfo : M unit :=
  emit_if_socket CheckRunnerStatus ;;
  emit_if_socket FetchCurrentTerminals.

(** [registerSocketEventListeners]: one more set of listeners on the socket
    held, if one is held. *)
Definition registerSocketEventListeners : M unit :=
  s ← gets socket;
  match s with
  | Some sk => modify (λ w, set_listeners (listeners w ++ [sk]) w)
  | None => skip
  end.

(** How many times the listeners of the runner client are registered on
    [sk]. *)
Definition registrations (sk : Socket) : M nat :=
  gets (λ w, length (filter (λ s, s = sk) (listeners w))).

Definition timeout_payload : Payload :=
  {| p_runnerStatus := RunnerStatus.SessionTimeout; p_type := error;
     p_message := "Connection timeout. Please try another runner server." |}.

Definition connected_payload (sid : option string) : Payload :=
  {| p_runnerStatus := RunnerStatus.Connected; p_type := message;
     p_message := connected_text sid |}.

Definition started_payload (id : string) : Payload :=
  {| p_runnerStatus := RunnerStatus.SessionStarted; p_type := message;
     p_message := "Session " +:+ id +:+ " started. Waiting for runner client response..." |}.

(** The ['disconnect'] listener of [sk]. *)
Definition disconnect_listener (sk : Socket) : M unit :=
  st ← gets runnerStatus;
  when (negb (RunnerStatus.eqb st RunnerStatus.SessionTimeout))
    (modify (set_runnerStatus RunnerStatus.Disconnected)) ;;
  clearTimeout (ConnectTimeout sk).

(** The transport dropped the connection of [sk]. *)
Definition on_disconnect (sk : Socket) : M unit :=
  modify (λ w, set_connected (filter (λ s, s ≠ sk) (connected w)) w) ;;
  disconnect_listener sk.

(** The callback of the connection timeout of the attempt that made [sk]. *)
Definition connect_timeout_callback (sk : Socket) : M unit :=
  st ← gets runnerStatus;
  if RunnerStatus.eqb st RunnerStatus.Disconnected || RunnerStatus.eqb st RunnerStatus.Connected
  then
    socket_disconnect disconnect_listener sk ;;
    modify (set_runnerStatus RunnerStatus.SessionTimeout) ;;
    call (OnUpdate sk timeout_payload) ;;
    call (Resolve sk false)
  else skip.

(** The connection timeout of [sk] expires. *)
Definition on_connect_timeout (sk : Socket) : M unit :=
  ts ← gets timers;
  if bool_decide (ConnectTimeout sk ∈ ts) then
    modify (λ w, set_timers (filter (λ t, t ≠ ConnectTimeout sk) (timers w)) w) ;;
    connect_timeout_callback sk
  else skip.

(** [connectTo(data, onUpdate)]: [sk] is the socket [io] creates; the
    promise is left pending. *)
Definition connectTo (d : SessionData.t) (sk : Socket) : M unit :=
  modify (set_data (Some d)) ;;
  call (Io sk (SessionData.serverAddress d)) ;;
  setTimeout (ConnectTimeout sk) ;;
  modify (set_runnerStatus RunnerStatus.Disconnected) ;;
  modify (set_runnerClientStatus RunnerClientStatus.Offline) ;;
  modify (set_socket (Some sk)) ;;
  set_terminals_prop [].

(** The ['connect'] listener of [sk]. *)
Definition on_connect (sk : Socket) : M unit :=
  modify (λ w, set_connected (sk :: filter (λ s, s ≠ sk) (connected w)) w) ;;
  sid ← sessionId;
  emit sk (SetType sid) ;;
  modify (set_runnerStatus RunnerStatus.Connected) ;;
  sid ← sessionId;
  call (OnUpdate sk (connected_payload sid)).

(** The [RunnerServerEvent.SessionStarted] listener of [sk]. *)
Definition on_sessionStarted (sk : Socket) (id : string) : M unit :=
  held ← sessionId;
  if truthy held && bool_decide (held ≠ Some id) then skip
  else
    st ← gets runnerStatus;
    if negb (RunnerStatus.eqb st RunnerStatus.Connected) then skip
    else
      clearTimeout (ConnectTimeout sk) ;;
      modify (set_runnerStatus RunnerStatus.SessionStarted) ;;
      registerSocketEventListeners ;;
      call (OnUpdate sk (started_payload id)) ;;
      held ← sessionId;
      when (truthy held) retrieveRunnerInfo ;;
      set_sessionId (Some id) ;;
      call (Resolve sk true).

(** The listeners of the runner client, each run as many times as it is
    registered on the socket the event comes over. *)
Definition on_currentTerminals (sk : Socket) (ts : list TerminalOptions.t) : M unit :=
  n ← registrations sk;
  times n (set_terminals_prop ts).

Definition on_terminalClosed (sk : Socket) (terminalId : string) : M unit :=
  n ← registrations sk;
  times n (ts ← gets _terminals;
           set_terminals_prop (filter (λ t, TerminalOptions.id t ≠ terminalId) ts)).

Definition on_stdout (sk : Socket) (terminalId data : string) : M unit :=
  n ← registrations sk;
  times n (p ← gets _panel; when p (call (PostTerminalStdout terminalId data))).

Definition on_runnerStatus (sk : Socket) (c : RunnerClientStatus.t) : M unit :=
  n ← registrations sk;
  times n (modify (set_runnerClientStatus c)).

(** [activateTerminal(ignoreIfExists)]: [newId] is what [nanoid()] answers. *)
Definition activateTerminal (ignoreIfExists : bool) (newId : string) : M bool :=
  c ← gets runnerClientStatus;
  if RunnerClientStatus.eqb c RunnerClientStatus.Offline then ret false
  else
    createPanelIfNeeded ;;
    ts ← gets _terminals;
    when (negb ignoreIfExists || Nat.eqb (length ts) 0)
      (let options :=
         {| TerminalOptions.id := newId; TerminalOptions.file := ShellPath "bash";
            TerminalOptions.cols := 80; TerminalOptions.rows := 30 |} in
       ts ← gets _terminals;
       set_terminals_prop (ts ++ [options]) ;;
       emit_if_socket (ActivateTerminal options)) ;;
    ret true.

Definition activateTerminalIfNeeded (newId : string) : M bool := activateTerminal true newId.

(** [handleAction] of the terminal panel: one [if] for each of the four
    actions it knows. *)
Definition handleAction (a : WebviewAction.t) (newId : string) : M unit :=
  match a with
  | WebviewAction.RequestData => postTerminalsToWebview
  | WebviewAction.TerminalCmd terminalId data => emit_if_socket (Cmd terminalId data)
  | WebviewAction.ActivateTerminal _ => _ ← activateTerminal false newId; skip
  | WebviewAction.TerminalSetDimensions id rows cols =>
      emit_if_socket (SetTerminalDimensions id rows cols)
  | _ => skip
  end.

(** A freshly constructed object. *)
Definition new_world : World :=
  {| _data := None; _terminals := []; runnerStatus := RunnerStatus.Disconnected;
     runnerClientStatus := RunnerClientStatus.Offline; socket := None; _panel := false;
     connected := []; timers := []; listeners := []; trace := [] |}.

End Oldest.

Module ControlPanelView.
Import Oldest.
Local Open Scope O_scope.

(** [handleAction] of the control panel: [sk] and [newId] are the socket and
    the id the calls it makes may draw. The callback it hands to [connectTo]
    delivers the payload to its webview: [OnUpdate] of the trace. *)
Definition handleAction (a : WebviewAction.t) (sk : Socket) (newId : string) : M unit :=
  match a with
  | WebviewAction.ConnectToRemoteSession d => connectTo d sk
  | WebviewAction.ActivateTerminal _ => _ ← activateTerminalIfNeeded newId; skip
  | _ => call (ActionHandler a)
  end.

End ControlPanelView.

Arguments Oldest.bind {A B} m f w /.
Arguments Oldest.ret {A} a w /.
Arguments Oldest.gets {A} f w /.
Arguments Oldest.modify f w /.
Arguments Oldest.skip w /.
Arguments Oldest.when b m /.
Arguments Oldest.exec {A} m w /.
Arguments Oldest.eval {A} m w /.
Arguments Oldest.call e /.
Arguments Oldest.times !n m /.
Arguments Oldest.setTimeout t /.
Arguments Oldest.clearTimeout t /.
Arguments Oldest.emit sk m /.
Arguments Oldest.emit_if_socket m /.
Arguments Oldest.socket_disconnect listener sk /.
Arguments Oldest.sessionId /.
Arguments Oldest.set_sessionId s /.
Arguments Oldest.postTerminalsToWebview /.
Arguments Oldest.set_terminals_prop ts /.
Arguments Oldest.createPanelIfNeeded /.
Arguments Oldest.retrieveRunnerInfo /.
Arguments Oldest.registerSocketEventListeners /.
Arguments Oldest.registrations sk /.
Arguments Oldest.disconnect_listener sk /.
Arguments Oldest.on_disconnect sk /.
Arguments Oldest.connect_timeout_callback sk /.
Arguments Oldest.on_connect_timeout sk /.
Arguments Oldest.connectTo d sk /.
Arguments Oldest.on_connect sk /.
Arguments Oldest.on_sessionStarted sk id /.
Arguments Oldest.on_currentTerminals sk ts /.
Arguments Oldest.on_terminalClosed sk terminalId /.
Arguments Oldest.on_stdout sk terminalId data /.
Arguments Oldest.on_runnerStatus sk c /.
Arguments Oldest.activateTerminal ignoreIfExists newId /.
Arguments Oldest.activateTerminalIfNeeded newId /.
Arguments Oldest.handleAction a newId /.
Arguments ControlPanelView.handleAction a sk newId /.
Arguments Oldest.set_data v w /.
Arguments Oldest.set_terminals v w /.
Arguments Oldest.set_runnerStatus v w /.
Arguments Oldest.set_runnerClientStatus v w /.
Arguments Oldest.set_socket v w /.
Arguments Oldest.set_panel v w /.
Arguments Oldest.set_connected v w /.
Arguments Oldest.set_timers v w /.
Arguments Oldest.set_listeners v w /.
Arguments Oldest.set_trace v w /.

(** The calls made between a world of the first revision and a later one,
    and the calls to the transport among them. *)
Definition since_oldest (w w' : Oldest.World) : list Oldest.Effect :=
  drop (length (Oldest.trace w)) (Oldest.trace w').
Arguments since_oldest w w' : simpl never.

Definition is_transport_call_oldest (e : Oldest.Effect) : bool :=
  match e with
  | Oldest.Io _ _ | Oldest.Emit _ _ | Oldest.SocketDisconnect _ => true
  | _ => false
  end.

(** The id received differs from a non-empty id that is held. *)
Definition mismatch_oldest (w : Oldest.World) (id : string) : bool :=
  let held := Oldest._data w ≫= SessionData.sessionId in
  truthy held && bool_decide (held ≠ Some id).

(** The calls to the terminal panel and its webview. *)
Definition is_panel_call_oldest (e : Oldest.Effect) : bool :=
  match e with
  | Oldest.CreateWebviewPanel | Oldest.PostSetTerminals _ => true
  | _ => false
  end.

(** A terminal as this revision makes it. *)
Definition bash_terminal (newId : string) : TerminalOptions.t :=
  {| TerminalOptions.id := newId; TerminalOptions.file := ShellPath "bash";
     TerminalOptions.cols := 80; TerminalOptions.rows := 30 |}.

(** The actions handed on to the action handler of the extension. *)
Definition is_forwarded (e : Oldest.Effect) : bool :=
  match e with
  | Oldest.ActionHandler _ => true
  | _ => false
  end.

(** One step of a session of the first revision: a call of a method, an
    action of a webview, an event of a socket or a timer that expires, in
    any order. *)
Inductive step_oldest : Oldest.World → Oldest.World → Prop :=
| step_oldest_connectTo w d sk :
    step_oldest w (Oldest.exec (Oldest.connectTo d sk) w)
| step_oldest_connect w sk :
    step_oldest w (Oldest.exec (Oldest.on_connect sk) w)
| step_oldest_disconnect w sk :
    step_oldest w (Oldest.exec (Oldest.on_disconnect sk) w)
| step_oldest_sessionStarted w sk id :
    step_oldest w (Oldest.exec (Oldest.on_sessionStarted sk id) w)
| step_oldest_currentTerminals w sk ts :
    step_oldest w (Oldest.exec (Oldest.on_currentTerminals sk ts) w)
| step_oldest_terminalClosed w sk terminalId :
    step_oldest w (Oldest.exec (Oldest.on_terminalClosed sk terminalId) w)
| step_oldest_stdout w sk terminalId data :
    step_oldest w (Oldest.exec (Oldest.on_stdout sk terminalId data) w)
| step_oldest_runnerStatus w sk c :
    step_oldest w (Oldest.exec (Oldest.on_runnerStatus sk c) w)
| step_oldest_connect_timeout w sk :
    step_oldest w (Oldest.exec (Oldest.on_connect_timeout sk) w)
| step_oldest_activateTerminal w ignoreIfExists newId :
    step_oldest w (Oldest.exec (Oldest.activateTerminal ignoreIfExists newId) w)
| step_oldest_handleAction w a newId :
    step_oldest w (Oldest.exec (Oldest.handleAction a newId) w)
| step_oldest_control w a sk newId :
    step_oldest w (Oldest.exec (ControlPanelView.handleAction a sk newId) w).

(** The worlds a session of the first revision can be in, from a fresh
    object. *)
Definition reachable_oldest (w : Oldest.World) : Prop := rtc step_oldest Oldest.new_world w.

(** No session has started: no listener of the runner client is registered,
    the peer is offline and there is no terminal. *)
Definition not_started (w : Oldest.World) : Prop :=
  Oldest.listeners w = [] →
  Oldest.runnerClientStatus w = RunnerClientStatus.Offline ∧ Oldest._terminals w = [].

(** A connect request from the control panel, and the transport connects. *)
Definition connected_oldest : Oldest.World :=
  Oldest.exec (Oldest.on_connect 1%nat)
    (Oldest.exec
       (ControlPanelView.handleAction
          (WebviewAction.ConnectToRemoteSession (session_request None)) 1%nat "T1")
       Oldest.new_world).

(** ** Reading traces *)

Lemma since_app (w w' : World) (es : list Effect) :
  trace w' = trace w ++ es → since w w' = es.
Proof. intros E. unfold since. rewrite E. apply drop_app_length. Qed.

Lemma since_refl (w w' : World) : trace w' = trace w → since w w' = [].
Proof. intros E. unfold since. rewrite E. apply drop_all. Qed.

Lemma filter_notifications (f : Effect → bool) (l : list Payload) :
  (∀ p, f (OnUpdate p) = false) → filter (λ e, f e = true) (OnUpdate <$> l) = [].
Proof.
  intros Hf. induction l as [|p l IH]; [done|].
  rewrite fmap_cons, filter_cons_False; [done|]. by rewrite Hf.
Qed.

Lemma elem_of_filtered {A} (P : A → Prop) `{∀ x, Decision (P x)} (l : list A) (x : A) :
  x ∈ filter P l → x ∈ l.
Proof. by intros [_ ?]%list_elem_of_filter. Qed.

Lemma not_elem_of_filter_ne {A} `{EqDecision A} (x : A) (l : list A) :
  x ∉ filter (λ y, y ≠ x) l.
Proof. intros [? ?]%list_elem_of_filter. done. Qed.

(** No status notification is the no-data message of the launcher. *)
Lemma statusNotifications_not_provisioning_current d sid :
  filter (λ e, is_provisioning e = true) (OnUpdate <$> Current.statusNotifications d sid) = [].
Proof. destruct d as [? [] [[]|] [] ?]; reflexivity. Qed.

Lemma statusNotifications_not_provisioning_earlier d sid :
  filter (λ e, is_provisioning e = true) (OnUpdate <$> Earlier.statusNotifications d sid) = [].
Proof. destruct d as [? [] ? [] ?]; reflexivity. Qed.

Lemma extends_refl (w : World) : extends w w.
Proof. exists []. by rewrite app_nil_r. Qed.

Lemma extends_trans (w1 w2 w3 : World) : extends w1 w2 → extends w2 w3 → extends w1 w3.
Proof. intros [es1 E1] [es2 E2]. exists (es1 ++ es2). by rewrite E2, E1, (assoc_L (++)). Qed.

(** The calls of a run in two parts. *)
Lemma since_extends (w1 w2 w3 : World) :
  extends w1 w2 → extends w2 w3 → since w1 w3 = since w1 w2 ++ since w2 w3.
Proof.
  intros [es1 E1] [es2 E2].
  rewrite (since_app w1 w2 es1 E1), (since_app w2 w3 es2 E2).
  apply since_app. by rewrite E2, E1, (assoc_L (++)).
Qed.

Lemma exec_bind {A B} (m : M A) (f : A → M B) (w : World) :
  exec (bind m f) w = exec (f (eval m w)) (exec m w).
Proof. unfold exec, eval, bind. by destruct (m w). Qed.

Lemma exec_in_turn_nil (w : World) : exec (in_turn []) w = w.
Proof. reflexivity. Qed.

Lemma exec_in_turn_cons (m : M unit) (ms : list (M unit)) (w : World) :
  exec (in_turn (m :: ms)) w = exec (in_turn ms) (exec m w).
Proof. cbn [in_turn]. by rewrite exec_bind. Qed.

(** What every run keeps, all the runs keep. *)
Lemma in_turn_preserves (P : World → Prop) (ms : list (M unit)) (w : World) :
  Forall (λ m, ∀ w, P w → P (exec m w)) ms → P w → P (exec (in_turn ms) w).
Proof.
  intros Hms. revert w. induction Hms as [|m ms Hm _ IH]; intros w Hw; [exact Hw|].
  rewrite exec_in_turn_cons. by apply IH, Hm.
Qed.

(** When every run makes the calls [k] of a kind, the runs make them once
    each; [g] picks the calls of the kind. *)
Lemma in_turn_gathers {B} (P : World → Prop) (g : list Effect → list B) (k : list B)
    (ms : list (M unit)) (w : World) :
  g [] = [] → (∀ es es', g (es ++ es') = g es ++ g es') →
  Forall (λ m, ∀ w, P w →
            P (exec m w) ∧ extends w (exec m w) ∧ g (since w (exec m w)) = k) ms →
  P w →
  P (exec (in_turn ms) w) ∧ extends w (exec (in_turn ms) w) ∧
  g (since w (exec (in_turn ms) w)) = mjoin (replicate (length ms) k).
Proof.
  intros Hnil Happ Hms. revert w. induction Hms as [|m ms Hm _ IH]; intros w Hw.
  - split; [exact Hw|]. split; [apply extends_refl|]. by rewrite since_refl.
  - rewrite exec_in_turn_cons. destruct (Hm w Hw) as (Hw1 & He1 & Hk1).
    destruct (IH _ Hw1) as (Hw2 & He2 & Hk2). split; [exact Hw2|].
    split; [by eapply extends_trans|].
    rewrite (since_extends w (exec m w)), Happ, Hk1, Hk2 by done. reflexivity.
Qed.

Lemma in_turn_calls (P : World → Prop) (f : Effect → bool) (k : list Effect)
    (ms : list (M unit)) (w : World) :
  Forall (λ m, ∀ w, P w →
            P (exec m w) ∧ extends w (exec m w) ∧
            filter (λ e, f e = true) (since w (exec m w)) = k) ms →
  P w →
  P (exec (in_turn ms) w) ∧ extends w (exec (in_turn ms) w) ∧
  filter (λ e, f e = true) (since w (exec (in_turn ms) w)) = mjoin (replicate (length ms) k).
Proof. apply in_turn_gathers; [done|]. intros es es'. apply filter_app. Qed.

Lemma mjoin_replicate_singleton {A} (n : nat) (x : A) : mjoin (replicate n [x]) = replicate n x.
Proof. induction n as [|n IH]; [done|]. cbn. f_equal. exact IH. Qed.

Lemma mjoin_replicate_nil {A} (n : nat) : mjoin (replicate n (@nil A)) = [].
Proof. induction n as [|n IH]; [done|]. exact IH. Qed.

(** An event of the runner client of the earlier revision, as the runs of
    its listener. *)
Lemma exec_deliver (sk : Socket) (listener : nat → M unit) (w : World) :
  exec (Earlier.deliver sk listener) w = exec (in_turn (listener <$> seq 0 (registered w sk))) w.
Proof. reflexivity. Qed.

(** A session-started event, as the runs of the once-listeners it takes
    off. *)
Lemma exec_deliver_sessionStarted (sk : Socket) (d : SessionData.t) (sid : string) (w : World) :
  exec (Current.deliver_sessionStarted sk d sid) w =
  exec (in_turn (replicate (registered w sk) (Current.on_sessionStarted d sid)))
    (set_listeners (filter (λ s, s ≠ sk) (listeners w)) w).
Proof. reflexivity. Qed.

(** A socket without a registration has none to take off. *)
Lemma unregistered (w : World) (sk : Socket) :
  registered w sk = 0%nat → filter (λ s, s ≠ sk) (listeners w) = listeners w.
Proof.
  unfold registered, eval, registrations, gets. cbn [fst].
  induction (listeners w) as [|s l IH]; [done|].
  destruct (decide (s = sk)) as [->|Hne].
  - by rewrite filter_cons_True.
  - rewrite (filter_cons_False (λ s, s = sk)) by done. intros Hl.
    rewrite filter_cons_True by done. f_equal. by apply IH.
Qed.

(** A world by its fields, and the status data by theirs. *)
Ltac fields w :=
  let d := fresh "d" in let ts := fresh "ts" in let rsd := fresh "rsd" in
  let s := fresh "s" in let h := fresh "h" in let p := fresh "p" in
  let vis := fresh "vis" in
  let g := fresh "g" in let rs := fresh "rs" in let c := fresh "c" in
  let ls := fresh "ls" in let tm := fresh "tm" in let tr := fresh "tr" in
  destruct w as [d ts rsd s h p vis g rs c ls tm tr];
  let sid := fresh "usid" in let st := fresh "st" in let err := fresh "err" in
  let cs := fresh "cs" in let os := fresh "os" in
  destruct rsd as [sid st err cs os].

(** The calls made since the start, read off a trace that was only
    appended to. *)
Ltac read_since :=
  erewrite since_app by (cbn [trace]; rewrite <- ?(assoc_L (++)); reflexivity).
Ltac since_trace :=
  first
    [ apply since_refl; reflexivity
    | apply since_app; cbn [trace]; rewrite <- ?(assoc_L (++)); reflexivity ].

(** The trace of a run has only grown. *)
Ltac extends_trace :=
  eexists; cbn [trace]; rewrite <- ?(assoc_L (++));
  first [reflexivity | symmetry; apply app_nil_r].

(** The calls of one kind among them. *)
Ltac by_kind f :=
  rewrite ?filter_app, ?(filter_notifications f) by done; reflexivity.
Ltac by_provisioning :=
  rewrite ?filter_app, ?statusNotifications_not_provisioning_current,
    ?statusNotifications_not_provisioning_earlier; reflexivity.
Ltac in_calls :=
  rewrite ?elem_of_app, ?elem_of_cons; auto 20 using list_elem_of_fmap_2.
Ltac last_call :=
  rewrite ?app_assoc, ?app_comm_cons; rewrite ?app_assoc; apply last_snoc.

(** ** The terminal registry *)

(** Truncation towards zero: the whole seconds from [now] back to [a] are at
    most three exactly when fewer than 4000 milliseconds have passed. *)
Lemma diff_second_threshold (a now : Dayjs) :
  Z.geb (diff_second a now) (- terminalLiveThreshold) = bool_decide (now - a < 4000).
Proof.
  unfold diff_second, terminalLiveThreshold.
  pose proof (Z.quot_rem' (a - now) 1000) as Hq.
  destruct (Z.le_gt_cases 0 (a - now)) as [Hpos|Hneg].
  - pose proof (Z.rem_bound_pos_pos (a - now) 1000 eq_refl Hpos).
    rewrite bool_decide_true by lia. apply Z.geb_le. lia.
  - pose proof (Z.rem_bound_pos_neg (a - now) 1000 eq_refl ltac:(lia)).
    case_bool_decide.
    + apply Z.geb_le. lia.
    + rewrite Z.geb_leb. apply Z.leb_gt. lia.
Qed.

Lemma find_terminal_None (terminalId : string) (ts : list TerminalInstance.t) :
  terminalId ∉ TerminalInstance.id <$> ts → find_terminal terminalId ts = None.
Proof.
  unfold find_terminal. induction ts as [|t ts IH]; [done|].
  rewrite fmap_cons, not_elem_of_cons. intros [Hne Hnot]. cbn.
  rewrite bool_decide_false by done. by apply IH.
Qed.

Lemma closed_early_found (terminalId : string) (now : Dayjs)
    (ts : list TerminalInstance.t) (t : TerminalInstance.t) :
  find_terminal terminalId ts = Some t →
  closed_early terminalId now ts = bool_decide (now - TerminalInstance.activateTime t < 4000).
Proof. unfold closed_early. intros ->. apply diff_second_threshold. Qed.

Lemma closed_early_missing (terminalId : string) (now : Dayjs) (ts : list TerminalInstance.t) :
  find_terminal terminalId ts = None → closed_early terminalId now ts = true.
Proof. unfold closed_early. by intros ->. Qed.

Lemma without_terminal_absent (terminalId : string) (ts : list TerminalInstance.t) :
  terminalId ∉ TerminalInstance.id <$> ts → without_terminal terminalId ts = ts.
Proof.
  induction ts as [|t ts IH]; [done|].
  rewrite fmap_cons, not_elem_of_cons. intros [Hne Hnot]. unfold without_terminal.
  rewrite filter_cons_True by done. f_equal. by apply IH.
Qed.

Lemma without_terminal_removed (terminalId : string) (ts : list TerminalInstance.t) :
  terminalId ∉ TerminalInstance.id <$> without_terminal terminalId ts.
Proof.
  unfold without_terminal. intros (t & Hid & Hin)%list_elem_of_fmap.
  apply list_elem_of_filter in Hin as [Hne _]. done.
Qed.

(** The listener removes every instance with the id and warns exactly when
    the test says so; nothing goes to the transport. *)
Lemma on_terminalClosed_with_spec (warning terminalId : string) (now : Dayjs) (w : World) :
  let w' := exec (on_terminalClosed_with warning terminalId now) w in
  _terminals w' = without_terminal terminalId (_terminals w) ∧
  filter (λ e, is_warning e = true) (since w w')
    = (if closed_early terminalId now (_terminals w) then [ShowWarningMessage warning] else []) ∧
  filter (λ e, is_transport_call e = true) (since w w') = [].
Proof.
  fields w. cbn.
  destruct (closed_early terminalId now ts); cbn.
  all: destruct (without_terminal terminalId ts) as [|t' ts'] eqn:E; cbn.
  all: destruct p, vis; cbn.
  all: split; [reflexivity|].
  all: erewrite since_app
         by (cbn [trace]; rewrite <- ?(assoc_L (++));
             first [reflexivity | symmetry; apply app_nil_r]).
  all: split; reflexivity.
Qed.

(** C9, as amended. A terminal-closed notification for an instance of the
    registry removes every instance with that id. The warning goes out
    exactly when fewer than 4000 milliseconds lie between the activation and
    now, that is when the whole seconds elapsed, truncated, are at most 3: so
    it goes out within 3 seconds, and no longer once 4 seconds have passed. *)
Theorem terminalClosed_known_id (w : World) (t : TerminalInstance.t) (terminalId : string)
    (now : Dayjs) :
  find_terminal terminalId (_terminals w) = Some t →
  let w' := exec (Current.on_terminalClosed terminalId now) w in
  let elapsed := now - TerminalInstance.activateTime t in
  let warnings := filter (λ e, is_warning e = true) (since w w') in
  (terminalId ∉ terminal_ids w') ∧
  _terminals w' = without_terminal terminalId (_terminals w) ∧
  warnings = (if bool_decide (elapsed < 4000)
              then [ShowWarningMessage Current.terminalClosedWarning] else []) ∧
  ((elapsed ≤ 3000)%Z → warnings = [ShowWarningMessage Current.terminalClosedWarning]) ∧
  ((4000 ≤ elapsed)%Z → warnings = []).
Proof.
  intros Hfind w' elapsed warnings.
  destruct (on_terminalClosed_with_spec Current.terminalClosedWarning terminalId now w)
    as (Hts & Hwarn & _).
  fold (Current.on_terminalClosed terminalId now) in Hts, Hwarn. fold w' in Hts, Hwarn.
  fold warnings in Hwarn. rewrite (closed_early_found _ _ _ _ Hfind) in Hwarn.
  fold elapsed in Hwarn. split.
  - unfold terminal_ids. rewrite Hts. apply without_terminal_removed.
  - split; [done|]. split; [done|]. rewrite Hwarn. split; intros Hel.
    + by rewrite bool_decide_true by lia.
    + by rewrite bool_decide_false by lia.
Qed.

Lemma terminalClosed_known_id_witness :
  find_terminal "T1" (_terminals one_terminal_current)
    = Some (activated "T1" (ShellPath "bash") 0) ∧
  filter (λ e, is_warning e = true)
    (since one_terminal_current
       (exec (Current.on_terminalClosed "T1" 9000) one_terminal_current)) = [].
Proof.
  split; [reflexivity|].
  apply (terminalClosed_known_id one_terminal_current
           (activated "T1" (ShellPath "bash") 0) "T1" 9000 eq_refl).
  vm_compute. discriminate.
Defined.

(** C9 as stated fails between 3 and 4 seconds: a terminal activated at time
    0 and closed 3500 milliseconds later, past the 3-second threshold, is
    removed and the warning still goes out. *)
Lemma terminalClosed_after_3500ms_warns :
  let w := one_terminal_current in
  let w' := exec (Current.on_terminalClosed "T1" 3500) w in
  (TerminalInstance.activateTime <$> _terminals w) = [0] ∧
  3000 < 3500 - 0 ∧
  terminal_ids w = ["T1"] ∧
  terminal_ids w' = [] ∧
  filter (λ e, is_warning e = true) (since w w')
    = [ShowWarningMessage Current.terminalClosedWarning].
Proof. repeat split; try reflexivity. Qed.

Lemma on_terminalClosed_with_extends (warning terminalId : string) (now : Dayjs) (w : World) :
  extends w (exec (on_terminalClosed_with warning terminalId now) w).
Proof.
  fields w. cbn. destruct (closed_early terminalId now ts); cbn.
  all: destruct (without_terminal terminalId ts) as [|t' ts']; cbn.
  all: destruct p, vis; cbn.
  all: extends_trace.
Qed.

(** One run of the listener for an id that the registry does not have. *)
Lemma terminalClosed_unknown_run (warning terminalId : string) (now : Dayjs) (w : World) :
  terminalId ∉ terminal_ids w →
  let w' := exec (on_terminalClosed_with warning terminalId now) w in
  _terminals w' = _terminals w ∧ extends w w' ∧
  filter (λ e, is_warning e = true) (since w w') = [ShowWarningMessage warning].
Proof.
  intros Hnot w'.
  destruct (on_terminalClosed_with_spec warning terminalId now w) as (Hts & Hw & _).
  fold w' in Hts, Hw.
  rewrite (closed_early_missing terminalId now _ (find_terminal_None _ _ Hnot)) in Hw.
  rewrite (without_terminal_absent _ _ Hnot) in Hts.
  split; [exact Hts|]. split; [apply on_terminalClosed_with_extends|exact Hw].
Qed.

(** C10, as amended. One run of the terminal-closed listener for an id that
    is not in the registry leaves the registry as it is and shows the
    warning: the activation time that is not found counts as 0, which passes
    the test against the threshold whatever the time is. In the revision
    with [disconnectRunner] the listener is on every socket once, so the
    notification shows the warning once. In the earlier revision the
    listener is registered by every accepted session start, so the
    notification leaves the registry as it is and shows the warning once for
    each registration on the socket it comes over. *)
Theorem terminalClosed_unknown_id (w : World) (sk : Socket) (terminalId : string)
    (now : Dayjs) (nows : nat → Dayjs) :
  terminalId ∉ terminal_ids w →
  let wc := exec (Current.on_terminalClosed terminalId now) w in
  let we := exec (Earlier.deliver_terminalClosed sk terminalId nows) w in
  let warnings w' := filter (λ e, is_warning e = true) (since w w') in
  find_terminal terminalId (_terminals w) = None ∧
  closed_early terminalId now (_terminals w) = true ∧
  _terminals wc = _terminals w ∧
  warnings wc = [ShowWarningMessage Current.terminalClosedWarning] ∧
  _terminals we = _terminals w ∧
  warnings we = replicate (registered w sk) (ShowWarningMessage Earlier.terminalClosedWarning).
Proof.
  intros Hnot wc we warnings.
  pose proof (find_terminal_None _ _ Hnot) as Hfind.
  split; [exact Hfind|]. split; [by apply closed_early_missing|].
  destruct (terminalClosed_unknown_run Current.terminalClosedWarning terminalId now w Hnot)
    as (Htc & _ & Hwc).
  split; [exact Htc|]. split; [exact Hwc|].
  subst we warnings. cbv beta. unfold Earlier.deliver_terminalClosed. rewrite exec_deliver.
  destruct (in_turn_calls (λ w', _terminals w' = _terminals w) is_warning
              [ShowWarningMessage Earlier.terminalClosedWarning]
              ((λ i, Earlier.on_terminalClosed terminalId (nows i)) <$> seq 0 (registered w sk))
              w) as (Hte & _ & Hwe); [|reflexivity|].
  - apply Forall_fmap, Forall_forall. intros i _ w' Hw'. cbn beta.
    assert (Hnot' : terminalId ∉ terminal_ids w') by (unfold terminal_ids; by rewrite Hw').
    destruct (terminalClosed_unknown_run Earlier.terminalClosedWarning terminalId (nows i) w'
                Hnot') as (H1 & H2 & H3).
    split; [by rewrite <- Hw'|]. by split.
  - split; [exact Hte|].
    by rewrite Hwe, length_fmap, length_seq, mjoin_replicate_singleton.
Qed.

Lemma terminalClosed_unknown_id_witness :
  terminal_ids one_terminal_current = ["T1"] ∧
  _terminals (exec (Current.on_terminalClosed "T9" 60000) one_terminal_current)
    = _terminals one_terminal_current ∧
  filter (λ e, is_warning e = true)
    (since one_terminal_current
       (exec (Current.on_terminalClosed "T9" 60000) one_terminal_current))
    = [ShowWarningMessage Current.terminalClosedWarning].
Proof.
  split; [reflexivity|].
  assert (Hnot : "T9" ∉ terminal_ids one_terminal_current)
    by (vm_compute; intros [[=]|[]%elem_of_nil]%elem_of_cons).
  destruct (terminalClosed_unknown_id one_terminal_current 1%nat "T9" 60000 (λ _, 60000) Hnot)
    as (_ & _ & Hts & Hw & _).
  by split.
Defined.

(** C10 as stated fails on the earlier revision before a session has
    started: the listener is registered by the session-started listener, so
    until then a terminal-closed notification for an unknown id is dropped,
    and no warning is shown. *)
Lemma terminalClosed_unknown_dropped_earlier :
  let w := resuming_earlier in
  let w' := exec (Earlier.deliver_terminalClosed 1%nat "T9" (λ _, 60000)) w in
  connected w = [1%nat] ∧ terminal_ids w = [] ∧ registered w 1%nat = 0%nat ∧
  w' = w ∧
  filter (λ e, is_warning e = true) (since w w') = [].
Proof. vm_compute. repeat split. Qed.

(** After the transport of a started session has dropped and come back and
    the session was started again, the listener is registered twice: one
    notification shows the warning twice. *)
Lemma terminalClosed_unknown_twice_earlier :
  let w := restarted_earlier in
  let w' := exec (Earlier.deliver_terminalClosed 1%nat "T9" (λ _, 60000)) w in
  connected w = [1%nat] ∧ terminal_ids w = [] ∧ registered w 1%nat = 2%nat ∧
  filter (λ e, is_warning e = true) (since w w')
  = [ShowWarningMessage Earlier.terminalClosedWarning;
     ShowWarningMessage Earlier.terminalClosedWarning].
Proof. vm_compute. repeat split. Qed.

(** *** Activation *)

Lemma NoDup_snoc_id (ts : list TerminalInstance.t) (t : TerminalInstance.t) :
  NoDup (TerminalInstance.id <$> ts) → TerminalInstance.id t ∉ TerminalInstance.id <$> ts →
  NoDup (TerminalInstance.id <$> (ts ++ [t])).
Proof.
  intros Hnd Hnew. rewrite fmap_app. apply NoDup_app. split; [done|]. split.
  - intros x Hx [->|[]%elem_of_nil]%elem_of_cons. done.
  - apply NoDup_singleton.
Qed.

Lemma activation_intro w sk newId now r shell :
  r.1 = true →
  _terminals r.2 = _terminals w ++ [activated newId shell now] →
  filter (λ e, is_transport_call e = true) (since w r.2)
    = [Emit sk (ActivateTerminal (activated newId shell now))] →
  activation w sk newId now r.
Proof.
  intros H1 H2 H3. exists shell. repeat split; try done.
  intros Hnd Hnew. unfold terminal_ids. rewrite H2. by apply NoDup_snoc_id.
Qed.

(** The activation is not skipped: either nothing asks to, or the registry
    is empty. *)
Lemma not_skipped (skp : bool) (ts : list TerminalInstance.t) :
  skp && negb (Nat.eqb (length ts) 0) = false → skp = false ∨ ts = [].
Proof. destruct skp, ts; cbn; intros; try discriminate; auto. Qed.

Lemma activateTerminal_offline w file file' skp newId now :
  peer w = RunnerClientStatus.Offline →
  Current.activateTerminal file skp newId now w = (false, w) ∧
  Earlier.activateTerminal file' skp newId now w = (false, w).
Proof. fields w. cbn. intros ->. split; reflexivity. Qed.

Lemma activateTerminal_skipped w file file' newId now :
  peer w = RunnerClientStatus.Online → _terminals w ≠ [] →
  Current.activateTerminal file true newId now w = (true, w) ∧
  Earlier.activateTerminal file' true newId now w = (true, w).
Proof. fields w. cbn. intros -> H. destruct ts; [done|]. split; reflexivity. Qed.

Lemma activateTerminal_appends_current w sk file skp newId now :
  peer w = RunnerClientStatus.Online → socket w = Some sk →
  skp && negb (Nat.eqb (length (_terminals w)) 0) = false →
  activation w sk newId now (Current.activateTerminal file skp newId now w).
Proof.
  fields w. cbn [peer socket _terminals _runnerStatusData RunnerStatusData.runnerClientStatus].
  intros -> -> H.
  apply not_skipped in H as [-> | ->]; [destruct ts|destruct skp]; destruct p, vis, d.
  all: eapply activation_intro; cbn; [reflexivity | reflexivity |].
  all: read_since.
  all: reflexivity.
Qed.

Lemma activateTerminal_appends_earlier w sk file skp newId now :
  peer w = RunnerClientStatus.Online → socket w = Some sk →
  skp && negb (Nat.eqb (length (_terminals w)) 0) = false →
  activation w sk newId now (Earlier.activateTerminal file skp newId now w).
Proof.
  fields w. cbn [peer socket _terminals _runnerStatusData RunnerStatusData.runnerClientStatus].
  intros -> -> H.
  apply not_skipped in H as [-> | ->]; [destruct ts|destruct skp]; destruct p, vis.
  all: eapply activation_intro; cbn; [reflexivity | reflexivity |].
  all: read_since.
  all: reflexivity.
Qed.

(** C5. With the peer offline, [activateTerminal] answers [false] and leaves
    the world as it is, trace included. With the peer online, asked to skip
    and a registry that is not empty, it answers [true] and leaves the world
    as it is. Otherwise, on a session that has its transport, it answers
    [true], the registry is the old one followed by one instance whose id is
    the one [nanoid] gave, and exactly one call goes to the transport: the
    activate-terminal message carrying that instance. Both revisions. *)
Theorem activateTerminal_cases (w : World) (sk : Socket) (file : option string)
    (file' : string) (ignoreIfExists : bool) (newId : string) (now : Dayjs) :
  socket w = Some sk →
  let rc := Current.activateTerminal file ignoreIfExists newId now w in
  let re := Earlier.activateTerminal file' ignoreIfExists newId now w in
  match peer w with
  | RunnerClientStatus.Offline => rc = (false, w) ∧ re = (false, w)
  | RunnerClientStatus.Online =>
      if ignoreIfExists && negb (Nat.eqb (length (_terminals w)) 0)
      then rc = (true, w) ∧ re = (true, w)
      else activation w sk newId now rc ∧ activation w sk newId now re
  end.
Proof.
  intros Hs rc re. subst rc re. destruct (peer w) eqn:Hp.
  - by apply activateTerminal_offline.
  - destruct (ignoreIfExists && _) eqn:E.
    + apply andb_true_iff in E as [-> E]. apply activateTerminal_skipped; [done|].
      intros Hnil. by rewrite Hnil in E.
    + split; [by eapply activateTerminal_appends_current
             | by eapply activateTerminal_appends_earlier].
Qed.

Lemma activateTerminal_cases_witness :
  socket online_current = Some 1%nat ∧
  activation online_current 1%nat "T1" 0
    (Current.activateTerminal (Some "bash") false "T1" 0 online_current) ∧
  activation online_current 1%nat "T1" 0
    (Earlier.activateTerminal "bash" false "T1" 0 online_current).
Proof.
  split; [reflexivity|].
  exact (activateTerminal_cases online_current 1%nat (Some "bash") "bash" false "T1" 0
           eq_refl).
Defined.
(** ** Teardown *)

(** [disconnectRunner] whatever the world: the session data, the registry
    and the socket are dropped, a connected socket is disconnected, the
    recorded workflow-dispatch timeout is cancelled and no other timer is,
    the status data is reset with the error, the persisted sessions are not
    touched, the status is delivered and [_onDisconnected] is called last. *)
Lemma disconnectRunner_spec (w : World) (e : option RunnerError.t) :
  let w' := exec (Current.disconnectRunner e) w in
  _data w' = None ∧
  _terminals w' = [] ∧
  socket w' = None ∧
  _runnerStatusData w' = reset_statusData RunnerStatus.Initial e ∧
  globalState w' = globalState w ∧
  timers w' =
    match _workflowDispatchTimeout w with
    | Some h => filter (λ t, t ≠ WorkflowDispatchTimeout h) (timers w)
    | None => timers w
    end ∧
  (∀ sk, socket w = Some sk → sk ∉ connected w') ∧
  filter (λ e, is_transport_call e = true) (since w w') =
    match socket w with
    | Some sk => [SocketOffAny sk; SocketDisconnect sk]
    | None => []
    end ∧
  (∀ p, p ∈ Current.statusNotifications (reset_statusData RunnerStatus.Initial e) None →
        OnUpdate p ∈ since w w') ∧
  last (since w w') = Some OnDisconnected.
Proof.
  fields w. cbn.
  destruct h as [h|], s as [sk|], p; cbn.
  all: try (destruct (bool_decide (sk ∈ c)) eqn:Hc; cbn).
  all: repeat (split; [reflexivity|]).
  all: split;
    [ first [ intros ? [= <-];
              first [ apply bool_decide_eq_false_1 in Hc; exact Hc
                    | apply not_elem_of_filter_ne ]
            | done ] |].
  all: read_since.
  all: split; [by_kind is_transport_call|].
  all: split; [intros q Hq; in_calls | last_call].
Qed.

Lemma mismatch_notifications (sid : option string) :
  Current.statusNotifications
    (reset_statusData RunnerStatus.Initial (Some RunnerError.SessionIdDoesNotMatch)) sid
  = let d := reset_statusData RunnerStatus.Initial (Some RunnerError.SessionIdDoesNotMatch) in
    [payload d message None;
     payload d error (Some (runnerErrorMesage RunnerError.SessionIdDoesNotMatch));
     payload d error (Some (Text
       "The registered session ID for this client doesn't match. Please check your input."))].
Proof. reflexivity. Qed.

Lemma terminated_notifications (sid : option string) :
  Current.statusNotifications
    (reset_statusData RunnerStatus.Initial (Some RunnerError.SessionTerminated)) sid
  = let d := reset_statusData RunnerStatus.Initial (Some RunnerError.SessionTerminated) in
    [payload d message None;
     payload d error (Some (runnerErrorMesage RunnerError.SessionTerminated));
     payload d error (Some (Text
       "The session is not available in the runner or it has been terminated, please ensure you chose the correct runner server or create a new session if needed."))].
Proof. reflexivity. Qed.


(** The session-started listener of the earlier revision skips an id that
    differs from the one held. *)
Lemma sessionStarted_mismatch_earlier (w : World) (sk : Socket) (req : SessionData.t)
    (sid : string) :
  truthy (held_sessionId w) = true → held_sessionId w ≠ Some sid →
  Earlier.on_sessionStarted sk req sid w = (tt, w).
Proof.
  fields w. unfold held_sessionId. cbn. intros Hheld Hne.
  rewrite Hheld, bool_decide_true by done. reflexivity.
Qed.

Lemma sessionStarted_mismatch_current (w : World) (req : SessionData.t) (sid : string) :
  truthy (held_sessionId w) = true → held_sessionId w ≠ Some sid →
  Current.on_sessionStarted req sid w
  = Current.disconnectRunner (Some RunnerError.SessionIdDoesNotMatch) w.
Proof.
  unfold held_sessionId, Current.on_sessionStarted, eval, bind, sessionId, gets.
  cbn. intros Hheld Hne. rewrite Hheld, bool_decide_true by done. reflexivity.
Qed.

Lemma disconnectRunner_extends (e : option RunnerError.t) (w : World) :
  extends w (exec (Current.disconnectRunner e) w).
Proof.
  fields w. cbn. destruct h as [h|], s as [sk|], p; cbn.
  all: try (destruct (bool_decide (sk ∈ c)); cbn).
  all: extends_trace.
Qed.

(** The once-listener on an object that has no session data, as
    [disconnectRunner] leaves it: no id is held, so the id received is
    accepted. It goes to the status data and to the persisted sessions; the
    object stays without session data, and no runner client is launched. *)
Lemma sessionStarted_without_data (w : World) (req : SessionData.t) (sid : string) :
  _data w = None →
  let w' := exec (Current.on_sessionStarted req sid) w in
  _data w' = None ∧ socket w' = socket w ∧ connected w' = connected w ∧
  _terminals w' = _terminals w ∧
  status w' = RunnerStatus.SessionStarted ∧
  RunnerStatusData.sessionId (_runnerStatusData w') = Some sid ∧
  last_error w' = last_error w ∧ peer w' = peer w ∧
  globalState w' =
    <[SessionData.githubRef req := SessionData.with_sessionId req (Some sid)]> (globalState w) ∧
  extends w w'.
Proof.
  unfold status, last_error, peer. fields w. cbn. intros ->. unfold truthy, isGitHubActions. cbn.
  destruct (String.eqb sid ""); cbn.
  all: repeat (split; [reflexivity|]).
  all: extends_trace.
Qed.

Lemma sessionStarted_runs_without_data (req : SessionData.t) (sid : string) (n : nat)
    (w : World) :
  _data w = None →
  let w' := exec (in_turn (replicate (S n) (Current.on_sessionStarted req sid))) w in
  _data w' = None ∧ socket w' = socket w ∧ connected w' = connected w ∧
  _terminals w' = _terminals w ∧
  status w' = RunnerStatus.SessionStarted ∧
  RunnerStatusData.sessionId (_runnerStatusData w') = Some sid ∧
  last_error w' = last_error w ∧ peer w' = peer w ∧
  globalState w' !! SessionData.githubRef req = Some (SessionData.with_sessionId req (Some sid)) ∧
  extends w w'.
Proof.
  revert w. induction n as [|n IH]; intros w Hd; cbn [replicate]; rewrite exec_in_turn_cons;
    destruct (sessionStarted_without_data w req sid Hd)
      as (H1 & H2 & H3 & H4 & H5 & H6 & H7 & H8 & H9 & H10).
  - cbn [replicate]. rewrite exec_in_turn_nil. cbv zeta.
    repeat (split; [done|]). split; [|done]. rewrite H9. apply lookup_insert_eq.
  - destruct (IH _ H1) as (I1 & I2 & I3 & I4 & I5 & I6 & I7 & I8 & I9 & I10).
    cbn [replicate] in *. cbv zeta in *.
    split; [exact I1|]. split; [congruence|]. split; [congruence|]. split; [congruence|].
    split; [exact I5|]. split; [exact I6|]. split; [congruence|]. split; [congruence|].
    split; [exact I9|]. exact (extends_trans _ _ _ H10 I10).
Qed.

(** C1, as amended. While a non-empty session id is held, a session-started
    event with another id never makes that id the id held, in either
    revision. The revision with [RunnerError] runs the once-listeners that
    the connect events of the socket have registered since its last
    session-started event:
    - without one (a session has started on this connection) the event is
      dropped and the world stays as it is;
    - with one it takes the mismatch path: the error is
      [SessionIdDoesNotMatch], the socket is disconnected and dropped, the
      registry and the session data are cleared, the peer is offline, the
      error is notified, [_onDisconnected] is called, and the id received is
      recorded nowhere;
    - with two or more (the transport has dropped and come back) the first
      one takes the mismatch path and the others, which find no id held any
      more, accept the event: the object has no socket, no session data and
      no terminal, and yet the status is SessionStarted with the id received
      in the status data, and the request is persisted with the id received.
    The earlier revision skips the event and leaves the world as it is. *)
Theorem sessionStarted_mismatch (w : World) (sk : Socket) (req : SessionData.t)
    (sid : string) :
  truthy (held_sessionId w) = true →
  held_sessionId w ≠ Some sid →
  let wc := exec (Current.deliver_sessionStarted sk req sid) w in
  let we := exec (Earlier.on_sessionStarted sk req sid) w in
  let mismatch_text := Text
    "The registered session ID for this client doesn't match. Please check your input." in
  held_sessionId wc ≠ Some sid ∧
  match registered w sk with
  | 0%nat => wc = w
  | 1%nat =>
      last_error wc = Some RunnerError.SessionIdDoesNotMatch ∧
      status wc = RunnerStatus.Initial ∧
      peer wc = RunnerClientStatus.Offline ∧
      socket wc = None ∧
      (∀ s, socket w = Some s → SocketDisconnect s ∈ since w wc ∧ s ∉ connected wc) ∧
      _terminals wc = [] ∧
      OnUpdate (payload (_runnerStatusData wc) error (Some mismatch_text)) ∈ since w wc ∧
      last (since w wc) = Some OnDisconnected ∧
      held_sessionId wc = None ∧
      RunnerStatusData.sessionId (_runnerStatusData wc) = None ∧
      globalState wc = globalState w
  | S (S _) =>
      last_error wc = Some RunnerError.SessionIdDoesNotMatch ∧
      status wc = RunnerStatus.SessionStarted ∧
      peer wc = RunnerClientStatus.Offline ∧
      socket wc = None ∧
      (∀ s, socket w = Some s → SocketDisconnect s ∈ since w wc ∧ s ∉ connected wc) ∧
      _terminals wc = [] ∧
      OnUpdate (payload
                  (reset_statusData RunnerStatus.Initial (Some RunnerError.SessionIdDoesNotMatch))
                  error (Some mismatch_text)) ∈ since w wc ∧
      OnDisconnected ∈ since w wc ∧
      held_sessionId wc = None ∧
      RunnerStatusData.sessionId (_runnerStatusData wc) = Some sid ∧
      globalState wc !! SessionData.githubRef req
        = Some (SessionData.with_sessionId req (Some sid))
  end ∧
  we = w.
Proof.
  intros Hheld Hne wc we mismatch_text.
  assert (Hwe : we = w).
  { subst we. unfold exec. by rewrite (sessionStarted_mismatch_earlier _ _ _ _ Hheld Hne). }
  set (w0 := set_listeners (filter (λ s, s ≠ sk) (listeners w)) w).
  set (w1 := exec (Current.disconnectRunner (Some RunnerError.SessionIdDoesNotMatch)) w0).
  assert (Hrun : exec (Current.on_sessionStarted req sid) w0 = w1).
  { unfold exec. by rewrite (sessionStarted_mismatch_current w0 req sid Hheld Hne). }
  destruct (disconnectRunner_spec w0 (Some RunnerError.SessionIdDoesNotMatch))
    as (Hd & Hts & Hs & Hrsd & Hg & _ & Hconn & Hcalls & Hnote & Hlast).
  fold w1 in Hd, Hts, Hs, Hrsd, Hg, Hconn, Hcalls, Hnote, Hlast.
  change (since w0 w1) with (since w w1) in Hcalls, Hnote, Hlast.
  change (socket w0) with (socket w) in Hcalls, Hconn.
  change (globalState w0) with (globalState w) in Hg.
  assert (Hdisc : ∀ s, socket w = Some s → SocketDisconnect s ∈ since w w1).
  { intros s Hsock. rewrite Hsock in Hcalls. eapply elem_of_filtered. rewrite Hcalls. in_calls. }
  assert (Hmsg : OnUpdate (payload (_runnerStatusData w1) error (Some mismatch_text))
                   ∈ since w w1).
  { apply Hnote. rewrite Hrsd, mismatch_notifications. in_calls. }
  subst wc. rewrite exec_deliver_sessionStarted. fold w0.
  destruct (registered w sk) as [|[|n]] eqn:Hn.
  - assert (E : w0 = w).
    { subst w0. rewrite (unregistered w sk Hn). by destruct w. }
    cbn [replicate]. rewrite exec_in_turn_nil, E. done.
  - cbn [replicate]. rewrite exec_in_turn_cons, Hrun, exec_in_turn_nil.
    unfold last_error, status, peer, held_sessionId, eval, sessionId, gets. cbn [fst].
    rewrite Hrsd, Hd, Hs, Hts, Hg. rewrite Hrsd in Hmsg.
    split; [done|]. split; [|done]. repeat (split; [done|]).
    split; [intros s Hsock; split; [by apply Hdisc|by apply Hconn]|]. done.
  - cbn [replicate]. rewrite exec_in_turn_cons, Hrun.
    destruct (sessionStarted_runs_without_data req sid n w1 Hd)
      as (I1 & I2 & I3 & I4 & I5 & I6 & I7 & I8 & I9 & I10).
    cbn [replicate] in *.
    set (wn := exec (in_turn (Current.on_sessionStarted req sid
                                :: replicate n (Current.on_sessionStarted req sid))) w1) in *.
    assert (Hsplit : since w wn = since w w1 ++ since w1 wn).
    { apply since_extends; [|done]. apply (disconnectRunner_extends _ w0). }
    unfold last_error, status, peer in I5, I7, I8.
    unfold last_error, status, peer, held_sessionId, eval, sessionId, gets. cbn [fst].
    rewrite I1, I2, I4, I5, I6, I7, I8, I9, Hrsd, Hs, Hts. rewrite Hrsd in Hmsg.
    split; [done|]. split; [|done]. repeat (split; [done|]).
    split.
    { intros s Hsock. rewrite I3, Hsplit, elem_of_app. split; [left; by apply Hdisc|by apply Hconn]. }
    split; [done|]. split; [rewrite Hsplit, elem_of_app; by left|].
    split; [|done]. rewrite Hsplit, elem_of_app. left.
    apply last_Some_elem_of. exact Hlast.
Qed.

Lemma sessionStarted_mismatch_witness :
  held_sessionId resuming_current = Some "abc" ∧
  registered resuming_current 1%nat = 1%nat ∧
  last_error (exec (Current.deliver_sessionStarted 1%nat (session_request (Some "abc")) "xyz")
                resuming_current)
    = Some RunnerError.SessionIdDoesNotMatch.
Proof.
  split; [reflexivity|]. split; [reflexivity|].
  assert (Hne : held_sessionId resuming_current ≠ Some "xyz") by discriminate.
  destruct (sessionStarted_mismatch resuming_current 1%nat (session_request (Some "abc")) "xyz"
              eq_refl Hne) as (_ & H & _).
  exact (proj1 H).
Defined.

(** C1 as stated fails on the earlier revision: holding [abc] and receiving
    [xyz], it neither reports an error nor disconnects; the world stays as
    it was, connected and waiting. *)
Lemma sessionStarted_mismatch_skipped_earlier :
  let w := resuming_earlier in
  let w' := exec (Earlier.on_sessionStarted 1%nat (session_request (Some "abc")) "xyz") w in
  held_sessionId w = Some "abc" ∧
  w' = w ∧
  socket w' = Some 1%nat ∧
  connected w' = [1%nat] ∧
  status w' = RunnerStatus.Connected ∧
  last_error w' = None ∧
  since w w' = [].
Proof. vm_compute. repeat split. Qed.

(** It fails on the revision with [RunnerError] as well. Once the session
    [abc] has started, the once-listener is used up: a session-started event
    with [xyz] on the same connection is dropped, with no error and no
    disconnect. *)
Lemma sessionStarted_mismatch_dropped_current :
  let w := resumed_current in
  let w' := exec (Current.deliver_sessionStarted 1%nat (session_request (Some "abc")) "xyz") w in
  held_sessionId w = Some "abc" ∧ connected w = [1%nat] ∧
  status w = RunnerStatus.SessionStarted ∧ registered w 1%nat = 0%nat ∧
  w' = w.
Proof. vm_compute. repeat split. Qed.

(** And when the transport has dropped and come back before the runner
    answers, two once-listeners wait on the socket. Holding [abc] and
    receiving [xyz], the first one tears the session down, and the second
    one then records [xyz]: in the status data, with the status
    SessionStarted, and in the persisted session of the ref. *)
Lemma sessionStarted_mismatch_after_reconnect :
  let w := reconnected_current (Some "abc") in
  let w' := exec (Current.deliver_sessionStarted 1%nat (session_request (Some "abc")) "xyz") w in
  held_sessionId w = Some "abc" ∧ connected w = [1%nat] ∧ registered w 1%nat = 2%nat ∧
  socket w' = None ∧ _data w' = None ∧ connected w' = [] ∧
  status w' = RunnerStatus.SessionStarted ∧
  last_error w' = Some RunnerError.SessionIdDoesNotMatch ∧
  RunnerStatusData.sessionId (_runnerStatusData w') = Some "xyz" ∧
  (SessionData.sessionId <$> globalState w' !! main_ref) = Some (Some "xyz").
Proof. vm_compute. repeat split. Qed.

(** C4, as amended. A session-terminated event, in SessionStarted as in any
    other state, empties the registry, cancels the workflow-dispatch timeout
    that is recorded, disconnects and drops the socket, clears the session
    data and with it the held session id, and leaves the Terminated state
    (the initial status with the session-terminated error, peer offline),
    which is notified before [_onDisconnected] is called. The persisted
    session record is left as it is, and so is every other timer. *)
Theorem sessionTerminated_teardown (w : World) :
  let w' := exec Current.on_sessionTerminated w in
  _terminals w' = [] ∧
  timers w' =
    match _workflowDispatchTimeout w with
    | Some h => filter (λ t, t ≠ WorkflowDispatchTimeout h) (timers w)
    | None => timers w
    end ∧
  (∀ h, _workflowDispatchTimeout w = Some h → WorkflowDispatchTimeout h ∉ timers w') ∧
  socket w' = None ∧
  (∀ sk, socket w = Some sk → SocketDisconnect sk ∈ since w w' ∧ sk ∉ connected w') ∧
  _data w' = None ∧
  held_sessionId w' = None ∧
  RunnerStatusData.sessionId (_runnerStatusData w') = None ∧
  terminated w' ∧
  peer w' = RunnerClientStatus.Offline ∧
  OnUpdate (payload (_runnerStatusData w') error
              (Some (runnerErrorMesage RunnerError.SessionTerminated))) ∈ since w w' ∧
  last (since w w') = Some OnDisconnected ∧
  globalState w' = globalState w.
Proof.
  intros w'. subst w'. unfold Current.on_sessionTerminated.
  destruct (disconnectRunner_spec w (Some RunnerError.SessionTerminated))
    as (Hd & Hts & Hs & Hrsd & Hg & Htm & Hconn & Hcalls & Hnote & Hlast).
  unfold terminated, last_error, status, peer, held_sessionId, eval, sessionId, gets.
  cbn [fst]. unfold exec in *. rewrite Hrsd, Hd, Hs, Hts, Hg.
  split; [done|]. split; [done|]. split.
  { intros h Hh. rewrite Htm, Hh. apply not_elem_of_filter_ne. }
  split; [done|]. split.
  { intros sk Hsock. split; [|by apply Hconn].
    rewrite Hsock in Hcalls. eapply elem_of_filtered. rewrite Hcalls. in_calls. }
  repeat (split; [done|]). split; [|done].
  apply Hnote. rewrite terminated_notifications. in_calls.
Qed.

(** C4 as stated fails on two counts. After two attempts in a row, of which
    the second one connected and had its session [abc] started, a
    session-terminated event leaves the persisted record of [abc] in place,
    and leaves the connection timeout of the first attempt armed. *)
Lemma sessionTerminated_keeps_persisted_session :
  let w := second_started_current in
  let w' := exec Current.on_sessionTerminated w in
  status w = RunnerStatus.SessionStarted ∧
  (SessionData.sessionId <$> globalState w' !! main_ref) = Some (Some "abc") ∧
  timers w' = [ConnectTimeout 1%nat].
Proof. vm_compute. repeat split. Qed.

(** ** The transport drops *)

Lemma on_disconnect_current (w : World) (sk : Socket) :
  let w' := exec (Current.on_disconnect sk) w in
  _runnerStatusData w' = reset_statusData RunnerStatus.Disconnected None ∧
  _terminals w' = _terminals w ∧
  _data w' = _data w ∧
  socket w' = socket w ∧
  sk ∉ connected w'.
Proof.
  fields w. cbn. repeat (split; [reflexivity|]). apply not_elem_of_filter_ne.
Qed.

Lemma on_disconnect_earlier (w : World) (sk : Socket) :
  let w' := exec (Earlier.on_disconnect sk) w in
  _terminals w' = [] ∧
  _runnerStatusData w' =
    (if RunnerStatus.includes [RunnerStatus.Connected; RunnerStatus.SessionStarted] (status w)
     then reset_statusData RunnerStatus.Disconnected (last_error w)
     else _runnerStatusData w) ∧
  (ConnectTimeout sk ∉ timers w') ∧
  sk ∉ connected w'.
Proof.
  fields w. cbn. destruct p, st; cbn.
  all: repeat (split; [reflexivity|]).
  all: (split; apply not_elem_of_filter_ne).
Qed.

(** C2, as amended. After a transport-level disconnect event, whatever the
    registry held: the revision with [disconnectRunner] has the peer offline
    and the status Disconnected, and keeps the registry as it was; the
    earlier revision has the registry empty, and has the peer offline and
    the status Disconnected when the status was Connected or SessionStarted,
    and both unchanged otherwise. *)
Theorem transport_disconnect (w : World) (sk : Socket) :
  let wc := exec (Current.on_disconnect sk) w in
  let we := exec (Earlier.on_disconnect sk) w in
  let handshaken :=
    RunnerStatus.includes [RunnerStatus.Connected; RunnerStatus.SessionStarted] (status w) in
  (peer wc = RunnerClientStatus.Offline ∧
   status wc = RunnerStatus.Disconnected ∧
   _terminals wc = _terminals w) ∧
  (_terminals we = [] ∧
   peer we = (if handshaken then RunnerClientStatus.Offline else peer w) ∧
   status we = (if handshaken then RunnerStatus.Disconnected else status w)).
Proof.
  intros wc we handshaken.
  destruct (on_disconnect_current w sk) as (Hc & Hts & _).
  destruct (on_disconnect_earlier w sk) as (Hte & He & _).
  fold wc in Hc, Hts. fold we in Hte, He.
  split.
  - unfold peer, status. rewrite Hc. done.
  - split; [done|]. subst handshaken. unfold peer, status. rewrite He.
    by destruct (RunnerStatus.includes _ _).
Qed.

(** C2 as stated fails in both revisions. In the one with
    [disconnectRunner], a terminal activated while online is still in the
    registry after the transport disconnects. In the earlier one, once a
    connect request was declined by the user while online (status
    Disconnected, socket still up), the peer is still online after the
    transport disconnects. *)
Lemma transport_disconnect_keeps_registry_or_peer :
  let wc := exec (Current.on_disconnect 1%nat) one_terminal_current in
  let we := exec (Earlier.on_disconnect 1%nat) declined_earlier in
  terminal_ids one_terminal_current = ["T1"] ∧
  terminal_ids wc = ["T1"] ∧
  status declined_earlier = RunnerStatus.Disconnected ∧
  peer declined_earlier = RunnerClientStatus.Online ∧
  connected declined_earlier = [1%nat] ∧
  peer we = RunnerClientStatus.Online.
Proof. vm_compute. repeat split. Qed.

(** ** An accepted session *)

Lemma launch_data_sessionId d x : launch_data d = Some x → SessionData.sessionId d = Some x.2.
Proof.
  unfold launch_data. destruct (SessionData.githubRef d), (SessionData.os d),
    (SessionData.sessionId d); try done.
  case_match; [|done]. by intros [= <-].
Qed.

Lemma launch_data_complete (d : SessionData.t) :
  launch_data d =
    if complete d
    then Some (default "" (SessionData.githubRef d), default "" (SessionData.os d),
               SessionData.serverAddress d, default "" (SessionData.sessionId d))
    else None.
Proof.
  unfold launch_data, complete, truthy.
  destruct (SessionData.githubRef d), (SessionData.os d) as [os|],
    (SessionData.sessionId d) as [sid|]; cbn; try done.
  all: try (by destruct (String.eqb os ""), (String.eqb (SessionData.serverAddress d) ""),
              (String.eqb sid "")).
  all: by rewrite ?andb_false_r.
Qed.

Lemma accepted_no_mismatch (w : World) (sid : string) :
  truthy (held_sessionId w) = false ∨ held_sessionId w = Some sid → mismatch w sid = false.
Proof.
  unfold mismatch. intros [-> | ->]; [done|].
  rewrite bool_decide_false by (by intros []). apply andb_false_r.
Qed.

(** What a run of the once-listener that accepts the event leaves: the
    socket is kept, and the session data, when there is one, takes the id
    received; an empty id drops it. *)
Lemma sessionStarted_accepted_current (w : World) (req : SessionData.t) (sid : string) :
  mismatch w sid = false →
  let w' := exec (Current.on_sessionStarted req sid) w in
  extends w w' ∧ socket w' = socket w ∧
  _data w' = (if truthy (Some sid)
              then (λ d, SessionData.with_sessionId d (Some sid)) <$> _data w else None).
Proof.
  unfold mismatch, held_sessionId. fields w. cbn. intros Hm. rewrite Hm. cbn.
  destruct (truthy (d ≫= SessionData.sessionId)) eqn:Hheld; cbn.
  - destruct (truthy (Some sid)); cbn; [destruct d; cbn|]; destruct s; cbn.
    all: (split; [extends_trace|]); split; reflexivity.
  - destruct (truthy (Some sid)); cbn; [destruct d as [d0|]; cbn|].
    all: destruct (isGitHubActions _ _); cbn.
    all: try (destruct (launch_data _); cbn; [destruct h; cbn|]).
    all: (split; [extends_trace|]); split; reflexivity.
Qed.

Lemma sessionStarted_new_current (w : World) (req : SessionData.t) (sid : string) :
  truthy (held_sessionId w) = false →
  let w' := exec (Current.on_sessionStarted req sid) w in
  filter (λ e, is_refresh e = true) (since w w') = [] ∧
  (launchable w sid = true →
   filter (λ e, is_provisioning e = true) (since w w') = [SetupRunnerClientRepo]).
Proof.
  fields w. unfold held_sessionId, launchable. cbn. intros Hnew.
  destruct d as [d0|]; cbn in Hnew; destruct (truthy (Some sid)) eqn:Hsid.
  all: repeat (progress (cbn; rewrite ?Hnew, ?Hsid)).
  all: rewrite ?andb_false_r.
  all: try destruct (isGitHubActions rs _); cbn.
  all: try destruct (launch_data _) as [[[[? ?] ?] ?]|]; cbn.
  all: try destruct h; cbn.
  all: read_since.
  all: (split; [by_kind is_refresh|]).
  all: try (intros; discriminate).
  all: intros _; by_provisioning.
Qed.

Lemma sessionStarted_resumed_current (w : World) (sk : Socket) (req : SessionData.t)
    (sid : string) :
  socket w = Some sk →
  held_sessionId w = Some sid → truthy (Some sid) = true →
  let w' := exec (Current.on_sessionStarted req sid) w in
  filter (λ e, is_refresh e = true) (since w w') = [Emit sk CheckRunnerStatus] ∧
  filter (λ e, is_provisioning e = true) (since w w') = [].
Proof.
  fields w. unfold held_sessionId. cbn. intros -> Hheld Hsid.
  destruct d as [d0|]; [|done]. cbn in Hheld.
  assert (Hsame : bool_decide (Some sid ≠ Some sid) = false)
    by (apply bool_decide_false; by intros []).
  repeat (progress (cbn; rewrite ?Hheld, ?Hsid, ?Hsame)).
  read_since.
  split; [by_kind is_refresh|by_provisioning].
Qed.

(** The session data a launch needs, with the id received in it. *)
Lemma launchable_data (w : World) (sid : string) :
  launchable w sid = true →
  ∃ d, _data w = Some d ∧ truthy (Some sid) = true ∧
       launch_data (SessionData.with_sessionId d (Some sid))
       = Some (default "" (SessionData.githubRef d), default "" (SessionData.os d),
               SessionData.serverAddress d, sid).
Proof.
  unfold launchable. destruct (_data w) as [d|]; [|done].
  intros [[_ Hsid]%andb_true_iff Hl%bool_decide_eq_true_1]%andb_true_iff.
  exists d. split; [done|]. split; [done|].
  rewrite launch_data_complete in Hl |- *.
  destruct (complete _); [done|]. by destruct Hl.
Qed.

Lemma with_sessionId_same (d : SessionData.t) (sid : option string) :
  SessionData.sessionId d = sid → SessionData.with_sessionId d sid = d.
Proof. destruct d. cbn. by intros ->. Qed.

(** A run of the once-listener on a session that holds the id received
    keeps the socket and the session data, asks the runner for the status
    of its client, and provisions nothing. *)
Lemma sessionStarted_resumed_run (sk : Socket) (req d : SessionData.t) (sid : string)
    (w : World) :
  truthy (Some sid) = true → SessionData.sessionId d = Some sid →
  socket w = Some sk ∧ _data w = Some d →
  let w' := exec (Current.on_sessionStarted req sid) w in
  (socket w' = Some sk ∧ _data w' = Some d) ∧ extends w w' ∧
  filter (λ e, is_refresh e = true) (since w w') = [Emit sk CheckRunnerStatus] ∧
  filter (λ e, is_provisioning e = true) (since w w') = [].
Proof.
  intros Hsid Hd [Hs Hw] w'.
  assert (Hheld : held_sessionId w = Some sid)
    by (unfold held_sessionId, eval, sessionId, gets; cbn [fst]; by rewrite Hw).
  destruct (sessionStarted_accepted_current w req sid) as (He & Hs' & Hd').
  { apply accepted_no_mismatch. by right. }
  destruct (sessionStarted_resumed_current w sk req sid Hs Hheld Hsid) as [Hr Hp].
  fold w' in He, Hs', Hd', Hr, Hp. rewrite Hsid, Hw in Hd'.
  cbn [fmap option_fmap option_map] in Hd'.
  rewrite (with_sessionId_same d (Some sid) Hd) in Hd'.
  split; [split; congruence|]. by split.
Qed.

Lemma sessionStarted_resumed_runs (sk : Socket) (req d : SessionData.t) (sid : string)
    (n : nat) (w : World) :
  truthy (Some sid) = true → SessionData.sessionId d = Some sid →
  socket w = Some sk ∧ _data w = Some d →
  let w' := exec (in_turn (replicate n (Current.on_sessionStarted req sid))) w in
  _data w' = Some d ∧ extends w w' ∧
  filter (λ e, is_refresh e = true) (since w w') = replicate n (Emit sk CheckRunnerStatus) ∧
  filter (λ e, is_provisioning e = true) (since w w') = [].
Proof.
  intros Hsid Hd Hw w'.
  destruct (in_turn_calls (λ w, socket w = Some sk ∧ _data w = Some d) is_refresh
              [Emit sk CheckRunnerStatus]
              (replicate n (Current.on_sessionStarted req sid)) w) as ([_ H1] & H2 & H3);
    [|exact Hw|].
  { apply Forall_replicate. intros w1 Hw1.
    destruct (sessionStarted_resumed_run sk req d sid w1 Hsid Hd Hw1) as (? & ? & ? & _).
    done. }
  destruct (in_turn_calls (λ w, socket w = Some sk ∧ _data w = Some d) is_provisioning []
              (replicate n (Current.on_sessionStarted req sid)) w) as (_ & _ & H4);
    [|exact Hw|].
  { apply Forall_replicate. intros w1 Hw1.
    destruct (sessionStarted_resumed_run sk req d sid w1 Hsid Hd Hw1) as (? & ? & _ & ?).
    done. }
  fold w' in H1, H2, H3, H4.
  rewrite length_replicate, mjoin_replicate_singleton in H3.
  rewrite mjoin_replicate_nil in H4. done.
Qed.

(** The launch goes on when [setupRunnerClientRepo] has answered with an
    owner and a repository: the workflow is dispatched with the session data
    read before the wait, and the provisioning timeout is armed and
    recorded. *)
Lemma launchRunnerClient_resume_dispatches (d : SessionData.t) (w : World) :
  is_Some (launch_data d) → dispatched d w.
Proof.
  rewrite launch_data_complete. intros Hl owner repo h Howner Hrepo.
  fields w. cbn. rewrite launch_data_complete.
  destruct (complete d); [|by destruct Hl]. cbn.
  destruct (String.eqb_spec owner ""); [done|].
  destruct (String.eqb_spec repo ""); [done|]. cbn.
  split; [since_trace|]. split; [|reflexivity].
  rewrite elem_of_app, elem_of_cons. auto.
Qed.

Lemma sessionStarted_new_earlier (w : World) (sk : Socket) (req : SessionData.t)
    (sid : string) :
  truthy (held_sessionId w) = false → status w = RunnerStatus.Connected →
  let w' := exec (Earlier.on_sessionStarted sk req sid) w in
  filter (λ e, is_refresh e = true) (since w w') = [] ∧
  (launchable w sid = true →
   ∀ d, _data w = Some d →
     filter (λ e, is_provisioning e = true) (since w w')
     = [LaunchRunnerClient (SessionData.serverAddress d) (default "" (SessionData.os d)) sid]).
Proof.
  intros Hnew Hst w'. split.
  - subst w'. revert Hnew Hst. fields w. unfold held_sessionId. cbn. intros Hnew ->.
    destruct s as [sk'|]; destruct d as [d0|]; cbn in Hnew;
      destruct (truthy (Some sid)) eqn:Hsid.
    all: repeat (progress (cbn; rewrite ?Hnew, ?Hsid)).
    all: try destruct (isGitHubActions rs _); cbn.
    all: try destruct (launch_data _) as [[[[? ?] ?] ?]|]; cbn.
    all: read_since; by_kind is_refresh.
  - intros Hl d0 Hd0. destruct (launchable_data w sid Hl) as (d1 & Hd1 & Hsid & Hld).
    assert (d1 = d0) as -> by congruence.
    assert (Hgha : isGitHubActions (allRunners w) (Some (SessionData.serverAddress d0)) = true).
    { unfold launchable in Hl. rewrite Hd0 in Hl.
      by apply andb_true_iff in Hl as [[? _]%andb_true_iff _]. }
    clear Hl Hd1. unfold SessionData.with_sessionId in Hld. subst w'. revert Hnew Hst Hd0 Hgha. fields w. unfold held_sessionId. cbn.
    intros Hnew -> -> Hgha. cbn in Hnew.
    destruct s as [sk'|].
    all: repeat (progress (cbn; rewrite ?Hnew, ?Hsid, ?Hgha, ?Hld)).
    all: read_since; by_provisioning.
Qed.

Lemma sessionStarted_resumed_earlier (w : World) (sk : Socket) (req : SessionData.t)
    (sid : string) :
  socket w = Some sk →
  held_sessionId w = Some sid → truthy (Some sid) = true →
  status w = RunnerStatus.Connected →
  let w' := exec (Earlier.on_sessionStarted sk req sid) w in
  filter (λ e, is_refresh e = true) (since w w')
    = [Emit sk CheckRunnerStatus; Emit sk FetchCurrentTerminals] ∧
  filter (λ e, is_provisioning e = true) (since w w') = [].
Proof.
  fields w. unfold held_sessionId. cbn. intros -> Hheld Hsid ->.
  destruct d as [d0|]; [|done]. cbn in Hheld.
  assert (Hsame : bool_decide (Some sid ≠ Some sid) = false)
    by (apply bool_decide_false; by intros []).
  repeat (progress (cbn; rewrite ?Hheld, ?Hsid, ?Hsame)).
  read_since.
  split; [by_kind is_refresh|by_provisioning].
Qed.

(** A run of the once-listener that accepts the event, for a runner that is
    not a GitHub Actions runner of the list: nothing is provisioned, and a
    further run accepts the event as well and finds the same runner. *)
Lemma sessionStarted_not_github_current (w : World) (req : SessionData.t) (sid : string) :
  mismatch w sid = false ∧
  isGitHubActions (allRunners w) (SessionData.serverAddress <$> _data w) = false →
  let w' := exec (Current.on_sessionStarted req sid) w in
  (mismatch w' sid = false ∧
   isGitHubActions (allRunners w') (SessionData.serverAddress <$> _data w') = false) ∧
  extends w w' ∧
  filter (λ e, is_provisioning e = true) (since w w') = [].
Proof.
  unfold mismatch, held_sessionId. fields w. cbn. intros [Hm Hg]. rewrite Hm. cbn.
  assert (Hsame : bool_decide (Some sid ≠ Some sid) = false)
    by (apply bool_decide_false; by intros []).
  assert (Hnone : ∀ rs', isGitHubActions rs' None = false) by done.
  destruct (truthy (d ≫= SessionData.sessionId)) eqn:Hheld; cbn.
  all: destruct (truthy (Some sid)) eqn:Hsid; cbn.
  all: destruct d as [d0|]; cbn in Hg |- *.
  all: rewrite ?Hg, ?Hnone, ?Hsid, ?Hsame, ?andb_false_r; cbn.
  all: try destruct s; cbn.
  all: rewrite ?Hg, ?Hnone, ?Hsid, ?Hsame, ?andb_false_r; cbn.
  all: split; [split; first [reflexivity | done | by unfold truthy]|].
  all: split; [extends_trace|].
  all: read_since; by_provisioning.
Qed.

Lemma sessionStarted_not_github_earlier (w : World) (sk : Socket) (req : SessionData.t)
    (sid : string) :
  truthy (held_sessionId w) = false → status w = RunnerStatus.Connected →
  isGitHubActions (allRunners w) (SessionData.serverAddress <$> _data w) = false →
  let w' := exec (Earlier.on_sessionStarted sk req sid) w in
  filter (λ e, is_provisioning e = true) (since w w') = [].
Proof.
  fields w. unfold held_sessionId. cbn. intros Hnew -> Hg.
  assert (Hnone : ∀ rs', isGitHubActions rs' None = false) by done.
  destruct s as [sk'|]; destruct d as [d0|]; cbn in Hnew, Hg;
    destruct (truthy (Some sid)) eqn:Hsid.
  all: repeat (progress (cbn; rewrite ?Hnew, ?Hsid, ?Hg, ?Hnone)).
  all: read_since; by_provisioning.
Qed.

(** C3, as amended. A session-started event is accepted when no session id
    is held or the id held is the one received (and, in the earlier
    revision, the status is Connected). On a session that has its transport,
    where one listener handles the event:
    - with the id held before, the listener asks the runner for the status
      of its client (and for the current terminals, in the earlier
      revision), and no provisioning call is made, nor is the no-data
      message shown;
    - with no id held before, no refresh is asked for, and
      [launchRunnerClient] decides by the runner: for a GitHub Actions runner
      whose session data allows a launch, [setupRunnerClientRepo] is called,
      and when it has answered the workflow is dispatched for the id
      received and the provisioning timeout is armed and recorded (the
      earlier revision calls the launcher with the address, the os and the
      id); for a runner that is not a GitHub Actions runner nothing is
      provisioned.
    The earlier revision has one session-started listener on a socket. The
    revision with [disconnectRunner] runs one once-listener for each connect
    event of the socket since its last session-started event: the first one
    does what is said above, and every further one finds the id held and
    asks for the status of the runner client. *)
Theorem sessionStarted_new_or_resumed (w : World) (sk : Socket) (req : SessionData.t)
    (sid : string) :
  socket w = Some sk →
  truthy (held_sessionId w) = false ∨ held_sessionId w = Some sid →
  let n := registered w sk in
  let wc := exec (Current.deliver_sessionStarted sk req sid) w in
  let we := exec (Earlier.on_sessionStarted sk req sid) w in
  let refreshes w' := filter (λ e, is_refresh e = true) (since w w') in
  let provisions w' := filter (λ e, is_provisioning e = true) (since w w') in
  if truthy (held_sessionId w)
  then
    refreshes wc = replicate n (Emit sk CheckRunnerStatus) ∧
    provisions wc = [] ∧
    (status w = RunnerStatus.Connected →
     refreshes we = [Emit sk CheckRunnerStatus; Emit sk FetchCurrentTerminals] ∧
     provisions we = [])
  else
    (n = 1%nat → refreshes wc = []) ∧
    (status w = RunnerStatus.Connected → refreshes we = []) ∧
    (launchable w sid = true →
     ∃ d, _data w = Some d ∧
       ((0 < n)%nat →
        provisions wc = [SetupRunnerClientRepo] ∧
        refreshes wc = replicate (n - 1) (Emit sk CheckRunnerStatus) ∧
        _data wc = Some (SessionData.with_sessionId d (Some sid)) ∧
        dispatched (SessionData.with_sessionId d (Some sid)) wc) ∧
       (status w = RunnerStatus.Connected →
        provisions we =
          [LaunchRunnerClient (SessionData.serverAddress d) (default "" (SessionData.os d))
             sid])) ∧
    (isGitHubActions (allRunners w) (SessionData.serverAddress <$> _data w) = false →
     provisions wc = [] ∧
     (status w = RunnerStatus.Connected → provisions we = [])).
Proof.
  intros Hsock Hacc n wc we refreshes provisions. subst n refreshes provisions. cbv beta.
  set (w0 := set_listeners (filter (λ s, s ≠ sk) (listeners w)) w).
  assert (Hwc : wc = exec (in_turn (replicate (registered w sk)
                                      (Current.on_sessionStarted req sid))) w0)
    by apply exec_deliver_sessionStarted.
  destruct (truthy (held_sessionId w)) eqn:Hheld.
  - destruct Hacc as [|Hsame]; [done|]. rewrite Hsame in Hheld.
    assert (Hd : ∃ d, _data w0 = Some d ∧ SessionData.sessionId d = Some sid).
    { revert Hsame. unfold held_sessionId, eval, sessionId, gets. cbn [fst].
      change (_data w0) with (_data w). destruct (_data w) as [d|]; [|done]. by exists d. }
    destruct Hd as (d & Hd & Hdsid).
    destruct (sessionStarted_resumed_runs sk req d sid (registered w sk) w0 Hheld Hdsid
                (conj Hsock Hd)) as (_ & _ & Hr & Hp).
    rewrite <- Hwc in Hr, Hp. change (since w0 wc) with (since w wc) in Hr, Hp.
    split; [exact Hr|]. split; [exact Hp|]. intros Hst.
    by apply sessionStarted_resumed_earlier.
  - split; [|split; [|split]].
    + intros Hn. rewrite Hwc, Hn. cbn [replicate].
      rewrite exec_in_turn_cons, exec_in_turn_nil.
      by destruct (sessionStarted_new_current w0 req sid Hheld) as [Hr _].
    + intros Hst. by destruct (sessionStarted_new_earlier w sk req sid Hheld Hst) as [? _].
    + intros Hl. destruct (launchable_data w sid Hl) as (d & Hd & Hsid & Hld).
      exists d. split; [exact Hd|]. split.
      * intros Hn. destruct (registered w sk) as [|n] eqn:En; [lia|]. clear Hn.
        rewrite Hwc. cbn [replicate]. rewrite exec_in_turn_cons.
        destruct (sessionStarted_new_current w0 req sid Hheld) as [Hr1 Hp1].
        specialize (Hp1 Hl).
        destruct (sessionStarted_accepted_current w0 req sid) as (He1 & Hs1 & Hd1).
        { apply (accepted_no_mismatch w0). by left. }
        set (w1 := exec (Current.on_sessionStarted req sid) w0) in *.
        change (_data w0) with (_data w) in Hd1. rewrite Hsid, Hd in Hd1. cbn [fmap option_fmap option_map] in Hd1.
        change (socket w0) with (socket w) in Hs1. rewrite Hsock in Hs1.
        destruct (sessionStarted_resumed_runs sk req (SessionData.with_sessionId d (Some sid))
                    sid n w1 Hsid eq_refl (conj Hs1 Hd1)) as (Hdn & Hen & Hrn & Hpn).
        set (wn := exec (in_turn (replicate n (Current.on_sessionStarted req sid))) w1) in *.
        assert (Hsplit : since w wn = since w w1 ++ since w1 wn)
          by (by apply since_extends).
        rewrite Hsplit, !filter_app, Hrn, Hpn.
        change (since w w1) with (since w0 w1). rewrite Hr1, Hp1.
        replace (S n - 1)%nat with n by lia.
        split; [reflexivity|]. split; [reflexivity|].
        split; [exact Hdn|].
        apply launchRunnerClient_resume_dispatches. by rewrite Hld.
      * intros Hst. destruct (sessionStarted_new_earlier w sk req sid Hheld Hst) as [_ Hpe].
        by apply Hpe.
    + intros Hg. split; [|intros Hst; by apply sessionStarted_not_github_earlier].
      destruct (in_turn_calls
                  (λ w', mismatch w' sid = false ∧
                         isGitHubActions (allRunners w') (SessionData.serverAddress <$> _data w')
                         = false)
                  is_provisioning []
                  (replicate (registered w sk) (Current.on_sessionStarted req sid)) w0)
        as (_ & _ & Hp).
      { apply Forall_replicate. intros w1. apply sessionStarted_not_github_current. }
      { split; [|exact Hg]. apply (accepted_no_mismatch w). by left. }
      rewrite <- Hwc, mjoin_replicate_nil in Hp. exact Hp.
Qed.

Lemma sessionStarted_new_or_resumed_witness :
  (socket connected_current = Some 1%nat ∧ held_sessionId connected_current = None ∧
   registered connected_current 1%nat = 1%nat ∧
   launchable connected_current "abc" = true ∧
   filter (λ e, is_provisioning e = true)
     (since connected_current
        (exec (Current.deliver_sessionStarted 1%nat (session_request None) "abc")
           connected_current))
   = [SetupRunnerClientRepo]) ∧
  (held_sessionId resuming_current = Some "abc" ∧
   filter (λ e, is_refresh e = true)
     (since resuming_current
        (exec (Current.deliver_sessionStarted 1%nat (session_request (Some "abc")) "abc")
           resuming_current))
   = [Emit 1%nat CheckRunnerStatus]).
Proof.
  split.
  - repeat (split; [reflexivity|]).
    destruct (sessionStarted_new_or_resumed connected_current 1%nat (session_request None) "abc"
                eq_refl (or_introl eq_refl)) as (_ & _ & H & _).
    destruct (H eq_refl) as (d & _ & Hc & _).
    assert (Hn : (0 < registered connected_current 1%nat)%nat) by (vm_compute; lia).
    exact (proj1 (Hc Hn)).
  - split; [reflexivity|].
    apply (sessionStarted_new_or_resumed resuming_current 1%nat
             (session_request (Some "abc")) "abc" eq_refl (or_intror eq_refl)).
Defined.

(** C3 as stated fails for a new session on a runner that is not a GitHub
    Actions runner, which [launchRunnerClient] skips: the session-started
    event is accepted, with no id held before, and no provisioning call is
    made and no provisioning timeout armed, in either revision. *)
Lemma sessionStarted_new_not_provisioned :
  let wc := connected_other_current in
  let wc' := exec (Current.deliver_sessionStarted 1%nat (session_request None) "abc") wc in
  let we := connected_other_earlier in
  let we' := exec (Earlier.on_sessionStarted 1%nat (session_request None) "abc") we in
  (held_sessionId wc = None ∧ registered wc 1%nat = 1%nat ∧
   status wc' = RunnerStatus.SessionStarted ∧ held_sessionId wc' = Some "abc" ∧
   filter (λ e, is_provisioning e = true) (since wc wc') = [] ∧
   filter (λ t, is_workflow_timer t = true) (timers wc') = []) ∧
  (held_sessionId we = None ∧
   status we' = RunnerStatus.SessionStarted ∧ held_sessionId we' = Some "abc" ∧
   filter (λ e, is_provisioning e = true) (since we we') = []).
Proof. vm_compute. repeat split. Qed.

(** When the transport of a new session has dropped and come back before
    the runner answered, two once-listeners wait on the socket, and no id is
    held. The session-started event runs both: the first one starts the
    provisioning flow, and the second one, which finds the id the first one
    has just stored, asks the runner for the status of its client. *)
Lemma sessionStarted_provisions_and_refreshes :
  let w := reconnected_current None in
  let w' := exec (Current.deliver_sessionStarted 1%nat (session_request None) "abc") w in
  held_sessionId w = None ∧ connected w = [1%nat] ∧ registered w 1%nat = 2%nat ∧
  filter (λ e, is_provisioning e = true) (since w w') = [SetupRunnerClientRepo] ∧
  filter (λ e, is_refresh e = true) (since w w') = [Emit 1%nat CheckRunnerStatus].
Proof. vm_compute. repeat split. Qed.

(** ** Connecting *)

Lemma conflicting_Some (existing : SessionData.t) (req : SessionData.t) (old : string) :
  SessionData.sessionId existing = Some old → old ≠ "" →
  Some old ≠ SessionData.sessionId req →
  Current.conflicting (Some existing) req = Some old.
Proof.
  intros Hold Hne Hdiff. unfold Current.conflicting, truthy. rewrite Hold.
  destruct (String.eqb_spec old ""); [done|].
  by rewrite bool_decide_true.
Qed.

Lemma connectTo_asks_first (w : World) (req : SessionData.t) (answer : option string)
    (sk : Socket) (old : string) :
  Current.conflicting (globalState w !! SessionData.githubRef req) req = Some old →
  ∃ es, since w (exec (Current.connectTo req answer sk) w) = ShowInformationMessage old :: es.
Proof.
  fields w. cbn. intros ->. cbn.
  destruct (bool_decide (answer = Some "Continue")); cbn.
  - destruct s as [sk'|]; cbn; [destruct (bool_decide (sk' ∈ c)); cbn|]; destruct p; cbn.
    all: eexists; since_trace.
  - eexists; since_trace.
Qed.

Lemma connectTo_declined (w : World) (req : SessionData.t) (answer : option string)
    (sk : Socket) (old : string) :
  Current.conflicting (globalState w !! SessionData.githubRef req) req = Some old →
  answer ≠ Some "Continue" →
  let r := Current.connectTo req answer sk w in
  r.1 = Some false ∧
  globalState r.2 = globalState w ∧
  socket r.2 = socket w ∧
  connected r.2 = connected w ∧
  timers r.2 = timers w ∧
  _data r.2 = _data w ∧
  _terminals r.2 = _terminals w ∧
  filter (λ e, is_transport_call e = true) (since w r.2) = [].
Proof.
  fields w. cbn. intros -> Hno. cbn. rewrite bool_decide_false by done. cbn.
  repeat (split; [reflexivity|]).
  read_since. by_kind is_transport_call.
Qed.

Lemma connectTo_proceeds (w : World) (req : SessionData.t) (answer : option string)
    (sk : Socket) :
  eval (Current.connectTo req answer sk) w = None →
  let w' := exec (Current.connectTo req answer sk) w in
  timers w' = timers w ++ [ConnectTimeout sk] ∧
  status w' = RunnerStatus.Connecting ∧
  peer w' = RunnerClientStatus.Offline ∧
  last_error w' = None ∧
  socket w' = Some sk ∧
  _terminals w' = [] ∧
  _data w' = Some req.
Proof.
  fields w. cbn.
  destruct (Current.conflicting _ _); cbn;
    [destruct (bool_decide (answer = Some "Continue")); cbn; [|done]|].
  all: intros _.
  all: destruct s as [sk'|]; cbn; [destruct (bool_decide (sk' ∈ c)); cbn|]; destruct p; cbn.
  all: done.
Qed.

(** C8. When the persisted session of the requested ref has a non-empty id
    that differs from the requested one, the first thing [connectTo] does is
    ask the user: every other call, to the transport or anywhere else, comes
    after the prompt. When the answer is not Continue, [connectTo] answers
    [false]; the persisted sessions, the socket, the connected sockets, the
    timers, the session data and the registry are as before, and nothing was
    sent to, opened on or closed on the transport. *)
Theorem connectTo_conflict_asks_first (w : World) (req existing : SessionData.t)
    (answer : option string) (sk : Socket) (old : string) :
  globalState w !! SessionData.githubRef req = Some existing →
  SessionData.sessionId existing = Some old → old ≠ "" →
  Some old ≠ SessionData.sessionId req →
  let r := Current.connectTo req answer sk w in
  (∃ es, since w r.2 = ShowInformationMessage old :: es) ∧
  (answer ≠ Some "Continue" →
   r.1 = Some false ∧
   globalState r.2 = globalState w ∧
   socket r.2 = socket w ∧
   connected r.2 = connected w ∧
   timers r.2 = timers w ∧
   _data r.2 = _data w ∧
   _terminals r.2 = _terminals w ∧
   filter (λ e, is_transport_call e = true) (since w r.2) = []).
Proof.
  intros Hg Hold Hne Hdiff r.
  pose proof (conflicting_Some existing req old Hold Hne Hdiff) as Hc.
  rewrite <- Hg in Hc. split.
  - by apply connectTo_asks_first.
  - intros Hno. by eapply connectTo_declined.
Qed.

Lemma connectTo_conflict_asks_first_witness :
  globalState persisted_current !! main_ref = Some (session_request (Some "old")) ∧
  (Current.connectTo (session_request None) None 1%nat persisted_current).1 = Some false ∧
  globalState (Current.connectTo (session_request None) None 1%nat persisted_current).2
    = globalState persisted_current.
Proof.
  split; [reflexivity|].
  assert (Hne : "old" ≠ "") by discriminate.
  assert (Hdiff : Some "old" ≠ SessionData.sessionId (session_request None)) by discriminate.
  assert (Hno : (None : option string) ≠ Some "Continue") by discriminate.
  destruct (connectTo_conflict_asks_first persisted_current (session_request None)
              (session_request (Some "old")) None 1%nat "old" eq_refl eq_refl Hne Hdiff)
    as [_ Hdecl].
  destruct (Hdecl Hno) as (? & ? & _). by split.
Defined.

(** ** The connection timeout *)



Lemma on_connect_timers (w : World) (sk : Socket) :
  timers (exec (Current.on_connect sk) w) = filter (λ t, t ≠ ConnectTimeout sk) (timers w).
Proof. fields w. reflexivity. Qed.



(** ** Timers, kind by kind *)

Lemma clearWorkflowDispatchTimeout_timers (w : World) :
  timers (exec Current.clearWorkflowDispatchTimeoutIfNeeded w) =
    match _workflowDispatchTimeout w with
    | Some h => filter (λ t, t ≠ WorkflowDispatchTimeout h) (timers w)
    | None => timers w
    end.
Proof. fields w. destruct h; reflexivity. Qed.

Lemma launchRunnerClient_timers (w : World) :
  launch_ready w = true →
  timers (exec Current.launchRunnerClient w) =
    timers (exec Current.clearWorkflowDispatchTimeoutIfNeeded w).
Proof.
  fields w. unfold launch_ready. cbn. intros [Hgha Hdata]%andb_true_iff.
  rewrite Hgha. cbn. destruct d as [d0|]; cbn in *.
  - destruct (launch_data d0); [|discriminate Hdata].
    destruct h; reflexivity.
  - discriminate Hdata.
Qed.

(** C7, as amended. The workflow-dispatch (provision) timeout is cancelled
    through the handle the object records: [launchRunnerClient], when it
    goes ahead, and [disconnectRunner] leave the recorded timeout unarmed
    before any new one is armed. The connection timeout is per attempt:
    a [connectTo] that goes ahead arms the timeout of its own attempt and
    leaves every timer armed before it armed; what cancels the timeout of an
    attempt is the connect event of that attempt, which cancels no other. *)
Theorem timers_by_kind (w : World) (req : SessionData.t) (answer : option string)
    (sk : Socket) (e : option RunnerError.t) :
  (∀ h, _workflowDispatchTimeout w = Some h →
     (WorkflowDispatchTimeout h ∉ timers (exec Current.clearWorkflowDispatchTimeoutIfNeeded w)) ∧
     (launch_ready w = true →
      WorkflowDispatchTimeout h ∉ timers (exec Current.launchRunnerClient w)) ∧
     (WorkflowDispatchTimeout h ∉ timers (exec (Current.disconnectRunner e) w))) ∧
  (eval (Current.connectTo req answer sk) w = None →
   timers (exec (Current.connectTo req answer sk) w) = timers w ++ [ConnectTimeout sk]) ∧
  timers (exec (Current.on_connect sk) w) = filter (λ t, t ≠ ConnectTimeout sk) (timers w).
Proof.
  split; [|split].
  - intros h Hh.
    assert (Hclear : WorkflowDispatchTimeout h
                       ∉ timers (exec Current.clearWorkflowDispatchTimeoutIfNeeded w)).
    { rewrite clearWorkflowDispatchTimeout_timers, Hh. apply not_elem_of_filter_ne. }
    split; [done|]. split.
    + intros Hready. by rewrite launchRunnerClient_timers.
    + destruct (disconnectRunner_spec w e) as (_ & _ & _ & _ & _ & Htm & _).
      rewrite Htm, Hh. apply not_elem_of_filter_ne.
  - intros Hgo. by destruct (connectTo_proceeds w req answer sk Hgo) as [? _].
  - apply on_connect_timers.
Qed.

(** C7 as stated fails for the connection timeout. Two connects in a row,
    neither reaching a connect event, leave two connection timeouts armed at
    once; both expire, and each one runs its callback to the end: the socket
    of its attempt is disconnected, the timeout is notified and the promise
    of its attempt resolves to [false]. *)
Lemma two_connect_timeouts_armed_and_fired :
  let w := twice_current in
  let w1 := exec (Current.on_connect_timeout 1%nat) w in
  let w2 := exec (Current.on_connect_timeout 2%nat) w1 in
  timers w = [ConnectTimeout 1%nat; ConnectTimeout 2%nat] ∧
  last (since w w1) = Some (Resolve 1%nat false) ∧
  last (since w1 w2) = Some (Resolve 2%nat false) ∧
  filter (λ e, is_transport_call e = true) (since w w2)
    = [SocketDisconnect 1%nat; SocketDisconnect 2%nat] ∧
  length (filter (λ e, is_error_notification e = true) (since w w2)) = 4%nat.
Proof. vm_compute. repeat split. Qed.

(** ** Reachable worlds

    The theorems on activation and on an accepted session assume that the
    object holds the socket the event or the message goes over. That is so
    in every world a session can reach: by induction on the steps of a
    session, the socket held is the only one that may be connected, and the
    peer is online only while a socket is held. *)

Lemma transport_shrinks_refl w : transport_shrinks w w.
Proof. unfold transport_shrinks. auto. Qed.

Lemma transport_shrinks_trans w1 w2 w3 :
  transport_shrinks w1 w2 → transport_shrinks w2 w3 → transport_shrinks w1 w3.
Proof.
  intros (Hs1 & Hp1 & Hc1) (Hs2 & Hp2 & Hc2). split; [congruence|]. split.
  - destruct Hp2 as [Hp2|Hp2]; [rewrite Hp2; exact Hp1|by right].
  - auto.
Qed.

Lemma transport_invariant_shrinks w w' :
  transport_shrinks w w' → transport_invariant w → transport_invariant w'.
Proof.
  intros (Hs & Hp & Hc) [Hconn Honline]. split.
  - intros sk Hin. rewrite Hs. auto.
  - rewrite Hs. destruct Hp as [-> | ->]; [done|discriminate].
Qed.

Lemma transport_invariant_dropped w w' :
  transport_dropped w w' → transport_invariant w → transport_invariant w'.
Proof.
  intros (Hs & Hp & Hc) [Hconn Honline]. split.
  - intros sk [Hin Hne]%Hc. by apply Hconn in Hin.
  - rewrite Hp. discriminate.
Qed.

Lemma elem_of_filter_ne {A} `{EqDecision A} (x y : A) (l : list A) :
  y ∈ filter (λ z, z ≠ x) l → y ∈ l ∧ y ≠ x.
Proof. intros [? ?]%list_elem_of_filter. done. Qed.

(** Closes a goal on the transport of a world given by its fields. *)
Ltac transport :=
  solve
    [ unfold transport_shrinks, transport_dropped; cbn;
      repeat split; intros;
      repeat match goal with
      | H : _ ∈ filter (λ z, z ≠ _) _ |- _ => apply elem_of_filter_ne in H as [? ?]
      | H : bool_decide _ = false |- _ => apply bool_decide_eq_false_1 in H
      end;
      auto; try congruence; try (intros [= ->]; done) ].

Lemma set_terminals_prop_transport ts w :
  transport_shrinks w (exec (set_terminals_prop ts) w).
Proof. fields w. cbn. destruct ts, p, vis; transport. Qed.

Lemma activateTerminal_transport_current file skp newId now w :
  transport_shrinks w (exec (Current.activateTerminal file skp newId now) w).
Proof.
  fields w. cbn. destruct cs; cbn; [transport|].
  destruct skp, ts as [|t ts]; cbn; try transport.
  all: destruct p, vis, s, d; transport.
Qed.

Lemma on_terminalClosed_with_transport warning terminalId now w :
  transport_shrinks w (exec (on_terminalClosed_with warning terminalId now) w).
Proof.
  fields w. cbn. destruct (closed_early _ _ _); cbn.
  all: destruct (without_terminal _ _), p, vis; transport.
Qed.

Lemma launchRunnerClient_transport_current w :
  transport_shrinks w (exec Current.launchRunnerClient w).
Proof.
  fields w. cbn. destruct (isGitHubActions _ _); cbn; [|transport].
  destruct d as [d0|]; cbn; [|transport].
  destruct (launch_data d0); cbn; [|transport]. destruct h; transport.
Qed.

Lemma launchRunnerClient_resume_transport d owner repo h w :
  transport_shrinks w (exec (Current.launchRunnerClient_resume d owner repo h) w).
Proof.
  fields w. cbn. destruct (launch_data d) as [[[[? ?] ?] ?]|]; cbn; [|transport].
  destruct owner as [o|]; cbn; [|transport]. destruct repo as [r|]; cbn; [|transport].
  destruct (negb _ && _); transport.
Qed.

Lemma disconnectRunner_transport e w :
  transport_dropped w (exec (Current.disconnectRunner e) w).
Proof.
  fields w. cbn. destruct h as [h|], s as [sk|], p; cbn.
  all: try (destruct (bool_decide (sk ∈ c)) eqn:Hc; cbn).
  all: transport.
Qed.

Lemma on_sessionStarted_transport_current req sid w :
  let w' := exec (Current.on_sessionStarted req sid) w in
  transport_shrinks w w' ∨ transport_dropped w w'.
Proof.
  intros w'. subst w'. unfold Current.on_sessionStarted. rewrite exec_bind.
  destruct (truthy _ && _) eqn:Hm.
  - right. apply disconnectRunner_transport.
  - left. clear Hm. fields w. cbn.
    destruct (truthy (d ≫= SessionData.sessionId)) eqn:Hheld; cbn.
    + destruct (truthy (Some sid)); cbn; [destruct d; cbn|]; destruct s; transport.
    + destruct (truthy (Some sid)); cbn; [destruct d as [d0|]; cbn|].
      all: destruct (isGitHubActions _ _); cbn; try transport.
      all: try (destruct (launch_data _); cbn; [destruct h|]; transport).
Qed.

Lemma on_connect_timeout_transport_current sk w :
  transport_shrinks w (exec (Current.on_connect_timeout sk) w).
Proof.
  fields w. cbn. destruct (bool_decide (ConnectTimeout sk ∈ tm)); cbn; [|transport].
  destruct st; cbn; try transport.
  all: destruct (bool_decide (sk ∈ c)) eqn:Hc; cbn; transport.
Qed.

Lemma on_disconnect_transport_current sk w :
  transport_shrinks w (exec (Current.on_disconnect sk) w).
Proof. fields w. cbn. transport. Qed.

Lemma terminate_transport_current answer w :
  let w' := exec (Current.terminate answer) w in
  transport_shrinks w w' ∨ transport_dropped w w'.
Proof.
  fields w. cbn. destruct (bool_decide (answer = Some "OK")); cbn; [right|left; transport].
  destruct h as [h|], s as [sk|], p; cbn.
  all: try (destruct (bool_decide (sk ∈ c)) eqn:Hc; cbn).
  all: transport.
Qed.

Lemma on_currentTerminals_transport_current ts newId now w :
  transport_shrinks w (exec (Current.on_currentTerminals ts newId now) w).
Proof.
  unfold Current.on_currentTerminals. rewrite exec_bind.
  eapply transport_shrinks_trans; [apply set_terminals_prop_transport|].
  rewrite exec_bind.
  eapply transport_shrinks_trans; [apply activateTerminal_transport_current|].
  apply transport_shrinks_refl.
Qed.

Lemma setPortForwarding_transport port w :
  transport_shrinks w (exec (Current.setPortForwarding port) w).
Proof. fields w. cbn. destruct s; transport. Qed.

Lemma on_sessionStarted_invariant_current req sid w :
  transport_invariant w → transport_invariant (exec (Current.on_sessionStarted req sid) w).
Proof.
  intros Hinv. destruct (on_sessionStarted_transport_current req sid w).
  - by eapply transport_invariant_shrinks.
  - by eapply transport_invariant_dropped.
Qed.

Lemma deliver_sessionStarted_invariant_current sk req sid w :
  transport_invariant w →
  transport_invariant (exec (Current.deliver_sessionStarted sk req sid) w).
Proof.
  intros Hinv. rewrite exec_deliver_sessionStarted.
  apply in_turn_preserves; [|exact Hinv].
  apply Forall_replicate. intros w'. apply on_sessionStarted_invariant_current.
Qed.

Lemma transport_invariant_step_current w w' :
  step_current w w' → transport_invariant w → transport_invariant w'.
Proof.
  intros Hstep Hinv. destruct Hstep as
    [w req answer sk Hfresh | w sk Hheld | w sk Hin | w sk req sid Hin | w sk Hin
    | w sk ts newId now Hin | w sk port Hin | w sk terminalId now Hin | w sk c os Hin
    | w sk | w d owner repo h | w e | w answer | w file skp newId now | w port
    | w visible | w].
  16: exact Hinv.
  16: exact Hinv.
  - (* connectTo *)
    destruct Hinv as [Hconn Honline]. fields w. cbn in Hconn |- *.
    destruct (Current.conflicting _ _); cbn;
      [destruct (bool_decide (answer = Some "Continue")); cbn|].
    2: { split; [done|]. exact Honline. }
    all: destruct s as [sk'|]; cbn;
      [destruct (bool_decide (sk' ∈ c)) eqn:Hc; cbn|]; destruct p; cbn.
    all: (split; [|by eexists]); cbn; intros x Hx.
    all: try (apply elem_of_filter_ne in Hx as [Hx Hne]).
    all: try apply bool_decide_eq_false_1 in Hc.
    all: specialize (Hconn x Hx); try done.
    all: injection Hconn as <-; done.
  - (* connect *)
    destruct Hinv as [Hconn Honline]. fields w. cbn in *. subst s. split; cbn.
    + intros x [->|[Hx _]%elem_of_filter_ne]%elem_of_cons; auto.
    + by eexists.
  - by eapply transport_invariant_shrinks; [apply on_disconnect_transport_current|].
  - by apply deliver_sessionStarted_invariant_current.
  - by eapply transport_invariant_dropped; [apply disconnectRunner_transport|].
  - by eapply transport_invariant_shrinks; [apply on_currentTerminals_transport_current|].
  - apply (transport_invariant_shrinks w); [|done]. fields w. cbn. transport.
  - by eapply transport_invariant_shrinks; [apply on_terminalClosed_with_transport|].
  - (* runner status *)
    destruct Hinv as [Hconn Honline]. pose proof (Hconn sk Hin) as Hheld.
    fields w. cbn in *. subst s. destruct c; cbn; (split; [exact Hconn|by eexists]).
  - by eapply transport_invariant_shrinks; [apply on_connect_timeout_transport_current|].
  - by eapply transport_invariant_shrinks; [apply launchRunnerClient_resume_transport|].
  - by eapply transport_invariant_dropped; [apply disconnectRunner_transport|].
  - destruct (terminate_transport_current answer w).
    + by eapply transport_invariant_shrinks.
    + by eapply transport_invariant_dropped.
  - by eapply transport_invariant_shrinks; [apply activateTerminal_transport_current|].
  - by eapply transport_invariant_shrinks; [apply setPortForwarding_transport|].
Qed.

Lemma reachable_current_invariant w : reachable_current w → transport_invariant w.
Proof.
  intros (g & rs & Hrtc). revert w Hrtc. apply rtc_ind_r.
  - split; [by intros ? ?%elem_of_nil|discriminate].
  - intros w1 w2 _ Hstep IH. by eapply transport_invariant_step_current.
Qed.

Lemma reachable_current_online w :
  reachable_current w → peer w = RunnerClientStatus.Online → is_Some (socket w).
Proof. intros [_ H]%reachable_current_invariant. exact H. Qed.

Lemma reachable_current_event w sk :
  reachable_current w → sk ∈ connected w → socket w = Some sk.
Proof. intros [H _]%reachable_current_invariant. apply H. Qed.

(** *** The earlier revision *)

Lemma activateTerminal_transport_earlier file skp newId now w :
  transport_shrinks w (exec (Earlier.activateTerminal file skp newId now) w).
Proof.
  fields w. cbn. destruct cs; cbn; [transport|].
  destruct skp, ts as [|t ts]; cbn; try transport.
  all: destruct p, vis, s; transport.
Qed.

Lemma launchRunnerClient_transport_earlier w :
  transport_shrinks w (exec Earlier.launchRunnerClient w).
Proof.
  fields w. cbn. destruct (isGitHubActions _ _); cbn; [|transport].
  destruct d as [d0|]; cbn; [|transport].
  destruct (launch_data d0) as [[[[? ?] ?] ?]|]; transport.
Qed.

Lemma disconnect_listener_transport_earlier sk w :
  transport_shrinks w (exec (Earlier.disconnect_listener sk) w).
Proof. fields w. cbn. destruct p, st; transport. Qed.

Lemma on_disconnect_transport_earlier sk w :
  transport_shrinks w (exec (Earlier.on_disconnect sk) w).
Proof. fields w. cbn. destruct p, st; transport. Qed.

Lemma socket_disconnect_transport_earlier sk w :
  transport_shrinks w (exec (socket_disconnect Earlier.disconnect_listener sk) w).
Proof.
  fields w. cbn. destruct (bool_decide (sk ∈ c)); cbn; [|transport].
  destruct p, st; transport.
Qed.

Lemma on_connect_timeout_transport_earlier sk w :
  transport_shrinks w (exec (Earlier.on_connect_timeout sk) w).
Proof.
  fields w. cbn. destruct (bool_decide (ConnectTimeout sk ∈ tm)); cbn; [|transport].
  destruct st; cbn; try transport.
  all: destruct (bool_decide (sk ∈ c)) eqn:Hc; cbn; try transport.
  all: destruct p; transport.
Qed.

Lemma on_sessionTerminated_transport_earlier sk req w :
  transport_shrinks w (exec (Earlier.on_sessionTerminated sk req) w).
Proof.
  fields w. cbn. destruct (bool_decide (sk ∈ c)) eqn:Hc; cbn; [|transport].
  destruct p, st; transport.
Qed.

Lemma on_sessionStarted_transport_earlier sk req sid w :
  transport_shrinks w (exec (Earlier.on_sessionStarted sk req sid) w).
Proof.
  fields w. cbn. destruct (truthy (d ≫= SessionData.sessionId) && _); cbn; [transport|].
  destruct st; cbn; try transport.
  destruct s as [sk'|]; cbn.
  all: destruct (truthy (d ≫= SessionData.sessionId)); cbn.
  all: destruct (truthy (Some sid)); cbn; try (destruct d as [d0|]; cbn).
  all: try (destruct (isGitHubActions _ _); cbn).
  all: try (destruct (launch_data _) as [[[[? ?] ?] ?]|]; cbn).
  all: transport.
Qed.

Lemma disconnect_transport_earlier w :
  transport_shrinks w (exec Earlier.disconnect w).
Proof.
  fields w. cbn. destruct s as [sk|]; cbn.
  2: { unfold truthy; cbn; transport. }
  destruct (bool_decide (sk ∈ c)) eqn:Hc; cbn.
  2: { unfold truthy; cbn; transport. }
  destruct p, st; cbn; unfold truthy; cbn; transport.
Qed.

Lemma terminate_transport_earlier answer w :
  transport_shrinks w (exec (Earlier.terminate answer) w).
Proof.
  fields w. cbn. destruct (bool_decide (answer = Some "OK")); cbn; [|transport].
  destruct s as [sk|]; cbn.
  2: { unfold truthy; cbn; transport. }
  destruct (bool_decide (sk ∈ c)) eqn:Hc; cbn.
  2: { unfold truthy; cbn; transport. }
  destruct p, st; cbn; unfold truthy; cbn; transport.
Qed.

(** An event of the runner client keeps the invariant when every run of
    its listener does, on a session that holds the socket of the event. *)
Lemma deliver_invariant_earlier sk listener w :
  (∀ i w', transport_invariant w' ∧ socket w' = Some sk →
           transport_invariant (exec (listener i) w') ∧ socket (exec (listener i) w') = Some sk) →
  transport_invariant w → socket w = Some sk →
  transport_invariant (exec (Earlier.deliver sk listener) w).
Proof.
  intros Hrun Hinv Hs. rewrite exec_deliver.
  apply (in_turn_preserves (λ w', transport_invariant w' ∧ socket w' = Some sk)); [|done].
  apply Forall_fmap, Forall_forall. intros i _ w'. apply Hrun.
Qed.

Lemma on_runnerStatus_invariant_earlier sk c os w :
  transport_invariant w ∧ socket w = Some sk →
  transport_invariant (exec (Earlier.on_runnerStatus c os) w)
  ∧ socket (exec (Earlier.on_runnerStatus c os) w) = Some sk.
Proof.
  intros [[Hconn Honline] Hs]. fields w. cbn in *. subst s.
  split; [|reflexivity]. split; [exact Hconn|by eexists].
Qed.

Lemma transport_invariant_step_earlier w w' :
  step_earlier w w' → transport_invariant w → transport_invariant w'.
Proof.
  intros Hstep Hinv. destruct Hstep as
    [w req answer sk Hfresh | w sk Hheld | w sk Hin | w sk req sid Hin | w sk req Hin
    | w sk ts now Hin | w sk terminalId now Hin | w sk c os Hin
    | w sk | w | w answer | w file skp newId now | w visible].
  13: exact Hinv.
  - (* connectTo *)
    destruct Hinv as [Hconn Honline]. fields w. cbn in Hconn |- *.
    destruct (Current.conflicting _ _); cbn;
      [destruct (bool_decide (answer = Some "Continue")); cbn|].
    2: { destruct st; (split; [done|]); exact Honline. }
    all: destruct s as [sk'|]; cbn;
      [destruct (bool_decide (sk' ∈ c)) eqn:Hc; cbn|]; destruct p; cbn.
    all: try (destruct st; cbn).
    all: (split; [|by eexists]); cbn; intros x Hx.
    all: try (apply elem_of_filter_ne in Hx as [Hx Hne]).
    all: try apply bool_decide_eq_false_1 in Hc.
    all: specialize (Hconn x Hx); try done.
    all: injection Hconn as <-; done.
  - (* connect *)
    destruct Hinv as [Hconn Honline]. fields w. cbn in *. subst s. split; cbn.
    + intros x [->|[Hx _]%elem_of_filter_ne]%elem_of_cons; auto.
    + by eexists.
  - by eapply transport_invariant_shrinks; [apply on_disconnect_transport_earlier|].
  - by eapply transport_invariant_shrinks; [apply on_sessionStarted_transport_earlier|].
  - by eapply transport_invariant_shrinks; [apply on_sessionTerminated_transport_earlier|].
  - apply deliver_invariant_earlier; [|done|by apply Hinv].
    intros i w' [Hinv' Hs]. pose proof (set_terminals_prop_transport (restored (now i) ts) w') as H.
    split; [by eapply transport_invariant_shrinks|]. exact (eq_trans (proj1 H) Hs).
  - apply deliver_invariant_earlier; [|done|by apply Hinv].
    intros i w' [Hinv' Hs].
    pose proof (on_terminalClosed_with_transport Earlier.terminalClosedWarning terminalId
                  (now i) w') as H.
    split; [by eapply transport_invariant_shrinks|]. exact (eq_trans (proj1 H) Hs).
  - apply deliver_invariant_earlier; [|done|by apply Hinv].
    intros i w'. apply on_runnerStatus_invariant_earlier.
  - by eapply transport_invariant_shrinks; [apply on_connect_timeout_transport_earlier|].
  - by eapply transport_invariant_shrinks; [apply disconnect_transport_earlier|].
  - by eapply transport_invariant_shrinks; [apply terminate_transport_earlier|].
  - by eapply transport_invariant_shrinks; [apply activateTerminal_transport_earlier|].
Qed.

Lemma reachable_earlier_invariant w : reachable_earlier w → transport_invariant w.
Proof.
  intros (g & rs & Hrtc). revert w Hrtc. apply rtc_ind_r.
  - split; [by intros ? ?%elem_of_nil|discriminate].
  - intros w1 w2 _ Hstep IH. by eapply transport_invariant_step_earlier.
Qed.

Lemma reachable_earlier_online w :
  reachable_earlier w → peer w = RunnerClientStatus.Online → is_Some (socket w).
Proof. intros [_ H]%reachable_earlier_invariant. exact H. Qed.

Lemma reachable_earlier_event w sk :
  reachable_earlier w → sk ∈ connected w → socket w = Some sk.
Proof. intros [H _]%reachable_earlier_invariant. apply H. Qed.

(** ** The provisioning timeout, with the dispatcher as the spec has it *)

Lemma filter_none {A} (P : A → Prop) `{∀ x, Decision (P x)} (l : list A) :
  (∀ x, x ∈ l → ¬ P x) → filter P l = [].
Proof.
  induction l as [|x l IH]; [done|]. intros Hno.
  rewrite filter_cons_False by (apply Hno; left).
  apply IH. intros y Hy. apply Hno. by right.
Qed.

Lemma provision_cleared (w : World) :
  provision_recorded w →
  filter (λ t, is_workflow_timer t = true)
    (timers (exec Current.clearWorkflowDispatchTimeoutIfNeeded w)) = [].
Proof.
  intros Hrec. rewrite clearWorkflowDispatchTimeout_timers. apply filter_none.
  intros [sk|h'] Hin; [done|]. intros _.
  destruct (_workflowDispatchTimeout w) as [h|] eqn:Hh.
  - apply list_elem_of_filter in Hin as [Hne Hin]. apply Hrec in Hin. congruence.
  - apply Hrec in Hin. congruence.
Qed.

(** A launch that goes through, from its start to the dispatch: whatever
    provisioning timeout was armed and recorded before, the one the
    dispatcher arms is the only one armed after, and it is recorded. *)
Lemma provision_timeout_single (w : World) (d : SessionData.t) (owner repo : string)
    (h : nat) :
  provision_recorded w → launch_ready w = true →
  is_Some (launch_data d) → owner ≠ "" → repo ≠ "" →
  let w' := exec (Current.launchRunnerClient_resume d (Some owner) (Some repo) h)
              (exec Current.launchRunnerClient w) in
  filter (λ t, is_workflow_timer t = true) (timers w') = [WorkflowDispatchTimeout h] ∧
  provision_recorded w'.
Proof.
  intros Hrec Hready [[[[ref os] address] sid] Hd] Howner Hrepo w'.
  pose proof (provision_cleared w Hrec) as Hclear.
  rewrite <- (launchRunnerClient_timers w Hready) in Hclear.
  assert (Htm : timers w' = timers (exec Current.launchRunnerClient w)
                              ++ [WorkflowDispatchTimeout h]
                ∧ _workflowDispatchTimeout w' = Some h).
  { subst w'. destruct (exec Current.launchRunnerClient w) as [? ? ? ? ? ? ? ? ? ? ?].
    cbn. rewrite Hd. cbn.
    destruct (String.eqb_spec owner ""); [done|].
    destruct (String.eqb_spec repo ""); [done|]. done. }
  destruct Htm as [Htm Hh]. split.
  - rewrite Htm, filter_app, Hclear. reflexivity.
  - intros h' Hin. rewrite Htm in Hin. apply elem_of_app in Hin as [Hin|Hin].
    + assert (Hw : WorkflowDispatchTimeout h'
                     ∈ filter (λ t, is_workflow_timer t = true)
                         (timers (exec Current.launchRunnerClient w)))
        by (by apply list_elem_of_filter).
      rewrite Hclear in Hw. by apply elem_of_nil in Hw.
    + apply list_elem_of_singleton in Hin as [= ->]. exact Hh.
Qed.

(** ** Git refs *)

Section git_refs.
Import GitRef.

Lemma split_nonempty sep s : split sep s ≠ [].
Proof.
  destruct s as [|c s]; cbn; [done|].
  destruct (Ascii.eqb c sep); [done|]. by destruct (split sep s).
Qed.

Lemma join_cons sep x l :
  l ≠ [] → join sep (x :: l) = x +:+ sep +:+ join sep l.
Proof. by destruct l. Qed.

(** Joining the segments of a string with the separator gives the string
    back. *)
Lemma join_split (sep : Ascii.ascii) (s : string) :
  join (String sep "") (split sep s) = s.
Proof.
  induction s as [|c s IH]; [done|]. cbn [split].
  destruct (Ascii.eqb_spec c sep) as [->|Hne].
  - rewrite join_cons by apply split_nonempty. cbn. by rewrite IH.
  - pose proof (split_nonempty sep s) as Hne'.
    destruct (split sep s) as [|seg segs]; [done|].
    destruct segs as [|seg' segs].
    + cbn in *. by rewrite IH.
    + rewrite join_cons by done. rewrite join_cons in IH by done. cbn. by rewrite <- IH.
Qed.

Lemma free_of_cons (sep c : Ascii.ascii) (a : string) :
  free_of sep (String c a) = true → Ascii.eqb c sep = false ∧ free_of sep a = true.
Proof.
  unfold free_of. cbn [String.list_ascii_of_string forallb].
  intros [Hc Ha]%andb_true_iff. by apply negb_true_iff in Hc.
Qed.

Lemma split_app_sep (sep : Ascii.ascii) (a b : string) :
  free_of sep a = true → split sep (a +:+ String sep b) = a :: split sep b.
Proof.
  induction a as [|c a IH]; simpl.
  - intros _. by rewrite Ascii.eqb_refl.
  - intros [Hc Ha]%free_of_cons. by rewrite Hc, (IH Ha).
Qed.

Lemma split_free (sep : Ascii.ascii) (a : string) :
  free_of sep a = true → split sep a = [a].
Proof.
  induction a as [|c a IH]; cbn [split]; [done|].
  intros [Hc Ha]%free_of_cons. by rewrite Hc, (IH Ha).
Qed.

Lemma startsWith_app (p s : string) : startsWith (p +:+ s) p = true.
Proof.
  unfold startsWith. induction p as [|c p IH]; simpl; [by destruct s|].
  by destruct (Ascii.ascii_dec c c).
Qed.

Lemma buildFullRef_startsWith (ref : string) (type : RefType) :
  startsWith (buildFullRef ref type) "refs/" = true.
Proof.
  unfold buildFullRef. destruct (startsWith ref "refs/") eqn:E; [done|].
  apply (startsWith_app "refs/").
Qed.

(** X1. Whatever it is given, [buildFullRef] answers a ref that starts with
    "refs/"; and it leaves a ref it has built as it is, whatever the type
    asked for the second time. *)
Theorem buildFullRef_full (ref : string) (type type' : RefType) :
  startsWith (buildFullRef ref type) "refs/" = true ∧
  buildFullRef (buildFullRef ref type) type' = buildFullRef ref type.
Proof.
  split; [apply buildFullRef_startsWith|].
  unfold buildFullRef at 1. by rewrite buildFullRef_startsWith.
Qed.

(** X2. [getShortenRef] undoes [buildFullRef]: a ref that does not start
    with "refs/", made full as a branch or as a tag and then shortened, is the
    ref itself, slashes and empty segments included. *)
Theorem getShortenRef_buildFullRef (ref : string) (type : RefType) :
  startsWith ref "refs/" = false → getShortenRef (buildFullRef ref type) = ref.
Proof.
  intros Hp. unfold getShortenRef. rewrite buildFullRef_startsWith. cbn [negb].
  unfold buildFullRef. rewrite Hp.
  destruct type.
  - change ("refs/" +:+ "heads" +:+ "/" +:+ ref)
      with ("refs" +:+ String slash ("heads" +:+ String slash ref)).
    rewrite !split_app_sep by done. cbn [drop]. apply join_split.
  - change ("refs/" +:+ "tags" +:+ "/" +:+ ref)
      with ("refs" +:+ String slash ("tags" +:+ String slash ref)).
    rewrite !split_app_sep by done. cbn [drop]. apply join_split.
Qed.

Lemma getShortenRef_buildFullRef_witness :
  getShortenRef (buildFullRef "feature/x" branch) = "feature/x".
Proof. apply (getShortenRef_buildFullRef "feature/x" branch). reflexivity. Defined.

(** X3. On a full ref [getShortenRef] drops the first two segments, whatever
    the second one is: "refs/<kind>/<rest>" gives "<rest>" for every kind
    without a slash, and a full ref with nothing after the kind gives the
    empty string. *)
Theorem getShortenRef_segments (kind rest : string) :
  free_of slash kind = true →
  getShortenRef ("refs/" +:+ kind +:+ "/" +:+ rest) = rest ∧
  getShortenRef ("refs/" +:+ kind) = "".
Proof.
  intros Hk. unfold getShortenRef. rewrite !(startsWith_app "refs/"). cbn [negb]. split.
  - change ("refs/" +:+ kind +:+ "/" +:+ rest)
      with ("refs" +:+ String slash (kind +:+ String slash rest)).
    rewrite !split_app_sep by done. cbn [drop]. apply join_split.
  - change ("refs/" +:+ kind) with ("refs" +:+ String slash kind).
    rewrite split_app_sep by done. rewrite split_free by done. reflexivity.
Qed.

Lemma getShortenRef_segments_witness :
  getShortenRef "refs/pull/12/head" = "12/head" ∧ getShortenRef "refs/heads" = "".
Proof. apply (getShortenRef_segments "pull" "12/head"). reflexivity. Defined.

End git_refs.

(** ** The fields behind the accessors *)

Lemma notifications_fmap (ps : list Payload) : notifications (OnUpdate <$> ps) = ps.
Proof. unfold notifications. induction ps as [|p ps IH]; [done|]. cbn. by f_equal. Qed.

(** The calls to the transport among those made since the start. *)
Ltac transport_calls :=
  first [ reflexivity
        | rewrite since_refl by reflexivity; reflexivity
        | read_since; by_kind is_transport_call ].

(** X4. Assigning [sessionId]: an undefined or empty id drops the whole
    session data; a non-empty id replaces the id of the session data and
    nothing else; on an object without session data the assignment does
    nothing, so that the id read back is undefined. No call is made. *)
Theorem sessionId_assignment (s : option string) (w : World) :
  let w' := exec (set_sessionId s) w in
  _data w' = (if truthy s then (λ d, SessionData.with_sessionId d s) <$> _data w else None) ∧
  held_sessionId w' = (if truthy s && bool_decide (is_Some (_data w)) then s else None) ∧
  w' = set_data (_data w') w.
Proof.
  fields w. unfold held_sessionId. cbn. destruct (truthy s) eqn:Hs; cbn.
  - destruct d as [d|]; cbn; [|done]. done.
  - done.
Qed.

(** X7. Assigning [terminals]: the registry is the list assigned, the panel
    exists afterwards exactly when the list is not empty, and the webview is
    sent the list exactly then. An empty list disposes the panel there is
    and posts nothing. A non-empty one creates the panel when there is none,
    reveals the panel held when it is hidden and leaves it alone when it is
    visible, and then posts the list; the panel is visible afterwards. Both
    revisions. *)
Theorem terminals_assignment (w : World) (ts : list TerminalInstance.t) :
  let w' := exec (set_terminals_prop ts) w in
  _terminals w' = ts ∧
  _panel w' = negb (Nat.eqb (length ts) 0) ∧
  panel_visible w' = (if Nat.eqb (length ts) 0 then panel_visible w else true) ∧
  filter (λ e, is_panel_call e = true) (since w w') =
    match ts, _panel w, panel_visible w with
    | [], true, _ => [DisposePanel]
    | [], false, _ => []
    | _ :: _, true, true => [PostSetTerminals ts]
    | _ :: _, true, false => [RevealPanel; PostSetTerminals ts]
    | _ :: _, false, _ => [CreateWebviewPanel; PostSetTerminals ts]
    end ∧
  w' = set_trace (trace w')
         (set_panel_visible (panel_visible w') (set_panel (_panel w') (set_terminals ts w))).
Proof.
  fields w. cbn. destruct ts as [|t ts], p, vis; cbn.
  all: repeat (split; [reflexivity|]).
  all: split; [|reflexivity].
  all: first [rewrite since_refl by reflexivity; reflexivity | read_since; reflexivity].
Qed.

(** ** Status notifications *)

Lemma deliverStatusData_since_current (w : World) :
  let w' := exec Current.deliverStatusData w in
  let ps := Current.statusNotifications (_runnerStatusData w) (held_sessionId w) in
  since w w' = OnUpdate <$> ps ∧ w' = set_trace (trace w ++ (OnUpdate <$> ps)) w.
Proof. fields w. cbn. split; [since_trace|reflexivity]. Qed.

Lemma deliverStatusData_since_earlier (w : World) :
  let w' := exec Earlier.deliverStatusData w in
  let ps := Earlier.statusNotifications (_runnerStatusData w) (held_sessionId w) in
  since w w' = OnUpdate <$> ps ∧ w' = set_trace (trace w ++ (OnUpdate <$> ps)) w.
Proof. fields w. cbn. split; [since_trace|reflexivity]. Qed.

(** X5. [deliverStatusData] of the revision with [RunnerError] only
    notifies, and every notification carries the status data as it is. In
    the initial status with an error it notifies three times: the plain
    message, then the error twice, once with the text of the error table and
    once with the literal of the error. In the initial status without error,
    and in Connecting, Connected, Disconnected and SessionStarted, it
    notifies once, as an error only in Disconnected; the error field is not
    reported outside the initial status. In the two statuses this revision
    never sets it notifies nothing. *)
Theorem deliverStatusData_current (w : World) :
  let w' := exec Current.deliverStatusData w in
  let d := _runnerStatusData w in
  let ps := notifications (since w w') in
  w' = set_trace (trace w ++ (OnUpdate <$> ps)) w ∧
  Forall (λ p, data p = d) ps ∧
  length ps =
    match RunnerStatusData.runnerStatus d, RunnerStatusData.runnerError d with
    | RunnerStatus.Initial, Some _ => 3
    | RunnerStatus.SessionTimeout, _ | RunnerStatus.SessionTerminated, _ => 0
    | _, _ => 1
    end%nat ∧
  length (filter (λ p, is_error p = true) ps) =
    match RunnerStatusData.runnerStatus d, RunnerStatusData.runnerError d with
    | RunnerStatus.Initial, Some _ => 2
    | RunnerStatus.Disconnected, _ => 1
    | _, _ => 0
    end%nat.
Proof.
  destruct (deliverStatusData_since_current w) as [Hs Hw]. cbn zeta in *.
  rewrite Hs, notifications_fmap. split; [exact Hw|].
  destruct (_runnerStatusData w) as [? [] [[]|] [] ?]; cbn; repeat constructor.
Qed.

(** X6. [deliverStatusData] of the earlier revision only notifies, with the
    status data as it is, and at most once: nothing in the initial status,
    once in every other one, as an error exactly in SessionTimeout and
    SessionTerminated. Disconnected is notified as a plain message. *)
Theorem deliverStatusData_earlier (w : World) :
  let w' := exec Earlier.deliverStatusData w in
  let d := _runnerStatusData w in
  let ps := notifications (since w w') in
  w' = set_trace (trace w ++ (OnUpdate <$> ps)) w ∧
  Forall (λ p, data p = d) ps ∧
  length ps = (if RunnerStatus.eqb (RunnerStatusData.runnerStatus d) RunnerStatus.Initial
               then 0 else 1)%nat ∧
  length (filter (λ p, is_error p = true) ps) =
    (if RunnerStatus.includes [RunnerStatus.SessionTimeout; RunnerStatus.SessionTerminated]
          (RunnerStatusData.runnerStatus d)
     then 1 else 0)%nat.
Proof.
  destruct (deliverStatusData_since_earlier w) as [Hs Hw]. cbn zeta in *.
  rewrite Hs, notifications_fmap. split; [exact Hw|].
  destruct (_runnerStatusData w) as [? [] ? [] ?]; cbn; repeat constructor.
Qed.


(** ** Ending a session *)

(** X8. [terminate] of the revision with [disconnectRunner] asks first. On
    any answer but OK it answers [false] and nothing but the prompt has
    happened. On OK it answers [true]: the persisted session of the ref held
    is removed, the terminate-session message goes out on the socket held,
    before the socket is left without catch-all listeners and disconnected,
    and the object is torn down (no session data, no terminal, no socket,
    the initial status without error, the peer offline), [_onDisconnected]
    being called last. *)
Theorem terminate_current (answer : option string) (w : World) :
  let r := Current.terminate answer w in
  let ref := _data w ≫= SessionData.githubRef in
  if bool_decide (answer = Some "OK") then
    r.1 = true ∧
    globalState r.2 = delete ref (globalState w) ∧
    _data r.2 = None ∧ _terminals r.2 = [] ∧ socket r.2 = None ∧
    _runnerStatusData r.2 = reset_statusData RunnerStatus.Initial None ∧
    (∀ sk, socket w = Some sk → sk ∉ connected r.2) ∧
    filter (λ e, is_transport_call e = true) (since w r.2) =
      match socket w with
      | Some sk => [Emit sk TerminateSession; SocketOffAny sk; SocketDisconnect sk]
      | None => []
      end ∧
    head (since w r.2) = Some (ShowWarningMessage terminate_text) ∧
    last (since w r.2) = Some OnDisconnected
  else
    r.1 = false ∧ r.2 = set_trace (trace w ++ [ShowWarningMessage terminate_text]) w.
Proof.
  fields w. cbn. destruct (bool_decide (answer = Some "OK")); cbn; [|done].
  destruct h as [h|], s as [sk|], p; cbn.
  all: try (destruct (bool_decide (sk ∈ c)) eqn:Hc; cbn).
  all: repeat (split; [reflexivity|]).
  all: split;
    [ first [ intros ? [= <-];
              first [ apply bool_decide_eq_false_1 in Hc; exact Hc
                    | apply not_elem_of_filter_ne ]
            | done ] |].
  all: read_since.
  all: split; [by_kind is_transport_call|].
  all: split; [reflexivity | last_call].
Qed.

(** X9. [terminate] of the earlier revision asks first and does nothing
    else unless the answer is OK. On OK it answers [true], removes the
    persisted session of the ref held, sends the terminate-session message
    on the socket held and disconnects it, and drops the session data. The
    object keeps the socket; the registry is emptied, and the status reset
    to Disconnected with the peer offline, only through the disconnect
    listener: when the socket was connected, and for the status when it was
    Connected or SessionStarted. *)
Theorem terminate_earlier (answer : option string) (w : World) :
  let r := Earlier.terminate answer w in
  let ref := _data w ≫= SessionData.githubRef in
  if bool_decide (answer = Some "OK") then
    r.1 = true ∧
    globalState r.2 = delete ref (globalState w) ∧
    _data r.2 = None ∧
    socket r.2 = socket w ∧
    (∀ sk, socket w = Some sk → sk ∉ connected r.2) ∧
    _terminals r.2 = (if live w then [] else _terminals w) ∧
    _runnerStatusData r.2 =
      (if live w && RunnerStatus.includes [RunnerStatus.Connected; RunnerStatus.SessionStarted]
                      (status w)
       then reset_statusData RunnerStatus.Disconnected (last_error w)
       else _runnerStatusData w) ∧
    filter (λ e, is_transport_call e = true) (since w r.2) =
      match socket w with
      | Some sk => [Emit sk TerminateSession; SocketDisconnect sk]
      | None => []
      end
  else
    r.1 = false ∧ r.2 = set_trace (trace w ++ [ShowWarningMessage terminate_text]) w.
Proof.
  fields w. unfold live. cbn. destruct (bool_decide (answer = Some "OK")); cbn; [|done].
  destruct s as [sk|]; cbn.
  - destruct (bool_decide (sk ∈ c)) eqn:Hc; cbn.
    + destruct p, st; cbn; unfold truthy; cbn.
      all: repeat (split; [reflexivity|]).
      all: (split; [intros ? [= <-]; apply not_elem_of_filter_ne|]).
      all: repeat (split; [reflexivity|]).
      all: read_since; by_kind is_transport_call.
    + apply bool_decide_eq_false_1 in Hc. unfold truthy; cbn.
      repeat (split; [reflexivity|]).
      split; [by intros ? [= <-]|].
      repeat (split; [reflexivity|]).
      read_since; by_kind is_transport_call.
  - unfold truthy; cbn. repeat (split; [reflexivity|]). split; [done|].
    repeat (split; [reflexivity|]). read_since; by_kind is_transport_call.
Qed.

Lemma silent_without_socket (w : World) :
  socket w = None → peer w = RunnerClientStatus.Offline →
  (∀ file ignoreIfExists newId now,
     Current.activateTerminal file ignoreIfExists newId now w = (false, w)) ∧
  (∀ port, Current.setPortForwarding port w = (tt, w)) ∧
  Current.retrieveRunnerInfo w = (tt, w) ∧
  (∀ answer, filter (λ e, is_transport_call e = true)
               (since w (exec (Current.terminate answer) w)) = []) ∧
  (∀ e', filter (λ e, is_transport_call e = true)
           (since w (exec (Current.disconnectRunner e') w)) = []).
Proof.
  unfold peer. fields w. cbn. intros -> ->. cbn.
  repeat (split; [reflexivity|]). split.
  - intros answer. destruct (bool_decide (answer = Some "OK")); cbn.
    + destruct h as [h|], p; cbn; read_since; by_kind is_transport_call.
    + read_since. reflexivity.
  - intros e'. destruct h as [h|], p; cbn; read_since; by_kind is_transport_call.
Qed.

(** X14. After [disconnectRunner], whatever the world was and until the
    next [connectTo], the public methods reach no transport:
    [activateTerminal] answers [false] and does nothing, [setPortForwarding]
    and [retrieveRunnerInfo] do nothing, and neither [terminate] nor another
    [disconnectRunner] sends or closes anything. *)
Theorem disconnectRunner_silences (e : option RunnerError.t) (w : World) :
  let w' := exec (Current.disconnectRunner e) w in
  (∀ file ignoreIfExists newId now,
     Current.activateTerminal file ignoreIfExists newId now w' = (false, w')) ∧
  (∀ port, Current.setPortForwarding port w' = (tt, w')) ∧
  Current.retrieveRunnerInfo w' = (tt, w') ∧
  (∀ answer, filter (λ e, is_transport_call e = true)
               (since w' (exec (Current.terminate answer) w')) = []) ∧
  (∀ e', filter (λ e, is_transport_call e = true)
           (since w' (exec (Current.disconnectRunner e') w')) = []).
Proof.
  intros w'. destruct (disconnectRunner_spec w e) as (_ & _ & Hs & Hrsd & _).
  apply silent_without_socket; [exact Hs|]. subst w'. unfold peer. by rewrite Hrsd.
Qed.

(** ** Events of the runner client *)



Lemma on_runnerStatus_run_earlier (w w' : World) (c : RunnerClientStatus.t)
    (os : option string) :
  let d' := {| RunnerStatusData.sessionId := RunnerStatusData.sessionId (_runnerStatusData w);
               RunnerStatusData.runnerStatus := status w;
               RunnerStatusData.runnerError := last_error w;
               RunnerStatusData.runnerClientStatus := c;
               RunnerStatusData.runnerClientOS := os |} in
  _runnerStatusData w' = _runnerStatusData w ∨ _runnerStatusData w' = d' →
  let w'' := exec (Earlier.on_runnerStatus c os) w' in
  _runnerStatusData w'' = d' ∧ extends w' w'' ∧
  filter (λ e, is_transport_call e = true) (since w' w'') = [] ∧
  (status w = RunnerStatus.SessionStarted →
   notifications (since w' w'') = [payload d' message (Some (Text (session_started_text c)))]).
Proof.
  intros d' Hw'. subst d'. unfold status, last_error in *.
  destruct w' as [? ? rsd' ? ? ? ? ? ? ? ? ? ?]. cbn in Hw' |- *.
  assert (E : RunnerStatusData.spread rsd'
                {| RunnerStatusData.p_sessionId := None;
                   RunnerStatusData.p_runnerStatus := None;
                   RunnerStatusData.p_runnerError := None;
                   RunnerStatusData.p_runnerClientStatus := Some c;
                   RunnerStatusData.p_runnerClientOS := Some os |}
              = {| RunnerStatusData.sessionId := RunnerStatusData.sessionId (_runnerStatusData w);
                   RunnerStatusData.runnerStatus :=
                     RunnerStatusData.runnerStatus (_runnerStatusData w);
                   RunnerStatusData.runnerError :=
                     RunnerStatusData.runnerError (_runnerStatusData w);
                   RunnerStatusData.runnerClientStatus := c;
                   RunnerStatusData.runnerClientOS := os |}).
  { by destruct Hw' as [-> | ->]. }
  cbn in E. rewrite E. split; [reflexivity|]. split; [extends_trace|].
  split; [read_since; by_kind is_transport_call|].
  intros Hst. read_since. rewrite notifications_fmap.
  unfold Earlier.statusNotifications. cbn. rewrite Hst. reflexivity.
Qed.

(** X11. A runner-status event records the status and the operating system
    of the runner client and leaves the session id, the status and the error
    as they are. In the revision with [disconnectRunner] the listener is on
    the socket once: an online client is asked for its terminals and then
    for its port forwarding, on the socket the event came over; an offline
    one is asked nothing; in SessionStarted the one notification made
    carries the text for the status received. In the earlier revision the
    listener runs once for each registration on the socket: it asks
    nothing, records the status when it is registered at all, and in
    SessionStarted notifies once for each registration. *)
Theorem runnerStatus_event (w : World) (sk : Socket) (c : RunnerClientStatus.t)
    (os : option string) :
  let wc := exec (Current.on_runnerStatus sk c os) w in
  let we := exec (Earlier.deliver_runnerStatus sk c os) w in
  let d' := {| RunnerStatusData.sessionId := RunnerStatusData.sessionId (_runnerStatusData w);
               RunnerStatusData.runnerStatus := status w;
               RunnerStatusData.runnerError := last_error w;
               RunnerStatusData.runnerClientStatus := c;
               RunnerStatusData.runnerClientOS := os |} in
  _runnerStatusData wc = d' ∧
  _runnerStatusData we = (if Nat.eqb (registered w sk) 0 then _runnerStatusData w else d') ∧
  filter (λ e, is_transport_call e = true) (since w wc) =
    (if RunnerClientStatus.eqb c RunnerClientStatus.Online
     then [Emit sk FetchCurrentTerminals; Emit sk FetchCurrentPortForwarding] else []) ∧
  filter (λ e, is_transport_call e = true) (since w we) = [] ∧
  (status w = RunnerStatus.SessionStarted →
   notifications (since w wc) = [payload d' message (Some (Text (session_started_text c)))] ∧
   notifications (since w we) =
     replicate (registered w sk) (payload d' message (Some (Text (session_started_text c))))).
Proof.
  intros wc we d'.
  assert (Hc : _runnerStatusData wc = d' ∧
               filter (λ e, is_transport_call e = true) (since w wc) =
                 (if RunnerClientStatus.eqb c RunnerClientStatus.Online
                  then [Emit sk FetchCurrentTerminals; Emit sk FetchCurrentPortForwarding]
                  else []) ∧
               (status w = RunnerStatus.SessionStarted →
                notifications (since w wc)
                = [payload d' message (Some (Text (session_started_text c)))])).
  { subst wc we d'. unfold status, last_error. fields w. destruct c; cbn.
    all: split; [reflexivity|].
    all: split; [transport_calls|].
    all: intros ->; read_since; reflexivity. }
  destruct Hc as (Hc1 & Hc2 & Hc3).
  set (P := λ w' : World, _runnerStatusData w' = _runnerStatusData w ∨ _runnerStatusData w' = d').
  set (ms := (λ _ : nat, Earlier.on_runnerStatus c os) <$> seq 0 (registered w sk)).
  assert (Hwe : we = exec (in_turn ms) w) by apply exec_deliver.
  assert (Hlen : length ms = registered w sk) by (subst ms; by rewrite length_fmap, length_seq).
  assert (Hrun : Forall (λ m, ∀ w', P w' → P (exec m w') ∧ extends w' (exec m w') ∧
                   filter (λ e, is_transport_call e = true) (since w' (exec m w')) = []) ms).
  { apply Forall_fmap, Forall_forall. intros i _ w' Hw'.
    destruct (on_runnerStatus_run_earlier w w' c os Hw') as (H1 & H2 & H3 & _).
    split; [by right|]. by split. }
  destruct (in_turn_calls P is_transport_call [] ms w Hrun (or_introl eq_refl))
    as (_ & _ & Ht).
  rewrite <- Hwe, mjoin_replicate_nil in Ht.
  split; [exact Hc1|]. split.
  { rewrite Hwe. subst ms. destruct (registered w sk) as [|n]; [reflexivity|].
    cbn [seq fmap list_fmap Nat.eqb]. rewrite exec_in_turn_cons.
    destruct (on_runnerStatus_run_earlier w w c os (or_introl eq_refl)) as (H1 & _).
    apply (in_turn_preserves (λ w', _runnerStatusData w' = d')); [|exact H1].
    apply Forall_fmap, Forall_forall. intros i _ w' Hw'.
    by destruct (on_runnerStatus_run_earlier w w' c os (or_intror Hw')) as (? & _). }
  split; [exact Hc2|]. split; [exact Ht|]. intros Hst. split; [by apply Hc3|].
  destruct (in_turn_gathers P notifications
              [payload d' message (Some (Text (session_started_text c)))] ms w)
    as (_ & _ & Hn); [done|apply omap_app| |by left|].
  { apply Forall_fmap, Forall_forall. intros i _ w' Hw'.
    destruct (on_runnerStatus_run_earlier w w' c os Hw') as (H1 & H2 & _ & H4).
    split; [by right|]. split; [done|]. by apply H4. }
  by rewrite <- Hwe, Hlen, mjoin_replicate_singleton in Hn.
Qed.

Lemma runnerStatus_event_witness :
  status started_current = RunnerStatus.SessionStarted ∧
  notifications (since started_current online_current)
  = [payload (_runnerStatusData online_current) message
       (Some (Text "Runner client connected. Happy hacking!"))].
Proof.
  assert (Hst : status started_current = RunnerStatus.SessionStarted) by reflexivity.
  split; [exact Hst|].
  destruct (runnerStatus_event started_current 1%nat RunnerClientStatus.Online (Some "linux"))
    as (Hd & _ & _ & _ & Hn).
  destruct (Hn Hst) as [Hn' _]. unfold online_current. rewrite Hd. exact Hn'.
Defined.


(** ** Connecting without a conflict *)

Lemma conflicting_None (w : World) (d : SessionData.t) :
  no_conflict w d → Current.conflicting (globalState w !! SessionData.githubRef d) d = None.
Proof.
  unfold no_conflict, Current.conflicting. intros H.
  destruct (globalState w !! SessionData.githubRef d) as [e|]; [|done].
  destruct (truthy (SessionData.sessionId e)) eqn:Ht; [|done].
  rewrite bool_decide_false; [done|]. intros Hne. apply Hne. by apply H.
Qed.

(** X12. When the ref has no persisted session, or one without an id, or
    one with the requested id, [connectTo] asks nothing and goes ahead, in
    both revisions: the socket held before is disconnected (and no longer
    connected), a socket is made for the address of the request, and the
    object holds the request as its session data and the new socket, has no
    terminal, is Connecting with the peer offline and the requested id in its
    status data, with the connection timeout of the new socket armed. The
    promise stays pending and the persisted sessions are not touched. *)
Theorem connectTo_without_conflict (w : World) (d : SessionData.t) (answer : option string)
    (sk : Socket) :
  no_conflict w d →
  let rc := Current.connectTo d answer sk w in
  let re := Earlier.connectTo d answer sk w in
  (rc.1 = None ∧
   filter (λ e, is_prompt e = true) (since w rc.2) = [] ∧
   filter (λ e, is_transport_call e = true) (since w rc.2) =
     match socket w with
     | Some old => [SocketDisconnect old; Io sk (SessionData.serverAddress d)]
     | None => [Io sk (SessionData.serverAddress d)]
     end ∧
   (∀ old, socket w = Some old → old ∉ connected rc.2) ∧
   _data rc.2 = Some d ∧ socket rc.2 = Some sk ∧ _terminals rc.2 = [] ∧
   status rc.2 = RunnerStatus.Connecting ∧ peer rc.2 = RunnerClientStatus.Offline ∧
   last_error rc.2 = None ∧
   RunnerStatusData.sessionId (_runnerStatusData rc.2) = SessionData.sessionId d ∧
   ConnectTimeout sk ∈ timers rc.2 ∧
   globalState rc.2 = globalState w) ∧
  (re.1 = None ∧
   filter (λ e, is_prompt e = true) (since w re.2) = [] ∧
   filter (λ e, is_transport_call e = true) (since w re.2) =
     match socket w with
     | Some old => [SocketDisconnect old; Io sk (SessionData.serverAddress d)]
     | None => [Io sk (SessionData.serverAddress d)]
     end ∧
   (∀ old, socket w = Some old → old ∉ connected re.2) ∧
   _data re.2 = Some d ∧ socket re.2 = Some sk ∧ _terminals re.2 = [] ∧
   status re.2 = RunnerStatus.Connecting ∧ peer re.2 = RunnerClientStatus.Offline ∧
   RunnerStatusData.sessionId (_runnerStatusData re.2) = SessionData.sessionId d ∧
   ConnectTimeout sk ∈ timers re.2 ∧
   globalState re.2 = globalState w).
Proof.
  intros Hno rc re. subst rc re. apply conflicting_None in Hno. revert Hno.
  unfold status, peer, last_error. fields w. cbn. intros ->. cbn.
  destruct s as [old|]; cbn; [destruct (bool_decide (old ∈ c)) eqn:Hc; cbn|].
  all: destruct p; cbn.
  all: try (destruct st; cbn).
  all: split.
  all: split; [reflexivity|].
  all: split; [read_since; by_kind is_prompt|].
  all: split; [read_since; by_kind is_transport_call|].
  all: split;
    [ first [ intros ? [= <-];
              first [ apply bool_decide_eq_false_1 in Hc; exact Hc
                    | apply not_elem_of_filter_ne ]
            | done ] |].
  all: repeat (split; [reflexivity|]).
  all: split; [|reflexivity].
  all: rewrite ?elem_of_app, ?elem_of_cons; auto.
Qed.

Lemma connectTo_without_conflict_witness :
  (Current.connectTo (session_request (Some "old")) None 1%nat persisted_current).1 = None ∧
  status (Current.connectTo (session_request (Some "old")) None 1%nat persisted_current).2
    = RunnerStatus.Connecting.
Proof.
  assert (Hno : no_conflict persisted_current (session_request (Some "old"))).
  { intros e He _. vm_compute in He. by injection He as <-. }
  destruct (connectTo_without_conflict persisted_current (session_request (Some "old")) None
              1%nat Hno) as [(Hr & _ & _ & _ & _ & _ & _ & Hst & _) _].
  by split.
Defined.

Lemma on_connect_current (w : World) (sk : Socket) :
  let w' := exec (Current.on_connect sk) w in
  filter (λ e, is_transport_call e = true) (since w w') = [Emit sk (SetType (held_sessionId w))] ∧
  status w' = RunnerStatus.Connected ∧
  sk ∈ connected w' ∧
  _data w' = _data w ∧
  notifications (since w w') =
    [payload (_runnerStatusData w') message (Some (Text (connected_text (held_sessionId w))))] ∧
  last (since w w') = Some (Resolve sk true).
Proof.
  unfold status, held_sessionId. fields w. cbn.
  split; [read_since; by_kind is_transport_call|].
  split; [reflexivity|]. split; [left|]. split; [reflexivity|].
  read_since. split; [reflexivity|]. last_call.
Qed.

Lemma on_connect_earlier (w : World) (sk : Socket) :
  let w' := exec (Earlier.on_connect sk) w in
  filter (λ e, is_transport_call e = true) (since w w') = [Emit sk (SetType (held_sessionId w))] ∧
  status w' = RunnerStatus.Connected ∧
  sk ∈ connected w' ∧
  _data w' = _data w ∧
  notifications (since w w') =
    [payload (_runnerStatusData w') message (Some (Text (connected_text (held_sessionId w))))].
Proof.
  unfold status, held_sessionId. fields w. cbn.
  split; [read_since; by_kind is_transport_call|].
  split; [reflexivity|]. split; [left|]. split; [reflexivity|].
  read_since. reflexivity.
Qed.

Lemma connectTo_proceeds_earlier (w : World) (req : SessionData.t) (answer : option string)
    (sk : Socket) :
  eval (Earlier.connectTo req answer sk) w = None →
  _data (exec (Earlier.connectTo req answer sk) w) = Some req.
Proof.
  fields w. cbn.
  destruct (Current.conflicting _ _); cbn;
    [destruct (bool_decide (answer = Some "Continue")); cbn; [|done]|].
  all: intros _.
  all: destruct s as [sk'|]; cbn; [destruct (bool_decide (sk' ∈ c)); cbn|]; destruct p; cbn.
  all: try (destruct st; cbn).
  all: done.
Qed.

(** X13. The handshake. When a [connectTo] has gone ahead and its socket
    connects, the one message sent is the set-type message with the session
    id of the request (none for a new session), on that socket; the status
    is Connected, the id held is the requested one, and the one notification
    made says whether a session is resumed or requested. In the revision
    with [disconnectRunner] the promise of [connectTo] resolves to [true]
    at this point, before any session has started. *)
Theorem connect_handshake (w : World) (d : SessionData.t) (answer : option string)
    (sk : Socket) :
  let w1 := exec (Current.connectTo d answer sk) w in
  let w2 := exec (Current.on_connect sk) w1 in
  let e1 := exec (Earlier.connectTo d answer sk) w in
  let e2 := exec (Earlier.on_connect sk) e1 in
  (eval (Current.connectTo d answer sk) w = None →
   filter (λ e, is_transport_call e = true) (since w1 w2)
     = [Emit sk (SetType (SessionData.sessionId d))] ∧
   notifications (since w1 w2) =
     [payload (_runnerStatusData w2) message
        (Some (Text (connected_text (SessionData.sessionId d))))] ∧
   status w2 = RunnerStatus.Connected ∧ sk ∈ connected w2 ∧
   held_sessionId w2 = SessionData.sessionId d ∧
   last (since w1 w2) = Some (Resolve sk true)) ∧
  (eval (Earlier.connectTo d answer sk) w = None →
   filter (λ e, is_transport_call e = true) (since e1 e2)
     = [Emit sk (SetType (SessionData.sessionId d))] ∧
   notifications (since e1 e2) =
     [payload (_runnerStatusData e2) message
        (Some (Text (connected_text (SessionData.sessionId d))))] ∧
   status e2 = RunnerStatus.Connected ∧ sk ∈ connected e2 ∧
   held_sessionId e2 = SessionData.sessionId d).
Proof.
  intros w1 w2 e1 e2. split; intros Hgo.
  - destruct (connectTo_proceeds w d answer sk Hgo) as (_ & _ & _ & _ & _ & _ & Hd).
    fold w1 in Hd.
    destruct (on_connect_current w1 sk) as (Ht & Hst & Hc & Hd' & Hn & Hl).
    fold w2 in Ht, Hst, Hc, Hd', Hn, Hl.
    assert (Hheld : held_sessionId w1 = SessionData.sessionId d)
      by (unfold held_sessionId, eval, sessionId, gets; cbn [fst]; by rewrite Hd).
    rewrite Hheld in Ht, Hn. repeat (split; [done|]). exact Hl.
  - pose proof (connectTo_proceeds_earlier w d answer sk Hgo) as Hd. fold e1 in Hd.
    destruct (on_connect_earlier e1 sk) as (Ht & Hst & Hc & Hd' & Hn).
    fold e2 in Ht, Hst, Hc, Hd', Hn.
    assert (Hheld : held_sessionId e1 = SessionData.sessionId d)
      by (unfold held_sessionId, eval, sessionId, gets; cbn [fst]; by rewrite Hd).
    rewrite Hheld in Ht, Hn. repeat (split; [done|]).
    unfold held_sessionId, eval, sessionId, gets. cbn [fst]. by rewrite Hd', Hd.
Qed.

Lemma connect_handshake_witness :
  filter (λ e, is_transport_call e = true)
    (since (exec (Current.connectTo (session_request (Some "abc")) None 1%nat) fresh_current)
       resuming_current)
  = [Emit 1%nat (SetType (Some "abc"))].
Proof.
  apply (connect_handshake fresh_current (session_request (Some "abc")) None 1%nat).
  reflexivity.
Defined.

Lemma sessionStarted_persisted_current (w : World) (d : SessionData.t) (sid : string) :
  truthy (held_sessionId w) = false ∨ held_sessionId w = Some sid →
  globalState (exec (Current.on_sessionStarted d sid) w)
  = <[SessionData.githubRef d := SessionData.with_sessionId d (Some sid)]> (globalState w).
Proof.
  unfold held_sessionId. fields w. cbn. intros Hacc.
  assert (Hm : truthy (d0 ≫= SessionData.sessionId)
               && bool_decide (d0 ≫= SessionData.sessionId ≠ Some sid) = false).
  { destruct Hacc as [-> | ->]; [done|]. rewrite bool_decide_false by (by intros []).
    apply andb_false_r. }
  rewrite Hm. cbn.
  destruct (truthy (d0 ≫= SessionData.sessionId)) eqn:Hheld; cbn.
  - destruct (truthy (Some sid)); cbn; [destruct d0; cbn|]; destruct s; done.
  - destruct (truthy (Some sid)); cbn; [destruct d0 as [d1|]; cbn|].
    all: destruct (isGitHubActions _ _); cbn; try done.
    all: try (destruct (launch_data _); cbn; [destruct h|]; done).
Qed.

Lemma connectTo_prompts (w : World) (d : SessionData.t) (answer : option string) (sk : Socket) :
  filter (λ e, is_prompt e = true) (since w (exec (Current.connectTo d answer sk) w)) =
    match Current.conflicting (globalState w !! SessionData.githubRef d) d with
    | Some old => [ShowInformationMessage old]
    | None => []
    end.
Proof.
  fields w. cbn.
  destruct (Current.conflicting _ _); cbn;
    [destruct (bool_decide (answer = Some "Continue")); cbn|].
  2: read_since; by_kind is_prompt.
  all: destruct s as [sk'|]; cbn;
    [destruct (bool_decide (sk' ∈ c)) eqn:Hc; cbn|]; destruct p; cbn.
  all: read_since; by_kind is_prompt.
Qed.

(** X19. Resuming is no conflict. A session-started event that is accepted
    persists the request of its [connectTo] with the id received, under the
    ref of the request. A later [connectTo] for that ref asks nothing when
    it carries that id, and otherwise (another id, or none) asks once,
    naming the id of the session that was started. *)
Theorem reconnect_after_sessionStarted (w : World) (d d' : SessionData.t) (sid : string)
    (answer : option string) (sk : Socket) :
  truthy (held_sessionId w) = false ∨ held_sessionId w = Some sid →
  sid ≠ "" →
  SessionData.githubRef d' = SessionData.githubRef d →
  let w1 := exec (Current.on_sessionStarted d sid) w in
  let w2 := exec (Current.connectTo d' answer sk) w1 in
  globalState w1 !! SessionData.githubRef d = Some (SessionData.with_sessionId d (Some sid)) ∧
  filter (λ e, is_prompt e = true) (since w1 w2) =
    (if bool_decide (SessionData.sessionId d' = Some sid) then []
     else [ShowInformationMessage sid]).
Proof.
  intros Hacc Hsid Href w1 w2.
  pose proof (sessionStarted_persisted_current w d sid Hacc) as Hg. fold w1 in Hg.
  assert (Hl : globalState w1 !! SessionData.githubRef d
               = Some (SessionData.with_sessionId d (Some sid)))
    by (rewrite Hg; apply lookup_insert_eq).
  split; [exact Hl|]. subst w2. rewrite connectTo_prompts, Href, Hl.
  unfold Current.conflicting, truthy. cbn.
  destruct (String.eqb_spec sid ""); [done|]. cbn.
  case_bool_decide as H1; case_bool_decide as H2; try done; congruence.
Qed.

Lemma reconnect_after_sessionStarted_witness :
  filter (λ e, is_prompt e = true)
    (since (exec (Current.on_sessionStarted (session_request None) "abc") connected_current)
       (exec (Current.connectTo (session_request None) None 2%nat)
          (exec (Current.on_sessionStarted (session_request None) "abc") connected_current)))
  = [ShowInformationMessage "abc"].
Proof.
  assert (Hsid : "abc" ≠ "") by discriminate.
  exact (proj2 (reconnect_after_sessionStarted connected_current (session_request None)
                  (session_request None) "abc" None 2%nat (or_introl eq_refl) Hsid eq_refl)).
Defined.


(** ** Launching the runner client *)

(** X18. The guards of [launchRunnerClient]. For a runner that is not a
    GitHub Actions runner of the list, or without session data, nothing at
    all is done. For a GitHub Actions runner whose session data lacks the
    ref, or has an undefined or empty os, address or session id, the only
    thing done is one error notification with the no-data text. Otherwise
    the revision with [disconnectRunner] cancels the recorded
    workflow-dispatch timeout, if there is one, and calls
    [setupRunnerClientRepo]; the earlier revision calls the launcher with
    the address, the os and the session id. *)
Theorem launchRunnerClient_guards (w : World) :
  let wc := exec Current.launchRunnerClient w in
  let we := exec Earlier.launchRunnerClient w in
  let no_data := [OnUpdate (payload (_runnerStatusData w) error (Some no_data_text))] in
  if negb (isGitHubActions (allRunners w) (SessionData.serverAddress <$> _data w))
  then wc = w ∧ we = w
  else
    match _data w with
    | Some d =>
        if complete d then
          since w wc =
            match _workflowDispatchTimeout w with
            | Some h => [ClearTimeout (WorkflowDispatchTimeout h); SetupRunnerClientRepo]
            | None => [SetupRunnerClientRepo]
            end ∧
          we = set_trace
                 (trace w ++ [LaunchRunnerClient (SessionData.serverAddress d)
                                (default "" (SessionData.os d))
                                (default "" (SessionData.sessionId d))]) w
        else wc = set_trace (trace w ++ no_data) w ∧ we = set_trace (trace w ++ no_data) w
    | None => False
    end.
Proof.
  fields w. destruct d as [d0|].
  - cbn. destruct (isGitHubActions _ _) eqn:Hgha; cbn; [|done].
    rewrite launch_data_complete. destruct (complete d0); cbn; [|done].
    destruct h; cbn; (split; [since_trace|reflexivity]).
  - unfold isGitHubActions. cbn. done.
Qed.

(** ** The shell of a terminal *)

Lemma activateTerminal_through (w : World) (file : option string) (newId : string)
    (now : Dayjs) :
  peer w = RunnerClientStatus.Online →
  let w' := exec (Current.activateTerminal file false newId now) w in
  _terminals w' = _terminals w ++ [activated newId (chosen_shell file w) now] ∧
  _data w' = _data w ∧
  _runnerStatusData w' = _runnerStatusData w ∧
  socket w' = socket w ∧
  globalState w' =
    match _data w with
    | Some d => <[SessionData.githubRef d := SessionData.with_defaultShell d file]> (globalState w)
    | None => globalState w
    end.
Proof.
  unfold peer, chosen_shell. fields w. cbn. intros ->. cbn.
  destruct ts, p, vis, s, d as [[? ? ? ? [?|]]|], file; cbn; done.
Qed.

(** X17. [activateTerminal] persists the shell it was given as the default
    shell of the ref, and never updates the session data of the object. So
    after a terminal was activated with a shell, a terminal activated
    without one still gets the shell that the request of [connectTo]
    carried, or the default of the operating system, not the shell chosen
    last; and that second activation persists an undefined default shell
    over the one persisted by the first. *)
Theorem activateTerminal_default_shell (w : World) (f : string) (id1 id2 : string)
    (now1 now2 : Dayjs) :
  peer w = RunnerClientStatus.Online →
  let w1 := exec (Current.activateTerminal (Some f) false id1 now1) w in
  let w2 := exec (Current.activateTerminal None false id2 now2) w1 in
  _data w2 = _data w ∧
  _terminals w2 = _terminals w ++ [activated id1 (ShellPath f) now1;
                                   activated id2 (chosen_shell None w) now2] ∧
  (∀ d, _data w = Some d →
     globalState w1 !! SessionData.githubRef d = Some (SessionData.with_defaultShell d (Some f)) ∧
     globalState w2 !! SessionData.githubRef d = Some (SessionData.with_defaultShell d None)).
Proof.
  intros Hon w1 w2.
  destruct (activateTerminal_through w (Some f) id1 now1 Hon) as (Ht1 & Hd1 & Hr1 & Hs1 & Hg1).
  fold w1 in Ht1, Hd1, Hr1, Hs1, Hg1.
  assert (Hon1 : peer w1 = RunnerClientStatus.Online) by (unfold peer in *; by rewrite Hr1).
  destruct (activateTerminal_through w1 None id2 now2 Hon1) as (Ht2 & Hd2 & Hr2 & Hs2 & Hg2).
  fold w2 in Ht2, Hd2, Hr2, Hs2, Hg2.
  split; [congruence|]. split.
  - rewrite Ht2, Ht1, <- (assoc_L (++)). cbn. do 3 f_equal.
    unfold chosen_shell. by rewrite Hd1, Hr1.
  - intros d Hd. rewrite Hg2, Hd1, Hg1, Hd. by rewrite !lookup_insert_eq.
Qed.

Lemma activateTerminal_default_shell_witness :
  TerminalOptions.file ∘ TerminalInstance.options <$>
    _terminals (exec (Current.activateTerminal None false "T2" 5)
                  (exec (Current.activateTerminal (Some "zsh") false "T1" 0) online_current))
  = [ShellPath "zsh"; DefaultShell (Some "linux")].
Proof.
  assert (Hon : peer online_current = RunnerClientStatus.Online) by reflexivity.
  destruct (activateTerminal_default_shell online_current "zsh" "T1" "T2" 0 5 Hon)
    as (_ & -> & _).
  reflexivity.
Defined.


(** ** Without a socket

    In every world a session of the revision with [disconnectRunner] can
    reach, an object that holds no socket has no session. *)

Ltac idle_tac :=
  solve
    [ unfold idle_without_socket, idle, status, peer in *; cbn in *;
      let Hs := fresh "Hs" in
      intros Hs;
      first
        [ discriminate Hs
        | by auto 10
        | match goal with
          | H : _ = None → _ |- _ =>
              destruct (H Hs) as ([?|?] & ? & ? & ?);
              try discriminate; subst; cbn in *; try discriminate; by auto 10
          end ] ].

Lemma disconnectRunner_idle e w : idle (exec (Current.disconnectRunner e) w).
Proof.
  destruct (disconnectRunner_spec w e) as (Hd & Hts & _ & Hrsd & _).
  unfold idle, status, peer. rewrite Hrsd, Hd, Hts. auto.
Qed.

Lemma activateTerminal_idle file skp newId now w :
  idle_without_socket w →
  idle_without_socket (exec (Current.activateTerminal file skp newId now) w).
Proof.
  intros H. fields w. cbn. destruct cs; cbn; [idle_tac|].
  destruct skp, ts as [|t ts]; cbn; try idle_tac.
  all: destruct p, vis, s, d; idle_tac.
Qed.

Lemma launchRunnerClient_resume_idle d owner repo h w :
  idle_without_socket w →
  idle_without_socket (exec (Current.launchRunnerClient_resume d owner repo h) w).
Proof.
  intros H. fields w. cbn. destruct (launch_data d) as [[[[? ?] ?] ?]|]; cbn; [|idle_tac].
  destruct owner as [o|]; cbn; [|idle_tac]. destruct repo as [r|]; cbn; [|idle_tac].
  destruct (negb _ && _); idle_tac.
Qed.

Lemma on_connect_timeout_idle sk w :
  idle_without_socket w →
  idle_without_socket (exec (Current.on_connect_timeout sk) w).
Proof.
  intros H. fields w. cbn. destruct (bool_decide (ConnectTimeout sk ∈ tm)); cbn; [|idle_tac].
  destruct st; cbn; try idle_tac.
  all: destruct (bool_decide (sk ∈ c)) eqn:Hc; cbn; idle_tac.
Qed.

Lemma terminate_idle answer w :
  idle_without_socket w →
  idle_without_socket (exec (Current.terminate answer) w).
Proof.
  intros H. unfold Current.terminate. rewrite exec_bind.
  destruct (bool_decide (answer = Some "OK")) eqn:E.
  - intros _. rewrite !exec_bind.
    match goal with |- idle (exec (ret true) ?w') => change (exec (ret true) w') with w' end.
    apply disconnectRunner_idle.
  - fields w. cbn. idle_tac.
Qed.

Lemma connectTo_idle req answer sk w :
  idle_without_socket w →
  idle_without_socket (exec (Current.connectTo req answer sk) w).
Proof.
  intros H. fields w. cbn.
  destruct (Current.conflicting _ _); cbn;
    [destruct (bool_decide (answer = Some "Continue")); cbn|].
  2: idle_tac.
  all: destruct s as [sk'|]; cbn;
    [destruct (bool_decide (sk' ∈ c)) eqn:Hc; cbn|]; destruct p; cbn.
  all: idle_tac.
Qed.

(** A step that keeps the socket of a world that has one. *)
Lemma socket_kept_idle w w' :
  is_Some (socket w) → socket w' = socket w → idle_without_socket w'.
Proof. intros [sk Hs] Hs' Hnone. congruence. Qed.

(** A run of the once-listener: on an object with a socket it keeps the
    socket or tears the session down; on an object without one, which has no
    id to compare with, it leaves the status SessionStarted. *)
Lemma on_sessionStarted_idle req sid w :
  idle_without_socket w → idle_without_socket (exec (Current.on_sessionStarted req sid) w).
Proof.
  intros Hidle. destruct (socket w) as [sk|] eqn:Hsock.
  - destruct (mismatch w sid) eqn:Hm.
    + apply andb_true_iff in Hm as [Hheld Hne%bool_decide_eq_true_1].
      unfold exec. rewrite (sessionStarted_mismatch_current w req sid Hheld Hne).
      intros _. apply disconnectRunner_idle.
    + destruct (sessionStarted_accepted_current w req sid Hm) as (_ & Hs & _).
      eapply socket_kept_idle; [by eexists|exact Hs].
  - destruct (Hidle Hsock) as (_ & Hp & Hts & Hd).
    destruct (sessionStarted_without_data w req sid Hd)
      as (H1 & _ & _ & H4 & H5 & _ & _ & H8 & _).
    intros _. unfold idle. rewrite H1, H4, H5, H8. auto.
Qed.

Lemma deliver_sessionStarted_idle sk req sid w :
  idle_without_socket w →
  idle_without_socket (exec (Current.deliver_sessionStarted sk req sid) w).
Proof.
  intros Hidle. rewrite exec_deliver_sessionStarted.
  apply in_turn_preserves; [|exact Hidle].
  apply Forall_replicate. intros w'. apply on_sessionStarted_idle.
Qed.

Lemma idle_step_current w w' :
  step_current w w' → transport_invariant w → idle_without_socket w → idle_without_socket w'.
Proof.
  intros Hstep [Hconn _] Hinv. destruct Hstep as
    [w req answer sk Hfresh | w sk Hheld | w sk Hin | w sk req sid Hin | w sk Hin
    | w sk ts newId now Hin | w sk port Hin | w sk terminalId now Hin | w sk c os Hin
    | w sk | w d owner repo h | w e | w answer | w file skp newId now | w port
    | w visible | w].
  16: exact Hinv.
  16: exact Hinv.
  - by apply connectTo_idle.
  - eapply socket_kept_idle; [by eexists|]. fields w. reflexivity.
  - eapply socket_kept_idle; [eexists; by apply Hconn|]. apply on_disconnect_transport_current.
  - by apply deliver_sessionStarted_idle.
  - intros _. apply disconnectRunner_idle.
  - eapply socket_kept_idle; [eexists; by apply Hconn|].
    apply on_currentTerminals_transport_current.
  - eapply socket_kept_idle; [eexists; by apply Hconn|]. fields w. reflexivity.
  - eapply socket_kept_idle; [eexists; by apply Hconn|]. apply on_terminalClosed_with_transport.
  - eapply socket_kept_idle; [eexists; by apply Hconn|]. fields w. by destruct c.
  - by apply on_connect_timeout_idle.
  - by apply launchRunnerClient_resume_idle.
  - intros _. apply disconnectRunner_idle.
  - by apply terminate_idle.
  - by apply activateTerminal_idle.
  - fields w. cbn. destruct s; idle_tac.
Qed.

Lemma reachable_current_idle_invariant (w : World) :
  reachable_current w → transport_invariant w ∧ idle_without_socket w.
Proof.
  intros (g & rs & Hrtc). revert w Hrtc. apply rtc_ind_r.
  - split; [split; [by intros ? ?%elem_of_nil|discriminate]|]. intros _.
    unfold idle. cbn. auto.
  - intros w1 w2 _ Hstep [Ht Hi]. split.
    + by eapply transport_invariant_step_current.
    + by eapply idle_step_current.
Qed.

Lemma reachable_online_current : reachable_current online_current.
Proof.
  exists ∅, [github_runner].
  unfold online_current, started_current, connected_current, fresh_current.
  eapply rtc_r; [|apply (step_runnerStatus _ 1%nat RunnerClientStatus.Online (Some "linux"))].
  2: { vm_compute. left. }
  eapply rtc_r; [|apply (step_sessionStarted _ 1%nat (session_request None) "abc")].
  2: { vm_compute. left. }
  eapply rtc_r; [|apply (step_connect _ 1%nat); vm_compute; reflexivity].
  eapply rtc_once, (step_connectTo _ (session_request None) None 1%nat).
  intros a Hin. by apply elem_of_nil in Hin.
Qed.

Lemma reachable_mismatched_current : reachable_current mismatched_current.
Proof.
  exists ∅, [github_runner].
  unfold mismatched_current, reconnected_current, fresh_current.
  eapply rtc_r; [|apply (step_sessionStarted _ 1%nat (session_request (Some "abc")) "xyz")].
  2: { vm_compute. left. }
  eapply rtc_r; [|apply (step_connect _ 1%nat); vm_compute; reflexivity].
  eapply rtc_r; [|apply (step_disconnect _ 1%nat); vm_compute; left].
  eapply rtc_r; [|apply (step_connect _ 1%nat); vm_compute; reflexivity].
  eapply rtc_once, (step_connectTo _ (session_request (Some "abc")) None 1%nat).
  intros a Hin. by apply elem_of_nil in Hin.
Qed.

(** X15. In every world a session of the revision with [disconnectRunner]
    reaches from a fresh object, by calls of its methods, events of its
    sockets and expiring timers in any order, an object that holds no socket
    has no session: the peer is offline, it has no terminal and no session
    data, and no socket is connected. Its status is the initial one or
    SessionStarted, and no other; SessionStarted is what a second
    session-started listener leaves when the first one has torn the session
    down. *)
Theorem reachable_current_idle (w : World) :
  reachable_current w → socket w = None →
  (status w = RunnerStatus.Initial ∨ status w = RunnerStatus.SessionStarted) ∧
  peer w = RunnerClientStatus.Offline ∧
  _terminals w = [] ∧ _data w = None ∧ connected w = [].
Proof.
  intros [[Hconn _] Hidle]%reachable_current_idle_invariant Hnone.
  destruct (Hidle Hnone) as (? & ? & ? & ?). repeat (split; [done|]).
  destruct (connected w) as [|sk l] eqn:E; [done|].
  specialize (Hconn sk ltac:(left)). congruence.
Qed.

Lemma reachable_current_idle_witness :
  socket mismatched_current = None ∧
  status mismatched_current = RunnerStatus.SessionStarted ∧
  _data mismatched_current = None ∧ connected mismatched_current = [].
Proof.
  assert (Hnone : socket mismatched_current = None) by (vm_compute; reflexivity).
  assert (Hst : status mismatched_current = RunnerStatus.SessionStarted)
    by (vm_compute; reflexivity).
  split; [exact Hnone|]. split; [exact Hst|].
  destruct (reachable_current_idle mismatched_current reachable_mismatched_current Hnone)
    as (_ & _ & _ & Hd & Hc).
  by split.
Defined.

(** X16. [deliverPortForwardingData] makes exactly one call in every world
    a session reaches, and changes nothing. With the session started and the
    peer online it asks the runner client for the current port forwarding,
    on the socket held, which is there; in every other state it tells the
    handler that no port is forwarded. *)
Theorem deliverPortForwardingData_reachable (w : World) :
  reachable_current w →
  let w' := exec deliverPortForwardingData w in
  w' = set_trace (trace w') w ∧
  if RunnerStatus.eqb (status w) RunnerStatus.SessionStarted
     && RunnerClientStatus.eqb (peer w) RunnerClientStatus.Online
  then ∃ sk, socket w = Some sk ∧ since w w' = [Emit sk FetchCurrentPortForwarding]
  else since w w' = [OnPortForwardingUpdate None].
Proof.
  intros Hreach. pose proof (reachable_current_online w Hreach) as Honline. clear Hreach.
  revert Honline.
  unfold status, peer. fields w. cbn. intros Honline.
  destruct st, cs; cbn; try (split; [reflexivity|since_trace]).
  destruct (Honline eq_refl) as [sk ->]. cbn. split; [reflexivity|].
  exists sk. split; [reflexivity|since_trace].
Qed.

Lemma deliverPortForwardingData_reachable_witness :
  since online_current (exec deliverPortForwardingData online_current)
  = [Emit 1%nat FetchCurrentPortForwarding].
Proof.
  destruct (deliverPortForwardingData_reachable online_current reachable_online_current)
    as [_ (sk & Hsk & Hs)].
  vm_compute in Hsk. injection Hsk as <-. exact Hs.
Defined.

(** ** The earlier revision *)




(** X21. The connection timeout of the earlier revision. An armed timeout
    that expires is armed no more. In Disconnected, Connecting or Connected
    it disconnects its socket (whose disconnect listener empties the
    registry when the socket was connected), leaves the status
    SessionTimeout with the peer offline and no session id in the status
    data, notifies the timeout as an error, and resolves the promise of
    [connectTo] to [false] last. In any other status nothing else
    happens. *)
Theorem connect_timeout_earlier (w : World) (sk : Socket) :
  ConnectTimeout sk ∈ timers w →
  let w' := exec (Earlier.on_connect_timeout sk) w in
  (ConnectTimeout sk ∉ timers w') ∧
  if RunnerStatus.includes
       [RunnerStatus.Disconnected; RunnerStatus.Connected; RunnerStatus.Connecting] (status w)
  then
    _runnerStatusData w' = reset_statusData RunnerStatus.SessionTimeout (last_error w) ∧
    (sk ∉ connected w') ∧
    _terminals w' = (if bool_decide (sk ∈ connected w) then [] else _terminals w) ∧
    filter (λ e, is_transport_call e = true) (since w w') = [SocketDisconnect sk] ∧
    OnUpdate (payload (_runnerStatusData w') error (Some timeout_text)) ∈ since w w' ∧
    last (since w w') = Some (Resolve sk false)
  else
    w' = set_timers (filter (λ t, t ≠ ConnectTimeout sk) (timers w)) w.
Proof.
  unfold status, last_error. fields w. cbn. intros Hin. rewrite bool_decide_true by done. cbn.
  destruct st; cbn.
  all: try (split; [apply not_elem_of_filter_ne|reflexivity]).
  all: destruct (bool_decide (sk ∈ c)) eqn:Hc; cbn; try destruct p; cbn.
  all: split; [apply not_elem_of_filter_ne|].
  all: split; [reflexivity|].
  all: split; [first [apply not_elem_of_filter_ne | by apply bool_decide_eq_false_1 in Hc]|].
  all: split; [reflexivity|].
  all: read_since.
  all: split; [by_kind is_transport_call|].
  all: split; [unfold Earlier.statusNotifications; cbn; in_calls | last_call].
Qed.

Lemma connect_timeout_earlier_witness :
  status (exec (Earlier.on_connect_timeout 1%nat)
            (exec (Earlier.connectTo (session_request None) None 1%nat) fresh_earlier))
  = RunnerStatus.SessionTimeout.
Proof.
  assert (Hin : ConnectTimeout 1%nat
                  ∈ timers (exec (Earlier.connectTo (session_request None) None 1%nat)
                              fresh_earlier)) by (vm_compute; left).
  destruct (connect_timeout_earlier _ 1%nat Hin) as (_ & Hrsd & _).
  unfold status. rewrite Hrsd. reflexivity.
Defined.

(** X22. A session-terminated event in the earlier revision cancels the
    connection timeout of its socket, disconnects the socket (whose
    disconnect listener empties the registry when the socket was
    connected), leaves the status SessionTerminated with the peer offline
    and no session id in the status data, notifies the termination as an
    error, and removes the persisted session of the ref of the request. The
    object keeps its socket and its session data, and so the session id it
    holds. *)
Theorem sessionTerminated_earlier (w : World) (sk : Socket) (d : SessionData.t) :
  let w' := exec (Earlier.on_sessionTerminated sk d) w in
  globalState w' = delete (SessionData.githubRef d) (globalState w) ∧
  _runnerStatusData w' = reset_statusData RunnerStatus.SessionTerminated (last_error w) ∧
  (sk ∉ connected w') ∧
  (ConnectTimeout sk ∉ timers w') ∧
  _terminals w' = (if bool_decide (sk ∈ connected w) then [] else _terminals w) ∧
  _data w' = _data w ∧
  socket w' = socket w ∧
  filter (λ e, is_transport_call e = true) (since w w') = [SocketDisconnect sk] ∧
  OnUpdate (payload (_runnerStatusData w') error (Some terminated_text)) ∈ since w w'.
Proof.
  unfold status, last_error. fields w. cbn.
  destruct (bool_decide (sk ∈ c)) eqn:Hc; cbn; try destruct p, st; cbn.
  all: repeat (split; [reflexivity|]).
  all: split; [first [apply not_elem_of_filter_ne | by apply bool_decide_eq_false_1 in Hc]|].
  all: split; [apply not_elem_of_filter_ne|].
  all: repeat (split; [reflexivity|]).
  all: read_since.
  all: split; [by_kind is_transport_call|].
  all: unfold Earlier.statusNotifications; cbn; in_calls.
Qed.

(** ** The first revision *)

Lemma since_oldest_app (w w' : Oldest.World) (es : list Oldest.Effect) :
  Oldest.trace w' = Oldest.trace w ++ es → since_oldest w w' = es.
Proof. intros E. unfold since_oldest. rewrite E. apply drop_app_length. Qed.

Lemma since_oldest_refl (w w' : Oldest.World) :
  Oldest.trace w' = Oldest.trace w → since_oldest w w' = [].
Proof. intros E. unfold since_oldest. rewrite E. apply drop_all. Qed.

Ltac fields_oldest w :=
  let d := fresh "d" in let ts := fresh "ts" in let st := fresh "st" in
  let cs := fresh "cs" in let s := fresh "s" in let p := fresh "p" in
  let c := fresh "c" in let tm := fresh "tm" in let ls := fresh "ls" in
  let tr := fresh "tr" in
  destruct w as [d ts st cs s p c tm ls tr].

Ltac since_oldest_trace :=
  first
    [ apply since_oldest_refl; reflexivity
    | apply since_oldest_app; cbn [Oldest.trace]; rewrite <- ?(assoc_L (++)); reflexivity ].
Ltac read_since_oldest :=
  first
    [ rewrite since_oldest_refl by reflexivity
    | erewrite since_oldest_app
        by (cbn [Oldest.trace]; rewrite <- ?(assoc_L (++)); reflexivity) ].

(** X23. [connectTo] of the first revision asks nothing and disconnects
    nothing: it makes a socket for the address of the request and leaves the
    sockets that were connected connected, with the listeners registered on
    them. The object then holds the request and the new socket, has no
    terminal, is Disconnected with the peer offline, with the connection
    timeout of the new socket armed. And the connect event of any socket,
    the new one or one made by an earlier [connectTo], then makes the status
    Connected and announces, on the socket it came over and to the callback
    of that socket, the session id of this latest request. *)
Theorem connectTo_oldest (w : Oldest.World) (d : SessionData.t) (sk sk' : Socket) :
  let w1 := Oldest.exec (Oldest.connectTo d sk) w in
  let w2 := Oldest.exec (Oldest.on_connect sk') w1 in
  (Oldest._data w1 = Some d ∧ Oldest.socket w1 = Some sk ∧ Oldest._terminals w1 = [] ∧
   Oldest.runnerStatus w1 = RunnerStatus.Disconnected ∧
   Oldest.runnerClientStatus w1 = RunnerClientStatus.Offline ∧
   Oldest.timers w1 = Oldest.timers w ++ [ConnectTimeout sk] ∧
   Oldest.connected w1 = Oldest.connected w ∧
   Oldest.listeners w1 = Oldest.listeners w ∧
   filter (λ e, is_transport_call_oldest e = true) (since_oldest w w1)
     = [Oldest.Io sk (SessionData.serverAddress d)]) ∧
  (Oldest.socket w2 = Some sk ∧
   Oldest.runnerStatus w2 = RunnerStatus.Connected ∧
   since_oldest w1 w2 =
     [Oldest.Emit sk' (Oldest.SetType (SessionData.sessionId d));
      Oldest.OnUpdate sk' (Oldest.connected_payload (SessionData.sessionId d))]).
Proof.
  fields_oldest w. destruct p; cbn.
  all: split; repeat (split; [reflexivity|]).
  all: first [since_oldest_trace | read_since_oldest; reflexivity].
Qed.

(** X24. The connection timeout of the first revision. An armed timeout
    that expires is armed no more. In Disconnected or Connected it
    disconnects its socket, tells the callback of its attempt that the
    connection timed out, as an error, and resolves the promise of
    [connectTo] to [false]; the status is then SessionTimeout, and stays so
    when the disconnect event of the socket arrives afterwards. In any other
    status, SessionStarted among them, nothing else happens. *)
Theorem connect_timeout_oldest (w : Oldest.World) (sk : Socket) :
  ConnectTimeout sk ∈ Oldest.timers w →
  let w' := Oldest.exec (Oldest.on_connect_timeout sk) w in
  let st := Oldest.runnerStatus w in
  (ConnectTimeout sk ∉ Oldest.timers w') ∧
  if RunnerStatus.eqb st RunnerStatus.Disconnected || RunnerStatus.eqb st RunnerStatus.Connected
  then
    Oldest.runnerStatus w' = RunnerStatus.SessionTimeout ∧
    (sk ∉ Oldest.connected w') ∧
    since_oldest w w' =
      Oldest.SocketDisconnect sk ::
      (if bool_decide (sk ∈ Oldest.connected w)
       then [Oldest.ClearTimeout (ConnectTimeout sk)] else []) ++
      [Oldest.OnUpdate sk Oldest.timeout_payload; Oldest.Resolve sk false] ∧
    Oldest.runnerStatus (Oldest.exec (Oldest.on_disconnect sk) w') = RunnerStatus.SessionTimeout
  else
    w' = Oldest.set_timers (filter (λ t, t ≠ ConnectTimeout sk) (Oldest.timers w)) w.
Proof.
  fields_oldest w. cbn. intros Hin. rewrite bool_decide_true by done. cbn.
  destruct st; cbn.
  all: try (split; [apply not_elem_of_filter_ne|reflexivity]).
  all: destruct (bool_decide (sk ∈ c)) eqn:Hc; cbn.
  all: split; [apply not_elem_of_filter_ne|].
  all: split; [reflexivity|].
  all: split; [first [apply not_elem_of_filter_ne | by apply bool_decide_eq_false_1 in Hc]|].
  all: split; [since_oldest_trace|reflexivity].
Qed.

Lemma connect_timeout_oldest_witness :
  Oldest.runnerStatus
    (Oldest.exec (Oldest.on_connect_timeout 1%nat)
       (Oldest.exec (Oldest.connectTo (session_request None) 1%nat) Oldest.new_world))
  = RunnerStatus.SessionTimeout.
Proof.
  assert (Hin : ConnectTimeout 1%nat
                  ∈ Oldest.timers (Oldest.exec (Oldest.connectTo (session_request None) 1%nat)
                                     Oldest.new_world)) by (vm_compute; left).
  destruct (connect_timeout_oldest _ 1%nat Hin) as (_ & Hst & _). exact Hst.
Defined.



(** X26. [activateTerminal] of the first revision. With the peer offline
    it answers [false] and the world stays as it is. With the peer online it
    answers [true] and the panel exists afterwards, created if there was
    none, also when nothing is activated. Asked to skip with a registry that
    is not empty it activates nothing and sends nothing; otherwise it
    appends one bash terminal of 80 columns and 30 rows with the id drawn,
    posts the ids of the registry to the panel, and sends the activation on
    the socket held. *)
Theorem activateTerminal_oldest (w : Oldest.World) (ignoreIfExists : bool) (newId : string) :
  let r := Oldest.activateTerminal ignoreIfExists newId w in
  let t := bash_terminal newId in
  match Oldest.runnerClientStatus w with
  | RunnerClientStatus.Offline => r = (false, w)
  | RunnerClientStatus.Online =>
      r.1 = true ∧ Oldest._panel r.2 = true ∧
      if ignoreIfExists && negb (Nat.eqb (length (Oldest._terminals w)) 0)
      then
        Oldest._terminals r.2 = Oldest._terminals w ∧
        filter (λ e, is_transport_call_oldest e = true) (since_oldest w r.2) = [] ∧
        filter (λ e, is_panel_call_oldest e = true) (since_oldest w r.2)
          = (if Oldest._panel w then [] else [Oldest.CreateWebviewPanel])
      else
        Oldest._terminals r.2 = Oldest._terminals w ++ [t] ∧
        filter (λ e, is_transport_call_oldest e = true) (since_oldest w r.2)
          = match Oldest.socket w with
            | Some sk => [Oldest.Emit sk (Oldest.ActivateTerminal t)]
            | None => []
            end ∧
        filter (λ e, is_panel_call_oldest e = true) (since_oldest w r.2)
          = (if Oldest._panel w then [] else [Oldest.CreateWebviewPanel]) ++
            [Oldest.PostSetTerminals (TerminalOptions.id <$> Oldest._terminals w ++ [t])]
  end.
Proof.
  fields_oldest w. cbn. destruct cs; cbn; [reflexivity|].
  destruct p, ignoreIfExists, ts as [|t0 ts]; cbn.
  all: try destruct s as [sk|]; cbn.
  all: repeat (split; [reflexivity|]).
  all: repeat (split; [read_since_oldest; reflexivity|]).
  all: read_since_oldest; reflexivity.
Qed.

Lemma times_keeps (P : Oldest.World → Prop) (m : Oldest.M unit) (n : nat) (w : Oldest.World) :
  (∀ w, P w → P (Oldest.exec m w)) → P w → P (Oldest.exec (Oldest.times n m) w).
Proof.
  intros Hm. revert w. induction n as [|n IH]; intros w Hw; [exact Hw|].
  cbn. specialize (Hm w Hw). unfold Oldest.exec in Hm. destruct (m w) as [[] w1]. cbn in *.
  by apply IH.
Qed.

Lemma registered_event (w : Oldest.World) (sk : Socket) (m : Oldest.M unit) :
  (∀ w, Oldest.listeners (Oldest.exec m w) = Oldest.listeners w) →
  not_started w →
  not_started (Oldest.exec (Oldest.bind (Oldest.registrations sk) (λ n, Oldest.times n m)) w).
Proof.
  intros Hm Hinv. destruct (Oldest.listeners w) as [|s ls] eqn:El.
  - fields_oldest w. cbn in El. subst ls. cbn. exact Hinv.
  - intros Hnil. exfalso.
    assert (Hk : Oldest.listeners
                   (Oldest.exec (Oldest.bind (Oldest.registrations sk) (λ n, Oldest.times n m)) w)
                 = Oldest.listeners w).
    { cbn. apply (times_keeps (λ w', Oldest.listeners w' = Oldest.listeners w)); [|done].
      intros w' Hw'. by rewrite Hm. }
    congruence.
Qed.

Ltac started_tac :=
  solve
    [ unfold not_started in *; cbn in *;
      let Hl := fresh "Hl" in
      intros Hl;
      first
        [ by split
        | by apply app_nil in Hl as [_ ?]
        | match goal with
          | H : _ = [] → _ |- _ =>
              destruct (H Hl) as [? ?]; try discriminate; subst; cbn in *; by split
          end ] ].

Lemma activateTerminal_not_started skp newId w :
  not_started w → not_started (Oldest.exec (Oldest.activateTerminal skp newId) w).
Proof.
  intros H. fields_oldest w. cbn. destruct cs; cbn; [started_tac|].
  destruct p, skp, ts as [|t0 ts]; cbn; try destruct s; started_tac.
Qed.

Lemma connectTo_not_started d sk w :
  not_started (Oldest.exec (Oldest.connectTo d sk) w).
Proof. fields_oldest w. cbn. destruct p; started_tac. Qed.

Lemma not_started_step w w' : step_oldest w w' → not_started w → not_started w'.
Proof.
  intros Hstep H. destruct Hstep as
    [w d sk | w sk | w sk | w sk id | w sk ts' | w sk terminalId | w sk terminalId data
    | w sk c' | w sk | w skp newId | w a newId | w a sk newId].
  - apply connectTo_not_started.
  - fields_oldest w. cbn. started_tac.
  - fields_oldest w. cbn. destruct st; started_tac.
  - fields_oldest w. cbn. destruct (truthy _ && _); cbn; [started_tac|].
    destruct st; cbn; try started_tac.
    destruct s; cbn; destruct (truthy _); cbn; try destruct s; cbn.
    all: try destruct (truthy (Some id)); cbn; try destruct d; started_tac.
  - apply registered_event; [|done]. intros w'. fields_oldest w'. cbn. by destruct p.
  - apply registered_event; [|done]. intros w'. fields_oldest w'. cbn. by destruct p.
  - apply registered_event; [|done]. intros w'. fields_oldest w'. cbn. by destruct p.
  - apply registered_event; [|done]. intros w'. by fields_oldest w'.
  - fields_oldest w. cbn. destruct (bool_decide (ConnectTimeout sk ∈ tm)); cbn; [|started_tac].
    destruct st; cbn; try started_tac.
    all: destruct (bool_decide (sk ∈ c)); cbn; started_tac.
  - by apply activateTerminal_not_started.
  - destruct a; try (fields_oldest w; cbn; try destruct p; try destruct s; started_tac).
    fields_oldest w. cbn. destruct cs; cbn; [started_tac|].
    destruct p, ts as [|t0 ts]; cbn; try destruct s; started_tac.
  - destruct a; try (fields_oldest w; cbn; try destruct p; started_tac).
    fields_oldest w. cbn. destruct cs; cbn; [started_tac|].
    destruct p, ts as [|t0 ts]; cbn; try destruct s; started_tac.
Qed.

Lemma reachable_oldest_invariant (w : Oldest.World) : reachable_oldest w → not_started w.
Proof.
  unfold reachable_oldest. revert w. apply rtc_ind_r.
  - by intros _.
  - intros w1 w2 _ Hstep IH. by eapply not_started_step.
Qed.

(** X27. In every world a session of the first revision reaches from a
    fresh object, by calls, webview actions, socket events and expiring
    timers in any order: as long as no session has started, so that no
    listener of the runner client is registered, the peer is offline and
    there is no terminal, and [activateTerminal] answers [false] and does
    nothing. *)
Theorem reachable_oldest_not_started (w : Oldest.World) :
  reachable_oldest w → Oldest.listeners w = [] →
  Oldest.runnerClientStatus w = RunnerClientStatus.Offline ∧
  Oldest._terminals w = [] ∧
  ∀ ignoreIfExists newId, Oldest.activateTerminal ignoreIfExists newId w = (false, w).
Proof.
  intros Hinv%reachable_oldest_invariant Hl. destruct (Hinv Hl) as [Hoff Hts].
  repeat (split; [done|]). intros skp newId.
  fields_oldest w. cbn in *. by subst cs.
Qed.

Lemma reachable_connected_oldest : reachable_oldest connected_oldest.
Proof.
  eapply rtc_r; [|apply step_oldest_connect].
  eapply rtc_once. apply step_oldest_control.
Qed.

Lemma reachable_oldest_not_started_witness :
  Oldest.runnerStatus connected_oldest = RunnerStatus.Connected ∧
  Oldest.activateTerminal false "T1" connected_oldest = (false, connected_oldest).
Proof.
  split; [reflexivity|].
  apply (reachable_oldest_not_started connected_oldest reachable_connected_oldest).
  reflexivity.
Defined.

(** X28. [handleAction] of the control panel. A connect request is never
    handed to the action handler: it goes to [connectTo], after which the
    object holds the payload as its session data and a new socket, in the
    status Disconnected. An activate-terminal action is never handed on
    either: it activates a terminal only if none exists, and does nothing at
    all while the peer is offline. Every other action is handed to the
    action handler, once and as it is, and nothing else happens. *)
Theorem control_panel_handleAction (w : Oldest.World) (a : WebviewAction.t) (sk : Socket)
    (newId : string) :
  let w' := Oldest.exec (ControlPanelView.handleAction a sk newId) w in
  match a with
  | WebviewAction.ConnectToRemoteSession d =>
      filter (λ e, is_forwarded e = true) (since_oldest w w') = [] ∧
      Oldest._data w' = Some d ∧ Oldest.socket w' = Some sk ∧
      Oldest.runnerStatus w' = RunnerStatus.Disconnected ∧
      filter (λ e, is_transport_call_oldest e = true) (since_oldest w w')
        = [Oldest.Io sk (SessionData.serverAddress d)]
  | WebviewAction.ActivateTerminal _ =>
      filter (λ e, is_forwarded e = true) (since_oldest w w') = [] ∧
      (Oldest.runnerClientStatus w = RunnerClientStatus.Offline → w' = w) ∧
      (Oldest._terminals w ≠ [] → Oldest._terminals w' = Oldest._terminals w) ∧
      (Oldest.runnerClientStatus w = RunnerClientStatus.Online → Oldest._terminals w = [] →
       Oldest._terminals w' = [bash_terminal newId])
  | _ => w' = Oldest.set_trace (Oldest.trace w ++ [Oldest.ActionHandler a]) w
  end.
Proof.
  fields_oldest w. destruct a; cbn; try reflexivity.
  - destruct p; cbn.
    all: split; [read_since_oldest; reflexivity|].
    all: repeat (split; [reflexivity|]).
    all: read_since_oldest; reflexivity.
  - destruct cs; cbn.
    + split; [by rewrite since_oldest_refl|]. done.
    + destruct p, ts as [|t0 ts]; cbn; try destruct s; cbn.
      all: split; [read_since_oldest; reflexivity|].
      all: split; [discriminate|]. all: split; [done|]. all: by intros _ ?.
Qed.

(** X29. [handleAction] of the terminal panel, in the first revision. A
    request for data posts the ids of the terminals to the panel. Terminal
    input and terminal dimensions are sent on the socket held, and dropped
    when none is held. None of these three changes a field of the object.
    An activate-terminal action always activates one more terminal when the
    peer is online, and does nothing when it is offline. A connect request
    and the eight other actions do nothing at all. *)
Theorem terminal_panel_handleAction (w : Oldest.World) (a : WebviewAction.t)
    (newId : string) :
  let w' := Oldest.exec (Oldest.handleAction a newId) w in
  match a with
  | WebviewAction.RequestData =>
      w' = Oldest.set_trace (Oldest.trace w') w ∧
      since_oldest w w' =
        (if Oldest._panel w
         then [Oldest.PostSetTerminals (TerminalOptions.id <$> Oldest._terminals w)] else [])
  | WebviewAction.TerminalCmd terminalId data =>
      w' = Oldest.set_trace (Oldest.trace w') w ∧
      since_oldest w w' =
        match Oldest.socket w with
        | Some sk => [Oldest.Emit sk (Oldest.Cmd terminalId data)]
        | None => []
        end
  | WebviewAction.TerminalSetDimensions id rows cols =>
      w' = Oldest.set_trace (Oldest.trace w') w ∧
      since_oldest w w' =
        match Oldest.socket w with
        | Some sk => [Oldest.Emit sk (Oldest.SetTerminalDimensions id rows cols)]
        | None => []
        end
  | WebviewAction.ActivateTerminal _ =>
      (Oldest.runnerClientStatus w = RunnerClientStatus.Offline → w' = w) ∧
      (Oldest.runnerClientStatus w = RunnerClientStatus.Online →
       Oldest._terminals w' = Oldest._terminals w ++ [bash_terminal newId])
  | WebviewAction.ConnectToRemoteSession _ | WebviewAction.Other _ => w' = w
  end.
Proof.
  fields_oldest w. destruct a; cbn; try reflexivity.
  - destruct p; cbn; (split; [reflexivity|since_oldest_trace]).
  - destruct cs; cbn; [done|]. split; [done|]. intros _.
    destruct p, ts as [|t0 ts]; cbn; try destruct s; reflexivity.
  - destruct s; cbn; (split; [reflexivity|since_oldest_trace]).
  - destruct s; cbn; (split; [reflexivity|since_oldest_trace]).
Qed.

Lemma exec_times_S (n : nat) (m : Oldest.M unit) (w : Oldest.World) :
  Oldest.exec (Oldest.times (S n) m) w = Oldest.exec (Oldest.times n m) (Oldest.exec m w).
Proof. unfold Oldest.exec. cbn [Oldest.times]. unfold Oldest.bind. by destruct (m w). Qed.

Lemma times_call (e : Oldest.Effect) (n : nat) (w : Oldest.World) :
  Oldest.exec (Oldest.times n (Oldest.call e)) w
  = Oldest.set_trace (Oldest.trace w ++ replicate n e) w.
Proof.
  revert w. induction n as [|n IH]; intros w.
  - fields_oldest w. cbn. by rewrite app_nil_r.
  - rewrite exec_times_S, IH. fields_oldest w. cbn. by rewrite <- (assoc_L (++)).
Qed.

(** X30. In the first revision every accepted session start registers the
    listeners of the runner client once more. When the socket held
    disconnects, connects again and has its session started again, the
    listeners are registered on it one more time than before, and each
    output of a terminal that arrives over it is then posted to the panel
    once per registration. *)
Theorem reconnect_registers_again (w : Oldest.World) (sk : Socket) (id : string) :
  Oldest.socket w = Some sk → mismatch_oldest w id = false →
  let w' := Oldest.exec (Oldest.on_sessionStarted sk id)
              (Oldest.exec (Oldest.on_connect sk) (Oldest.exec (Oldest.on_disconnect sk) w)) in
  let n := Oldest.eval (Oldest.registrations sk) w in
  Oldest.eval (Oldest.registrations sk) w' = S n ∧
  Oldest._panel w' = Oldest._panel w ∧
  (Oldest._panel w = true →
   ∀ terminalId data,
     since_oldest w' (Oldest.exec (Oldest.on_stdout sk terminalId data) w')
     = replicate (S n) (Oldest.PostTerminalStdout terminalId data)).
Proof.
  intros Hs Hm w' n.
  assert (H : Oldest.listeners w' = Oldest.listeners w ++ [sk]
              ∧ Oldest._panel w' = Oldest._panel w).
  { subst w'. revert Hs Hm. unfold mismatch_oldest. fields_oldest w. cbn. intros -> Hm.
    destruct st; cbn; rewrite ?Hm; cbn.
    all: destruct (truthy (d ≫= SessionData.sessionId)); cbn.
    all: destruct (truthy (Some id)); cbn; try destruct d; cbn; done. }
  destruct H as [Hl Hp].
  assert (Hn : Oldest.eval (Oldest.registrations sk) w' = S n).
  { subst n. cbn. rewrite Hl, filter_app, length_app. cbn.
    rewrite decide_True by done. cbn. lia. }
  split; [exact Hn|]. split; [exact Hp|]. intros Hpanel terminalId data.
  rewrite <- Hp in Hpanel. clearbody w' n. clear Hl Hp Hs Hm.
  assert (Hpost : ∀ k v, Oldest._panel v = true →
    Oldest.exec (Oldest.times k
      (Oldest.bind (Oldest.gets Oldest._panel)
         (λ p, Oldest.when p (Oldest.call (Oldest.PostTerminalStdout terminalId data))))) v
    = Oldest.set_trace
        (Oldest.trace v ++ replicate k (Oldest.PostTerminalStdout terminalId data)) v).
  { induction k as [|k IH]; intros v Hv.
    - destruct v. cbn. by rewrite app_nil_r.
    - rewrite exec_times_S.
      assert (Hone : Oldest.exec
                (Oldest.bind (Oldest.gets Oldest._panel)
                   (λ p, Oldest.when p
                           (Oldest.call (Oldest.PostTerminalStdout terminalId data)))) v
              = Oldest.set_trace
                  (Oldest.trace v ++ [Oldest.PostTerminalStdout terminalId data]) v).
      { destruct v as [? ? ? ? ? pv ? ? ? ?]. cbn in Hv. by subst pv. }
      rewrite Hone, IH by (by destruct v). destruct v. cbn. by rewrite <- (assoc_L (++)). }
  apply since_oldest_app.
  change (Oldest.exec (Oldest.on_stdout sk terminalId data) w')
    with (Oldest.exec (Oldest.times (Oldest.eval (Oldest.registrations sk) w')
            (Oldest.bind (Oldest.gets Oldest._panel)
               (λ p, Oldest.when p (Oldest.call (Oldest.PostTerminalStdout terminalId data)))))
            w').
  rewrite Hn, Hpost by done. by destruct w'.
Qed.

Lemma reconnect_registers_again_witness :
  Oldest.eval (Oldest.registrations 1%nat)
    (Oldest.exec (Oldest.on_sessionStarted 1%nat "abc")
       (Oldest.exec (Oldest.on_connect 1%nat)
          (Oldest.exec (Oldest.on_disconnect 1%nat) connected_oldest)))
  = 1%nat.
Proof.
  apply (reconnect_registers_again connected_oldest 1%nat "abc"); reflexivity.
Defined.
